(** * NextGen Manager: the scheduling core of [main.py]

    A shallow embedding of the group scheduler bot: the time utilities
    ([make_dt], [overlaps]), the three worksheets behind the bot (confirmed
    slots, pending proposals, meta), the command and callback handlers
    ([addslot], [handle_callback], [me_cmd], [team_cmd], [cancel_cmd],
    [setteam]) and the reminder job ([check_reminders]).

    Handlers run in a small state-and-exception monad over the three
    worksheets; every call that crosses the process boundary (worksheet
    access, chat output) is recorded in a trace, in program order.

    What the model takes from its surroundings:
    - a worksheet is its header row plus data rows of text cells; a cell is
      read back as the text that was written (the conversion of number-like
      cell text that [get_all_records] can apply is not modelled), and
      worksheet calls do not fail;
    - [Worksheet.find] looks at every cell, row after row;
    - [reply_text], [edit_message_text] and [answer] go through, while
      [send_message] to the group may raise;
    - texts are ASCII; [date.fromisoformat] reads the [YYYY-MM-DD] form and
      [strptime] the pattern [%H:%M];
    - the clock, the random identifier and the transport are inputs. *)

From Stdlib Require Import ZArith List Bool Lia Ascii String DecimalString
  DecimalZ.
Import ListNotations.
Local Open Scope string_scope.
Local Open Scope Z_scope.

(* ================================================================== *)
(** * Text helpers (the fragments of Python's [str] the bot relies on) *)
(* ================================================================== *)

Module PyStr.

(** Value of an ASCII decimal digit: the characters from code 48 ("0") to
    code 57 ("9"). *)
Definition digit_val (c : ascii) : option Z :=
  let code := Z.of_nat (nat_of_ascii c) in
  if (48 <=? code) && (code <=? 57) then Some (code - 48) else None.

Definition is_digit (c : ascii) : bool :=
  match digit_val c with Some _ => true | None => false end.

Definition digit_char (n : Z) : ascii :=
  match n with
  | 0 => "0" | 1 => "1" | 2 => "2" | 3 => "3" | 4 => "4"
  | 5 => "5" | 6 => "6" | 7 => "7" | 8 => "8" | _ => "9"
  end%char.

(** [str(n)] for a Python [int]. *)
Definition str_of_int (n : Z) : string :=
  NilZero.string_of_int (Z.to_int n).

(** [s.startswith(p)]. *)
Definition startswith (p s : string) : bool := String.prefix p s.

(** [s.split(sep, 1)[1]] for a one-character separator: the text after the
    first separator; [None] stands for the [IndexError] when there is no
    separator. *)
Fixpoint after_first (sep : ascii) (s : string) : option string :=
  match s with
  | EmptyString => None
  | String c r => if Ascii.eqb c sep then Some r else after_first sep r
  end.

(** [s.split(sep)] for a one-character separator. *)
Fixpoint split_on (sep : ascii) (s : string) : list string :=
  match s with
  | EmptyString => [EmptyString]
  | String c r =>
      if Ascii.eqb c sep then EmptyString :: split_on sep r
      else match split_on sep r with
           | [] => [String c EmptyString]
           | w :: ws => String c w :: ws
           end
  end.

(** [" ".join(ws)]. *)
Fixpoint join_sp (ws : list string) : string :=
  match ws with
  | [] => EmptyString
  | [w] => w
  | w :: ws' => w ++ " " ++ join_sp ws'
  end.

(** ASCII white space, as removed by [str.strip()]. *)
Definition is_space (c : ascii) : bool :=
  match c with
  | " "%char | "009"%char | "010"%char | "011"%char | "012"%char
  | "013"%char | "028"%char | "029"%char | "030"%char | "031"%char => true
  | _ => false
  end.

Fixpoint lstrip (s : string) : string :=
  match s with
  | EmptyString => EmptyString
  | String c r => if is_space c then lstrip r else s
  end.

Fixpoint rev_str (acc s : string) : string :=
  match s with
  | EmptyString => acc
  | String c r => rev_str (String c acc) r
  end.

Definition strip (s : string) : string :=
  rev_str EmptyString (lstrip (rev_str EmptyString (lstrip s))).

(** [str.lower()] on ASCII letters. *)
Definition lower_char (c : ascii) : ascii :=
  let n := nat_of_ascii c in
  if (andb (Nat.leb 65 n) (Nat.leb n 90)) then ascii_of_nat (n + 32) else c.

Fixpoint lower (s : string) : string :=
  match s with
  | EmptyString => EmptyString
  | String c r => String (lower_char c) (lower r)
  end.

(** Python truthiness of an optional text ([None] and [""] are false). *)
Definition truthy (o : option string) : bool :=
  match o with
  | None => false
  | Some s => negb (String.eqb s "")
  end.

(** [a or b] on texts. *)
Definition or_else (a b : string) : string :=
  if String.eqb a "" then b else a.

End PyStr.

(* ================================================================== *)
(** * Dates, times and instants *)
(* ================================================================== *)

Module Time.
Import PyStr.

Record date := mk_date { year : Z; month : Z; day : Z }.

(** A [datetime.datetime]: calendar fields plus the attached zone
    ([None] is a naive datetime). *)
Record datetime := mk_datetime {
  dt_date : date;
  dt_hour : Z;
  dt_minute : Z;
  dt_second : Z;
  dt_microsecond : Z;
  tzinfo : option string
}.

Definition is_leap (y : Z) : bool :=
  (y mod 4 =? 0) && (negb (y mod 100 =? 0) || (y mod 400 =? 0)).

Definition days_in_month (y m : Z) : Z :=
  match m with
  | 1 => 31 | 2 => if is_leap y then 29 else 28 | 3 => 31 | 4 => 30
  | 5 => 31 | 6 => 30 | 7 => 31 | 8 => 31 | 9 => 30 | 10 => 31
  | 11 => 30 | 12 => 31 | _ => 0
  end.

Definition days_before_year (y : Z) : Z :=
  let y' := y - 1 in y' * 365 + y' / 4 - y' / 100 + y' / 400.

Definition days_before_month (y m : Z) : Z :=
  match m with
  | 1 => 0 | 2 => 31 | 3 => 59 | 4 => 90 | 5 => 120 | 6 => 151
  | 7 => 181 | 8 => 212 | 9 => 243 | 10 => 273 | 11 => 304 | _ => 334
  end + (if (2 <? m) && is_leap y then 1 else 0).

(** [date.toordinal()]: 0001-01-01 is day 1. *)
Definition toordinal (d : date) : Z :=
  days_before_year (year d) + days_before_month (year d) (month d) + day d.

(** Microseconds of wall-clock time since 0001-01-01T00:00.  All instants
    of one run carry the same [tzinfo] (the process constant [TZ]), and
    Python then orders datetimes by their calendar fields, which is the
    order of this number. *)
Definition wallclock (t : datetime) : Z :=
  ((((toordinal (dt_date t) - 1) * 24 + dt_hour t) * 60 + dt_minute t) * 60
     + dt_second t) * 1000000 + dt_microsecond t.

Definition dt_lt (a b : datetime) : bool := wallclock a <? wallclock b.

(** [timedelta(minutes=n)] in microseconds. *)
Definition minutes (n : Z) : Z := n * 60 * 1000000.

Definition valid_ymd (y m d : Z) : bool :=
  (1 <=? y) && (y <=? 9999) && (1 <=? m) && (m <=? 12)
    && (1 <=? d) && (d <=? days_in_month y m).

Definition digits2 (a b : ascii) : option Z :=
  match digit_val a, digit_val b with
  | Some x, Some y => Some (10 * x + y)
  | _, _ => None
  end.

Definition digits4 (a b c d : ascii) : option Z :=
  match digits2 a b, digits2 c d with
  | Some x, Some y => Some (100 * x + y)
  | _, _ => None
  end.

(** [date.fromisoformat]: the [YYYY-MM-DD] form, which is what
    [date.isoformat()] prints and what the [/addslot] pattern lets
    through.  [None] stands for the [ValueError]. *)
Definition fromisoformat (s : string) : option date :=
  match s with
  | String y1 (String y2 (String y3 (String y4 (String sep1
      (String m1 (String m2 (String sep2
        (String d1 (String d2 EmptyString))))))))) =>
      if Ascii.eqb sep1 "-" && Ascii.eqb sep2 "-" then
        match digits4 y1 y2 y3 y4, digits2 m1 m2, digits2 d1 d2 with
        | Some y, Some m, Some d =>
            if valid_ymd y m d then Some (mk_date y m d) else None
        | _, _, _ => None
        end
      else None
  | _ => None
  end.

(** The [%H] group of [strptime]: [2[0-3]|[0-1]\d|\d], tried in that
    order; the alternative kept is the one after which [:] follows. *)
Definition strptime_H (s : string) : option (Z * string) :=
  match s with
  | String a (String b r) =>
      if Ascii.eqb b ":" then
        match digit_val a with
        | Some x => Some (x, r)
        | None => None
        end
      else
        match r with
        | String c r' =>
            if Ascii.eqb c ":" then
              match digit_val a, digit_val b with
              | Some x, Some y =>
                  if ((x =? 2) && (y <=? 3)) || (x <=? 1)
                  then Some (10 * x + y, r') else None
              | _, _ => None
              end
            else None
        | EmptyString => None
        end
  | _ => None
  end.

(** The [%M] group: [[0-5]\d|\d], first alternative that matches. *)
Definition strptime_M (s : string) : option (Z * string) :=
  match s with
  | String a r =>
      match digit_val a with
      | Some x =>
          match r with
          | String b r' =>
              match digit_val b with
              | Some y => if x <=? 5 then Some (10 * x + y, r') else Some (x, r)
              | None => Some (x, r)
              end
          | EmptyString => Some (x, r)
          end
      | None => None
      end
  | EmptyString => None
  end.

(** [datetime.strptime(s, "%H:%M")], reduced to (hour, minute); text left
    over after the match is the "unconverted data remains" error. *)
Definition strptime_HM (s : string) : option (Z * Z) :=
  match strptime_H s with
  | Some (h, r) =>
      match strptime_M r with
      | Some (m, EmptyString) => Some (h, m)
      | _ => None
      end
  | None => None
  end.

(** [datetime.combine(d, time(h, m))]. *)
Definition combine (d : date) (hm : Z * Z) : datetime :=
  mk_datetime d (fst hm) (snd hm) 0 0 None.

Definition replace_tzinfo (t : datetime) (tz : option string) : datetime :=
  mk_datetime (dt_date t) (dt_hour t) (dt_minute t) (dt_second t)
              (dt_microsecond t) tz.

Section WithTZ.
(** The module-level constant [TZ]: the configured zone, or [None]. *)
Variable TZ : option string.

Definition make_dt (date_str time_str : string) : option datetime :=
  match fromisoformat date_str with
  | None => None
  | Some d =>
      match strptime_HM time_str with
      | None => None
      | Some hhmm =>
          match TZ with
          | Some _ => Some (replace_tzinfo (combine d hhmm) TZ)
          | None => Some (combine d hhmm)
          end
      end
  end.
End WithTZ.

Definition overlaps (a_start a_end b_start b_end : datetime) : bool :=
  dt_lt a_start b_end && dt_lt b_start a_end.

(** ** Reference notions of the specification, for comparison *)

Definition pad2 (n : Z) : string :=
  String (digit_char (n / 10)) (String (digit_char (n mod 10)) EmptyString).

Definition pad4 (n : Z) : string :=
  pad2 (n / 100) ++ pad2 (n mod 100).

Definition iso_date (y m d : Z) : string :=
  pad4 y ++ "-" ++ pad2 m ++ "-" ++ pad2 d.

(** "date is a valid calendar date". *)
Definition valid_calendar_date (s : string) : Prop :=
  exists y m d, valid_ymd y m d = true /\ s = iso_date y m d.

(** "timeOfDay matches 24-hour HH:MM": two digits, colon, two digits. *)
Definition matches_HHMM (s : string) : Prop :=
  exists h m, 0 <= h < 24 /\ 0 <= m < 60 /\ s = pad2 h ++ ":" ++ pad2 m.

(** The ways [%H] and [%M] read a number: two digits, or one digit when
    it is below ten. *)
Definition renderings (n : Z) : list string :=
  if n <? 10 then [pad2 n; String (digit_char n) EmptyString] else [pad2 n].

Definition reads_as_time (s : string) (h m : Z) : Prop :=
  0 <= h < 24 /\ 0 <= m < 60 /\
  exists hh mm, In hh (renderings h) /\ In mm (renderings m) /\
                s = hh ++ ":" ++ mm.

End Time.

(* ================================================================== *)
(** * The three worksheets *)
(* ================================================================== *)

Module Sheets.

(** A data row of the [slots] worksheet, one field per header column
    (lines 86 and 282 of the source).  Cells hold text. *)
Record slot_row := mk_slot {
  s_id : string;
  s_date : string;
  s_start_time : string;
  s_end_time : string;
  s_username : string;
  s_first_name : string;
  s_user_id : string;
  s_details : string;
  s_created_at : string;
  s_reminder_sent : string
}.

(** A data row of the [pending] worksheet (lines 93 and 289). *)
Record pending_row := mk_pending {
  p_id : string;
  p_date : string;
  p_start_time : string;
  p_end_time : string;
  p_username : string;
  p_first_name : string;
  p_user_id : string;
  p_details : string;
  p_created_at : string
}.

Definition slots_header : list string :=
  ["id"; "date"; "start_time"; "end_time"; "username"; "first_name";
   "user_id"; "details"; "created_at"; "reminder_sent"].

Definition pending_header : list string :=
  ["id"; "date"; "start_time"; "end_time"; "username"; "first_name";
   "user_id"; "details"; "created_at"].

Definition slot_cells (r : slot_row) : list string :=
  [s_id r; s_date r; s_start_time r; s_end_time r; s_username r;
   s_first_name r; s_user_id r; s_details r; s_created_at r;
   s_reminder_sent r].

Definition pending_cells (r : pending_row) : list string :=
  [p_id r; p_date r; p_start_time r; p_end_time r; p_username r;
   p_first_name r; p_user_id r; p_details r; p_created_at r].

(** The spreadsheet: data rows of each worksheet, in sheet order.  Row 1 of
    every worksheet is its header, written once by [init_sheets]; data row
    [i] (from 0) is sheet row [i + 2]. *)
Record store := mk_store {
  SLOTS_SHEET : list slot_row;
  PENDING_SHEET : list pending_row;
  META_SHEET : list (string * string)
}.

(** [Worksheet.find(q)]: the first cell, rows first, whose text is [q];
    the result is its sheet row.  Every column is searched. *)
Fixpoint find_from (n : nat) (grid : list (list string)) (q : string)
  : option nat :=
  match grid with
  | [] => None
  | cells :: rest =>
      if existsb (String.eqb q) cells then Some n
      else find_from (S n) rest q
  end.

Definition find (header : list string) (rows : list (list string))
           (q : string) : option nat :=
  find_from 1 (header :: rows) q.

(** [Worksheet.delete_rows(n)] on the data rows; sheet row 1 is the header
    row, which this model does not track. *)
Fixpoint remove_at {A} (i : nat) (l : list A) : list A :=
  match l, i with
  | [], _ => []
  | _ :: t, O => t
  | x :: t, S j => x :: remove_at j t
  end.

Definition delete_rows {A} (n : nat) (rows : list A) : list A :=
  match n with
  | O | 1%nat => rows
  | S (S i) => remove_at i rows
  end.

Fixpoint update_at {A} (i : nat) (f : A -> A) (l : list A) : list A :=
  match l, i with
  | [], _ => []
  | x :: t, O => f x :: t
  | x :: t, S j => x :: update_at j f t
  end.

Definition set_reminder_sent (v : string) (r : slot_row) : slot_row :=
  mk_slot (s_id r) (s_date r) (s_start_time r) (s_end_time r)
          (s_username r) (s_first_name r) (s_user_id r) (s_details r)
          (s_created_at r) v.

(** [SLOTS_SHEET.update_cell(n, 10, v)]. *)
Definition update_cell_10 (n : nat) (v : string) (rows : list slot_row)
  : list slot_row :=
  match n with
  | O | 1%nat => rows
  | S (S i) => update_at i (set_reminder_sent v) rows
  end.

(** [sheet.cell(n, 7).value]. *)
Definition cell_7 (header : list string) (rows : list (list string))
           (n : nat) : string :=
  nth 6 (nth (n - 1) (header :: rows) []) "".

(** [META_SHEET.update_cell(n, 2, v)]. *)
Definition update_cell_2 (n : nat) (v : string)
           (rows : list (string * string)) : list (string * string) :=
  match n with
  | O | 1%nat => rows
  | S (S i) => update_at i (fun kv => (fst kv, v)) rows
  end.

End Sheets.

(* ================================================================== *)
(** * Chat traffic and the handler monad *)
(* ================================================================== *)

Module Bot.
Import PyStr Time Sheets.

Record user := mk_user {
  u_id : Z;
  u_username : option string;
  u_first_name : option string
}.

(** [x or ""] for an optional text. *)
Definition text_or_empty (o : option string) : string :=
  match o with Some s => s | None => "" end.

(** Messages, by meaning; the payload is the data the text is built from. *)
Inductive msg :=
| MsgHelp
| MsgSetteamInGroup
| MsgRegistered (chat : Z)
| MsgNoTeamAddslot
| MsgNotTeamGroupAddslot
| MsgUsageAddslot
| MsgCouldNotParse
| MsgTimesMustBeHHMM
| MsgInvalidDateTime
| MsgStartBeforeEnd
| MsgSlotAdded (who : user) (row : slot_row)
| MsgOverlapPrompt (who : user) (found : list slot_row) (slot_id : string)
| MsgPendingNotFound
| MsgOnlyCreator
| MsgSlotConfirmed (p : pending_row) (found : list slot_row)
| MsgConfirmedAndPosted
| MsgCancelledNotAdded
| MsgNoTeam
| MsgRunInside (cmd : string)
| MsgNoSlotsFor (d : string)
| MsgYourSlots (d : string) (rows : list slot_row)
| MsgTeamSlots (d : string) (rows : list slot_row)
               (pairs : list (slot_row * slot_row))
| MsgUsageCancel
| MsgOnlyCancelOwn
| MsgSlotRemoved (slot_id : string) (who : user)
| MsgOnlyCancelOwnPending
| MsgPendingCancelled (slot_id : string) (who : user)
| MsgSlotIdNotFound
| MsgReminder (rec : slot_row).

(** Calls on the worksheets. *)
Inductive sheet_call :=
| MetaGetAllRecords
| MetaUpdateCell (n : nat) (v : string)
| MetaAppendRow (k v : string)
| SlotsGetAllRecords
| SlotsAppendRow (r : slot_row)
| SlotsFind (q : string)
| SlotsCell (n : nat)
| SlotsDeleteRows (n : nat)
| SlotsUpdateCell (n : nat) (v : string)
| PendingGetAllRecords
| PendingAppendRow (r : pending_row)
| PendingFind (q : string)
| PendingCell (n : nat)
| PendingDeleteRows (n : nat).

(** What a handler does to the outside, in program order. *)
Inductive event :=
| Sheet (c : sheet_call)
| Answer
| Reply (m : msg)
| Edit (m : msg)
| Send (chat : string) (m : msg) (delivered : bool)
| LogException.

Inductive exn := ValueError | IndexError | SendFailed.

Inductive outcome (A : Type) :=
| Done (a : A)
| Raised (e : exn).
Arguments Done {A} a.
Arguments Raised {A} e.

Record world := mk_world {
  sheets : store;
  trace : list event
}.

Definition M (A : Type) := world -> outcome A * world.

Definition ret {A} (a : A) : M A := fun w => (Done a, w).

Definition bind {A B} (m : M A) (f : A -> M B) : M B :=
  fun w => match m w with
           | (Done a, w') => f a w'
           | (Raised e, w') => (Raised e, w')
           end.

Definition raise {A} (e : exn) : M A := fun w => (Raised e, w).

(** [try: m  except Exception: h]. *)
Definition try_except {A} (m : M A) (h : M A) : M A :=
  fun w => match m w with
           | (Done a, w') => (Done a, w')
           | (Raised _, w') => h w'
           end.

Definition emit (e : event) : M unit :=
  fun w => (Done tt, mk_world (sheets w) (trace w ++ [e])).

Definition get_sheets : M store := fun w => (Done (sheets w), w).

Definition put_sheets (s : store) : M unit :=
  fun w => (Done tt, mk_world s (trace w)).

Notation "x <- m ;; k" := (bind m (fun x => k))
  (at level 61, m at next level, right associativity).
Notation "m ;; k" := (bind m (fun _ => k))
  (at level 61, right associativity).

(** ** Worksheet calls *)

Definition meta_get_all_records : M (list (string * string)) :=
  emit (Sheet MetaGetAllRecords) ;;
  s <- get_sheets ;;
  ret (META_SHEET s).

Definition meta_update_cell (n : nat) (v : string) : M unit :=
  emit (Sheet (MetaUpdateCell n v)) ;;
  s <- get_sheets ;;
  put_sheets (mk_store (SLOTS_SHEET s) (PENDING_SHEET s)
                       (update_cell_2 n v (META_SHEET s))).

Definition meta_append_row (k v : string) : M unit :=
  emit (Sheet (MetaAppendRow k v)) ;;
  s <- get_sheets ;;
  put_sheets (mk_store (SLOTS_SHEET s) (PENDING_SHEET s)
                       (META_SHEET s ++ [(k, v)])).

Definition slots_get_all_records : M (list slot_row) :=
  emit (Sheet SlotsGetAllRecords) ;;
  s <- get_sheets ;;
  ret (SLOTS_SHEET s).

Definition slots_append_row (r : slot_row) : M unit :=
  emit (Sheet (SlotsAppendRow r)) ;;
  s <- get_sheets ;;
  put_sheets (mk_store (SLOTS_SHEET s ++ [r]) (PENDING_SHEET s)
                       (META_SHEET s)).

Definition slots_find (q : string) : M (option nat) :=
  emit (Sheet (SlotsFind q)) ;;
  s <- get_sheets ;;
  ret (find slots_header (map slot_cells (SLOTS_SHEET s)) q).

Definition slots_cell_7 (n : nat) : M string :=
  emit (Sheet (SlotsCell n)) ;;
  s <- get_sheets ;;
  ret (cell_7 slots_header (map slot_cells (SLOTS_SHEET s)) n).

Definition slots_delete_rows (n : nat) : M unit :=
  emit (Sheet (SlotsDeleteRows n)) ;;
  s <- get_sheets ;;
  put_sheets (mk_store (delete_rows n (SLOTS_SHEET s)) (PENDING_SHEET s)
                       (META_SHEET s)).

Definition slots_update_cell_10 (n : nat) (v : string) : M unit :=
  emit (Sheet (SlotsUpdateCell n v)) ;;
  s <- get_sheets ;;
  put_sheets (mk_store (update_cell_10 n v (SLOTS_SHEET s))
                       (PENDING_SHEET s) (META_SHEET s)).

Definition pending_get_all_records : M (list pending_row) :=
  emit (Sheet PendingGetAllRecords) ;;
  s <- get_sheets ;;
  ret (PENDING_SHEET s).

Definition pending_append_row (r : pending_row) : M unit :=
  emit (Sheet (PendingAppendRow r)) ;;
  s <- get_sheets ;;
  put_sheets (mk_store (SLOTS_SHEET s) (PENDING_SHEET s ++ [r])
                       (META_SHEET s)).

Definition pending_find (q : string) : M (option nat) :=
  emit (Sheet (PendingFind q)) ;;
  s <- get_sheets ;;
  ret (find pending_header (map pending_cells (PENDING_SHEET s)) q).

Definition pending_cell_7 (n : nat) : M string :=
  emit (Sheet (PendingCell n)) ;;
  s <- get_sheets ;;
  ret (cell_7 pending_header (map pending_cells (PENDING_SHEET s)) n).

Definition pending_delete_rows (n : nat) : M unit :=
  emit (Sheet (PendingDeleteRows n)) ;;
  s <- get_sheets ;;
  put_sheets (mk_store (SLOTS_SHEET s) (delete_rows n (PENDING_SHEET s))
                       (META_SHEET s)).

(** ** Sheets helpers (lines 102 to 173) *)

Fixpoint first_value (key : string) (rows : list (string * string))
  : option string :=
  match rows with
  | [] => None
  | (k, v) :: rest => if String.eqb k key then Some v else first_value key rest
  end.

Definition get_meta_value (key : string) : M (option string) :=
  rows <- meta_get_all_records ;;
  ret (first_value key rows).

(** Sheet row of the first record whose key is [key] ([enumerate] from 2). *)
Fixpoint first_key_row (idx : nat) (key : string)
         (rows : list (string * string)) : option nat :=
  match rows with
  | [] => None
  | (k, _) :: rest =>
      if String.eqb k key then Some idx else first_key_row (S idx) key rest
  end.

Definition set_meta_value (key value : string) : M unit :=
  rows <- meta_get_all_records ;;
  match first_key_row 2 key rows with
  | Some idx => meta_update_cell idx value
  | None => meta_append_row key value
  end.

Definition all_slots_records : M (list slot_row) := slots_get_all_records.

Definition all_pending_records : M (list pending_row) :=
  pending_get_all_records.

Definition append_slot_row (row_values : slot_row) : M unit :=
  slots_append_row row_values.

Definition append_pending_row (row_values : pending_row) : M unit :=
  pending_append_row row_values.

Definition find_slot_row (slot_id : string) : M (option nat) :=
  slots_find slot_id.

Definition find_pending_row (slot_id : string) : M (option nat) :=
  pending_find slot_id.

Fixpoint first_pending (slot_id : string) (rows : list pending_row)
  : option pending_row :=
  match rows with
  | [] => None
  | r :: rest =>
      if String.eqb (p_id r) slot_id then Some r else first_pending slot_id rest
  end.

Definition get_pending_record (slot_id : string) : M (option pending_row) :=
  rows <- all_pending_records ;;
  ret (first_pending slot_id rows).

Definition delete_pending (slot_id : string) : M bool :=
  row <- find_pending_row slot_id ;;
  match row with
  | Some n => pending_delete_rows n ;; ret true
  | None => ret false
  end.

Definition update_reminder_sent (slot_id : string) : M bool :=
  row <- find_slot_row slot_id ;;
  match row with
  | None => ret false
  | Some n => slots_update_cell_10 n "yes" ;; ret true
  end.

Definition delete_slot (slot_id : string) : M bool :=
  row <- find_slot_row slot_id ;;
  match row with
  | Some n => slots_delete_rows n ;; ret true
  | None => ret false
  end.

(** ** What a handler is called with *)

(** The parts of [update] and [context] a command handler reads. *)
Record update := mk_update {
  effective_chat_id : Z;
  effective_chat_type : string;
  effective_user : user;
  args : list string
}.

(** The parts of [update.callback_query] the callback handler reads. *)
Record callback_query := mk_query {
  q_data : option string;
  q_from_user : user
}.

(** What [addslot] draws from its surroundings: [date.today().isoformat()],
    [uuid.uuid4().hex] and [datetime.now(...).isoformat()]. *)
Record env := mk_env {
  today_iso : string;
  uuid4_hex : string;
  now_iso : string
}.

(** ** The patterns of [addslot] *)

Definition newline : string := String "010" EmptyString.

(** [$]: the end of the text, or just before a final newline. *)
Definition at_end (s : string) : bool :=
  String.eqb s "" || String.eqb s newline.

(** [\d{1,2}:\d{2}] at the head of [s]; the rest of the text. *)
Definition eat_hm (s : string) : option string :=
  match s with
  | String a (String b r) =>
      if Ascii.eqb b ":" then
        match r with
        | String c (String d r') =>
            if is_digit a && is_digit c && is_digit d then Some r' else None
        | _ => None
        end
      else
        match r with
        | String sep (String c (String d r')) =>
            if Ascii.eqb sep ":" && is_digit a && is_digit b
               && is_digit c && is_digit d
            then Some r' else None
        | _ => None
        end
  | _ => None
  end.

(** [re.match(r"^\d{4}-\d{2}-\d{2}$", s)]. *)
Definition re_date (s : string) : bool :=
  match s with
  | String y1 (String y2 (String y3 (String y4 (String sep1
      (String m1 (String m2 (String sep2 (String d1 (String d2 r))))))))) =>
      is_digit y1 && is_digit y2 && is_digit y3 && is_digit y4
      && Ascii.eqb sep1 "-" && is_digit m1 && is_digit m2
      && Ascii.eqb sep2 "-" && is_digit d1 && is_digit d2
      && at_end r
  | _ => false
  end.

(** [re.match(r"^\d{1,2}:\d{2}-\d{1,2}:\d{2}$", s)]. *)
Definition re_range (s : string) : bool :=
  match eat_hm s with
  | Some (String sep r) =>
      Ascii.eqb sep "-" &&
      match eat_hm r with
      | Some r' => at_end r'
      | None => false
      end
  | _ => false
  end.

(** [re.match(r"^\d{1,2}:\d{2}$", s)]. *)
Definition re_hm (s : string) : bool :=
  match eat_hm s with
  | Some r => at_end r
  | None => false
  end.

(** The pattern of [me_cmd] and [team_cmd] is written with doubled
    backslashes inside a raw string, so it matches a backslash followed by
    the letter d, not a digit. *)
Definition re_backslash_date (s : string) : bool :=
  String.eqb s "\dddd-\dd-\dd" || String.eqb s ("\dddd-\dd-\dd" ++ newline).

(** What the parsing block of [addslot] yields. *)
Inductive parsed :=
| Parsed (date_str start_str end_str details : string)
| Unparsed
| BadUnpack.

Definition parse_args (today : string) (args : list string) : parsed :=
  if Nat.leb 3 (List.length args) && re_date (nth 0 args "") then
    Parsed (nth 0 args "") (nth 1 args "") (nth 2 args "")
           (or_else (join_sp (skipn 3 args)) "Busy")
  else if re_range (nth 0 args "") then
    match split_on "-" (nth 0 args "") with
    | [start_str; end_str] =>
        Parsed today start_str end_str (or_else (join_sp (skipn 1 args)) "Busy")
    | _ => BadUnpack
    end
  else if Nat.leb 2 (List.length args) && re_hm (nth 0 args "")
               && re_hm (nth 1 args "") then
    Parsed today (nth 0 args "") (nth 1 args "")
           (or_else (join_sp (skipn 2 args)) "Busy")
  else Unparsed.

Section Handlers.
(** The process constant [TZ]. *)
Variable TZ : option string.

(** The transport: whether [bot.send_message(chat_id=int(chat), ...)]
    goes through, given what has happened so far.  A [false] covers both
    a chat id that [int] rejects and a failed delivery: either way the
    statement raises. *)
Variable net : list event -> string -> msg -> bool.

Definition reply_text (m : msg) : M unit := emit (Reply m).
Definition edit_message_text (m : msg) : M unit := emit (Edit m).
Definition answer : M unit := emit Answer.

Definition send_message (chat : string) (m : msg) : M unit :=
  fun w =>
    if net (trace w) chat m
    then emit (Send chat m true) w
    else (Raised SendFailed,
          mk_world (sheets w) (trace w ++ [Send chat m false])).

(** ** [start] and [setteam] *)

Definition start : M unit := reply_text MsgHelp.

Definition setteam (u : update) : M unit :=
  if negb (String.eqb (effective_chat_type u) "group"
           || String.eqb (effective_chat_type u) "supergroup")
  then reply_text MsgSetteamInGroup
  else
    set_meta_value "team_chat_id" (str_of_int (effective_chat_id u)) ;;
    reply_text (MsgRegistered (effective_chat_id u)).

(** ** [addslot] *)

(** The scan of lines 269 to 279: confirmed records of the candidate's
    date whose times parse and overlap the candidate. *)
Fixpoint overlaps_found (date_str : string) (start_dt end_dt : datetime)
         (recs : list slot_row) : list slot_row :=
  match recs with
  | [] => []
  | rec :: rest =>
      if negb (String.eqb (s_date rec) date_str)
      then overlaps_found date_str start_dt end_dt rest
      else
        match make_dt TZ (s_date rec) (s_start_time rec),
              make_dt TZ (s_date rec) (s_end_time rec) with
        | Some other_start, Some other_end =>
            if overlaps start_dt end_dt other_start other_end
            then rec :: overlaps_found date_str start_dt end_dt rest
            else overlaps_found date_str start_dt end_dt rest
        | _, _ => overlaps_found date_str start_dt end_dt rest
        end
  end.

Definition new_slot_id (e : env) : string := substring 0 10 (uuid4_hex e).

Definition slot_row_of (e : env) (who : user)
           (date_str start_str end_str details : string) : slot_row :=
  mk_slot (new_slot_id e) date_str start_str end_str
          (text_or_empty (u_username who))
          (text_or_empty (u_first_name who))
          (str_of_int (u_id who)) details (now_iso e) "".

Definition pending_row_of (e : env) (who : user)
           (date_str start_str end_str details : string) : pending_row :=
  mk_pending (new_slot_id e) date_str start_str end_str
             (text_or_empty (u_username who))
             (text_or_empty (u_first_name who))
             (str_of_int (u_id who)) details (now_iso e).

Definition addslot (e : env) (u : update) : M unit :=
  team_chat <- get_meta_value "team_chat_id" ;;
  if negb (truthy team_chat) then reply_text MsgNoTeamAddslot
  else if negb (String.eqb (str_of_int (effective_chat_id u))
                           (text_or_empty team_chat))
  then reply_text MsgNotTeamGroupAddslot
  else
    match args u with
    | [] => reply_text MsgUsageAddslot
    | _ :: _ =>
        match parse_args (today_iso e) (args u) with
        | BadUnpack => raise ValueError
        | Unparsed => reply_text MsgCouldNotParse
        | Parsed date_str start_str end_str details =>
            match strptime_HM start_str, strptime_HM end_str with
            | Some _, Some _ =>
                match make_dt TZ date_str start_str,
                      make_dt TZ date_str end_str with
                | Some start_dt, Some end_dt =>
                    if negb (dt_lt start_dt end_dt)
                    then reply_text MsgStartBeforeEnd
                    else
                      recs <- all_slots_records ;;
                      let user := effective_user u in
                      match overlaps_found date_str start_dt end_dt recs with
                      | [] =>
                          let row := slot_row_of e user date_str start_str
                                                 end_str details in
                          append_slot_row row ;;
                          send_message (text_or_empty team_chat)
                                       (MsgSlotAdded user row)
                      | found =>
                          append_pending_row
                            (pending_row_of e user date_str start_str
                                            end_str details) ;;
                          send_message (text_or_empty team_chat)
                            (MsgOverlapPrompt user found (new_slot_id e))
                      end
                | _, _ => reply_text MsgInvalidDateTime
                end
            | _, _ => reply_text MsgTimesMustBeHHMM
            end
        end
    end.

(** ** [handle_callback] *)

(** The slot a confirmed proposal becomes (lines 327 to 338). *)
Definition promoted (p : pending_row) : slot_row :=
  mk_slot (p_id p) (p_date p) (p_start_time p) (p_end_time p)
          (p_username p) (p_first_name p) (p_user_id p) (p_details p)
          (p_created_at p) "".

(** The scan of lines 345 to 355. *)
Fixpoint overlaps_list (slot_id pending_date : string)
         (start_dt end_dt : datetime) (recs : list slot_row)
  : list slot_row :=
  match recs with
  | [] => []
  | rec :: rest =>
      if String.eqb (s_id rec) slot_id
      then overlaps_list slot_id pending_date start_dt end_dt rest
      else
        match make_dt TZ (s_date rec) (s_start_time rec),
              make_dt TZ (s_date rec) (s_end_time rec) with
        | Some other_start, Some other_end =>
            if String.eqb (s_date rec) pending_date
               && overlaps start_dt end_dt other_start other_end
            then rec :: overlaps_list slot_id pending_date start_dt end_dt rest
            else overlaps_list slot_id pending_date start_dt end_dt rest
        | _, _ => overlaps_list slot_id pending_date start_dt end_dt rest
        end
  end.

Definition make_dt_or_raise (date_str time_str : string) : M datetime :=
  match make_dt TZ date_str time_str with
  | Some t => ret t
  | None => raise ValueError
  end.

Definition second_part (data : string) : M string :=
  match after_first ":" data with
  | Some t => ret t
  | None => raise IndexError
  end.

Definition handle_callback (query : callback_query) : M unit :=
  answer ;;
  let data := text_or_empty (q_data query) in
  let user := q_from_user query in
  team_chat <- get_meta_value "team_chat_id" ;;
  if startswith "confirm:" data then
    slot_id <- second_part data ;;
    pending <- get_pending_record slot_id ;;
    match pending with
    | None => edit_message_text MsgPendingNotFound
    | Some pending =>
        if negb (String.eqb (str_of_int (u_id user)) (p_user_id pending))
        then edit_message_text MsgOnlyCreator
        else
          append_slot_row (promoted pending) ;;
          delete_pending slot_id ;;
          start_dt <- make_dt_or_raise (p_date pending) (p_start_time pending) ;;
          end_dt <- make_dt_or_raise (p_date pending) (p_end_time pending) ;;
          recs <- all_slots_records ;;
          let found := overlaps_list slot_id (p_date pending)
                                     start_dt end_dt recs in
          (if truthy team_chat
           then send_message (text_or_empty team_chat)
                             (MsgSlotConfirmed pending found)
           else ret tt) ;;
          edit_message_text MsgConfirmedAndPosted
    end
  else if startswith "cancel:" data then
    slot_id <- second_part data ;;
    pending <- get_pending_record slot_id ;;
    match pending with
    | None => edit_message_text MsgPendingNotFound
    | Some pending =>
        if negb (String.eqb (str_of_int (u_id user)) (p_user_id pending))
        then edit_message_text MsgOnlyCreator
        else
          delete_pending slot_id ;;
          edit_message_text MsgCancelledNotAdded
    end
  else ret tt.

(** ** [me_cmd], [team_cmd], [cancel_cmd] *)

Definition target_date (today : string) (args : list string) : string :=
  match args with
  | a0 :: _ => if re_backslash_date a0 then a0 else today
  | [] => today
  end.

Definition me_cmd (e : env) (u : update) : M unit :=
  team_chat <- get_meta_value "team_chat_id" ;;
  if negb (truthy team_chat) then reply_text MsgNoTeam
  else if negb (String.eqb (str_of_int (effective_chat_id u))
                           (text_or_empty team_chat))
  then reply_text (MsgRunInside "/me")
  else
    let target := target_date (today_iso e) (args u) in
    records <- all_slots_records ;;
    let user_id := str_of_int (u_id (effective_user u)) in
    let my_slots :=
      filter (fun r => String.eqb (s_user_id r) user_id
                       && String.eqb (s_date r) target) records in
    match my_slots with
    | [] => reply_text (MsgNoSlotsFor target)
    | _ => reply_text (MsgYourSlots target my_slots)
    end.

(** The inner loop of the pairwise report; [None] when a [make_dt]
    raises. *)
Fixpoint overlaps_with (a : slot_row) (a_start a_end : datetime)
         (later : list slot_row) : option (list (slot_row * slot_row)) :=
  match later with
  | [] => Some []
  | b :: rest =>
      match make_dt TZ (s_date b) (s_start_time b) with
      | None => None
      | Some b_start =>
          match make_dt TZ (s_date b) (s_end_time b) with
          | None => None
          | Some b_end =>
              match overlaps_with a a_start a_end rest with
              | None => None
              | Some ps =>
                  Some (if overlaps a_start a_end b_start b_end
                        then (a, b) :: ps else ps)
              end
          end
      end
  end.

Fixpoint overlap_pairs (day_slots : list slot_row)
  : option (list (slot_row * slot_row)) :=
  match day_slots with
  | [] => Some []
  | a :: rest =>
      match make_dt TZ (s_date a) (s_start_time a) with
      | None => None
      | Some a_start =>
          match make_dt TZ (s_date a) (s_end_time a) with
          | None => None
          | Some a_end =>
              match overlaps_with a a_start a_end rest with
              | None => None
              | Some ps =>
                  match overlap_pairs rest with
                  | None => None
                  | Some qs => Some (List.app ps qs)
                  end
              end
          end
      end
  end.

Definition team_cmd (e : env) (u : update) : M unit :=
  team_chat <- get_meta_value "team_chat_id" ;;
  if negb (truthy team_chat) then reply_text MsgNoTeam
  else if negb (String.eqb (str_of_int (effective_chat_id u))
                           (text_or_empty team_chat))
  then reply_text (MsgRunInside "/team")
  else
    let target := target_date (today_iso e) (args u) in
    records <- all_slots_records ;;
    let day_slots :=
      filter (fun r => String.eqb (s_date r) target) records in
    match day_slots with
    | [] => reply_text (MsgNoSlotsFor target)
    | _ =>
        match overlap_pairs day_slots with
        | None => raise ValueError
        | Some pairs => reply_text (MsgTeamSlots target day_slots pairs)
        end
    end.

Definition cancel_cmd (u : update) : M unit :=
  team_chat <- get_meta_value "team_chat_id" ;;
  if negb (truthy team_chat) then reply_text MsgNoTeam
  else if negb (String.eqb (str_of_int (effective_chat_id u))
                           (text_or_empty team_chat))
  then reply_text (MsgRunInside "/cancel")
  else
    match args u with
    | [] => reply_text MsgUsageCancel
    | slot_id :: _ =>
        let user := effective_user u in
        row <- find_slot_row slot_id ;;
        match row with
        | Some n =>
            owner_user_id <- slots_cell_7 n ;;
            if negb (String.eqb owner_user_id (str_of_int (u_id user)))
            then reply_text MsgOnlyCancelOwn
            else
              slots_delete_rows n ;;
              send_message (text_or_empty team_chat)
                           (MsgSlotRemoved slot_id user)
        | None =>
            prow <- find_pending_row slot_id ;;
            match prow with
            | Some n =>
                owner_user_id <- pending_cell_7 n ;;
                if negb (String.eqb owner_user_id (str_of_int (u_id user)))
                then reply_text MsgOnlyCancelOwnPending
                else
                  pending_delete_rows n ;;
                  send_message (text_or_empty team_chat)
                               (MsgPendingCancelled slot_id user)
            | None => reply_text MsgSlotIdNotFound
            end
        end
    end.

(** ** The reminder job *)

(** [str(rec.get("reminder_sent")).strip().lower() == "yes"]. *)
Definition reminder_sent (rec : slot_row) : bool :=
  String.eqb (lower (strip (s_reminder_sent rec))) "yes".

(** [now < start_dt <= window_end]. *)
Definition in_window (now : datetime) (window_end : Z)
           (start_dt : datetime) : bool :=
  (wallclock now <? wallclock start_dt)
  && (wallclock start_dt <=? window_end).

(** The body of the [for] loop, over the records read at its start. *)
Fixpoint remind_loop (team_chat : string) (now : datetime)
         (window_end : Z) (recs : list slot_row) : M unit :=
  match recs with
  | [] => ret tt
  | rec :: rest =>
      if reminder_sent rec
      then remind_loop team_chat now window_end rest
      else
        match make_dt TZ (s_date rec) (s_start_time rec) with
        | None => remind_loop team_chat now window_end rest
        | Some start_dt =>
            (if in_window now window_end start_dt
             then
               try_except (send_message team_chat (MsgReminder rec))
                          (emit LogException) ;;
               update_reminder_sent (s_id rec) ;;
               ret tt
             else ret tt) ;;
            remind_loop team_chat now window_end rest
        end
  end.

(** [now] is the reading of [datetime.now(...)] the tick takes. *)
Definition check_reminders (now : datetime) : M unit :=
  team_chat <- get_meta_value "team_chat_id" ;;
  if negb (truthy team_chat) then ret tt
  else
    let window_end := wallclock now + minutes 15 in
    recs <- all_slots_records ;;
    remind_loop (text_or_empty team_chat) now window_end recs.

(** Ticks of the scheduler, one after the other. *)
Fixpoint run_ticks (nows : list datetime) : M unit :=
  match nows with
  | [] => ret tt
  | now :: later => check_reminders now ;; run_ticks later
  end.

End Handlers.

(** Running a handler on a spreadsheet, from an empty trace. *)
Definition run {A} (m : M A) (s : store) : outcome A * world :=
  m (mk_world s []).

(** ** Notions used to state the properties *)

(** A reminder for the slot called [slot_id] was attempted. *)
Definition is_reminder_for (slot_id : string) (e : event) : bool :=
  match e with
  | Send _ (MsgReminder rec) _ => String.eqb (s_id rec) slot_id
  | _ => false
  end.

Definition reminders_for (slot_id : string) (tr : list event) : nat :=
  List.length (filter (is_reminder_for slot_id) tr).

Definition reads_slots (e : event) : bool :=
  match e with
  | Sheet SlotsGetAllRecords | Sheet (SlotsFind _) | Sheet (SlotsCell _) => true
  | _ => false
  end.

Definition reads_pending (e : event) : bool :=
  match e with
  | Sheet PendingGetAllRecords | Sheet (PendingFind _)
  | Sheet (PendingCell _) => true
  | _ => false
  end.

Definition is_send (e : event) : bool :=
  match e with
  | Send _ _ _ => true
  | _ => false
  end.

(** The identifiers [addslot] hands out: ten characters of lower-case
    hexadecimal (line 265). *)
Definition is_hex_char (c : ascii) : bool :=
  match c with
  | "0" | "1" | "2" | "3" | "4" | "5" | "6" | "7" | "8" | "9"
  | "a" | "b" | "c" | "d" | "e" | "f" => true
  | _ => false
  end%char.

Fixpoint all_chars (f : ascii -> bool) (s : string) : bool :=
  match s with
  | EmptyString => true
  | String c r => f c && all_chars f r
  end.

Definition is_slot_id (s : string) : bool :=
  Nat.eqb (String.length s) 10 && all_chars is_hex_char s.

Definition mem (q : string) (l : list string) : bool :=
  existsb (String.eqb q) l.

Fixpoint nodupb (l : list string) : bool :=
  match l with
  | [] => true
  | x :: t => negb (mem x t) && nodupb t
  end.

(** A worksheet is keyed by its first column when the identifiers are
    slot ids, no two rows share one, and no identifier shows up in another
    column.  [key] and [others] split a row into its first cell and the
    remaining ones. *)
Definition keyed {A} (key : A -> string) (others : A -> list string)
           (rows : list A) : bool :=
  forallb (fun r => is_slot_id (key r)) rows
  && nodupb (map key rows)
  && forallb (fun r => forallb (fun c => negb (mem c (map key rows)))
                               (others r)) rows.

Definition slots_keyed (s : store) : bool :=
  keyed s_id (fun r => tl (slot_cells r)) (SLOTS_SHEET s).

Definition pending_keyed (s : store) : bool :=
  keyed p_id (fun r => tl (pending_cells r)) (PENDING_SHEET s).

(** The callback data behind the two buttons of a prompt (lines 300 and
    301). *)
Definition confirm_data (slot_id : string) : option string :=
  Some ("confirm:" ++ slot_id).

Definition cancel_data (slot_id : string) : option string :=
  Some ("cancel:" ++ slot_id).

(** The group [team] is registered: [get_meta_value("team_chat_id")] is a
    non-empty text. *)
Definition registered (s : store) (team : string) : Prop :=
  first_value "team_chat_id" (META_SHEET s) = Some team /\ team <> "".

(** No group is registered: the lookup yields [None] or an empty text. *)
Definition unregistered (s : store) : Prop :=
  truthy (first_value "team_chat_id" (META_SHEET s)) = false.

(** The confirmed record [rec] is on the candidate's date, its times
    parse, and it overlaps the candidate. *)
Definition conflicts (tz : option string) (date_str : string)
           (start_dt end_dt : datetime) (rec : slot_row) : Prop :=
  s_date rec = date_str /\
  exists other_start other_end,
    make_dt tz (s_date rec) (s_start_time rec) = Some other_start
    /\ make_dt tz (s_date rec) (s_end_time rec) = Some other_end
    /\ overlaps start_dt end_dt other_start other_end = true.

(** The record is due at [now]: not yet flagged, its start parses and
    lies in the window after [now]. *)
Definition due (tz : option string) (now : datetime) (rec : slot_row)
  : bool :=
  negb (reminder_sent rec)
  && match make_dt tz (s_date rec) (s_start_time rec) with
     | Some start_dt => in_window now (wallclock now + minutes 15) start_dt
     | None => false
     end.

(** What a tick at [now] leaves of a record: flagged when it was due. *)
Definition ticked (tz : option string) (now : datetime) (rec : slot_row)
  : slot_row :=
  if due tz now rec then set_reminder_sent "yes" rec else rec.

(** How many of the records called [slot_id] are due at [now]. *)
Definition due_count (tz : option string) (now : datetime)
           (slot_id : string) (recs : list slot_row) : nat :=
  List.length
    (filter (fun rec => due tz now rec && String.eqb (s_id rec) slot_id)
            recs).

(** Two records agree up to the reminder flag, which may have become a
    text that is no slot id. *)
Definition same_but_flag (x x' : slot_row) : Prop :=
  s_id x' = s_id x
  /\ forall c, In c (tl (slot_cells x')) ->
               In c (tl (slot_cells x)) \/ is_slot_id c = false.

(** ** Notions used by the further properties *)

(** The text holds no dash. *)
Definition no_dash (s : string) : bool :=
  all_chars (fun c => negb (Ascii.eqb c "-")) s.

(** Start and end parse on the date and the start is before the end. *)
Definition well_timed (tz : option string)
           (date_str start_str end_str : string) : bool :=
  match make_dt tz date_str start_str, make_dt tz date_str end_str with
  | Some start_dt, Some end_dt => dt_lt start_dt end_dt
  | _, _ => false
  end.

Definition slot_ok (tz : option string) (r : slot_row) : bool :=
  is_slot_id (s_id r)
  && well_timed tz (s_date r) (s_start_time r) (s_end_time r).

Definition pending_ok (tz : option string) (p : pending_row) : bool :=
  is_slot_id (p_id p)
  && well_timed tz (p_date p) (p_start_time p) (p_end_time p).

(** Every row of the confirmed and of the pending sheet is one [addslot]
    could have written: a slot id, times that parse, start before end. *)
Definition well_formed (tz : option string) (s : store) : bool :=
  forallb (slot_ok tz) (SLOTS_SHEET s)
  && forallb (pending_ok tz) (PENDING_SHEET s).

(** The row is as it was, or as it was with its reminder flag set. *)
Definition flag_only (x x' : slot_row) : Prop :=
  x' = x \/ x' = set_reminder_sent "yes" x.

End Bot.

(* ================================================================== *)
(** * The running example: a stand-up and a sync on 2024-03-01 *)
(* ================================================================== *)

Module Scenario.
Import Time Sheets Bot.

Definition bob : user := mk_user 7 (Some "bob") (Some "Bob").
Definition al : user := mk_user 8 (Some "al") (Some "Al").

Definition standup : slot_row :=
  mk_slot "0123456789" "2024-03-01" "09:00" "10:00" "bob" "Bob" "7"
          "standup" "2024-02-28T10:00:00" "".

Definition sync : pending_row :=
  mk_pending "aaaaaaaaaa" "2024-03-01" "09:30" "10:30" "al" "Al" "8"
             "sync" "2024-02-28T10:05:00".

Definition team_meta : list (string * string) := [("team_chat_id", "-100")].

(** The stand-up is confirmed, nothing is pending. *)
Definition one_slot : store := mk_store [standup] [] team_meta.

(** The stand-up is confirmed and the sync awaits its creator. *)
Definition sync_pending : store := mk_store [standup] [sync] team_meta.

(** The same sheets before any group was registered. *)
Definition no_team : store := mk_store [standup] [sync] [].

Definition delivering : list event -> string -> msg -> bool :=
  fun _ _ _ => true.

Definition failing : list event -> string -> msg -> bool :=
  fun _ _ _ => false.

Definition sync_env : env :=
  mk_env "2024-03-01" "aaaaaaaaaabbbbbbccccccddddddeeee" "2024-02-28T10:05:00".

Definition sync_request : update :=
  mk_update (-100) "supergroup" al ["2024-03-01"; "09:30"; "10:30"; "sync"].

(** A request whose end is before its start. *)
Definition backwards_request : update :=
  mk_update (-100) "supergroup" al ["2024-03-01"; "10:30"; "09:30"; "sync"].

(** A request that overlaps the pending sync only. *)
Definition late_request : update :=
  mk_update (-100) "supergroup" bob ["2024-03-01"; "10:00"; "10:30"; "retro"].

Definition at_0930 : datetime := mk_datetime (mk_date 2024 3 1) 9 30 0 0 None.
Definition at_1030 : datetime := mk_datetime (mk_date 2024 3 1) 10 30 0 0 None.

(** Ten minutes and a bit before the stand-up. *)
Definition at_0850 : datetime :=
  mk_datetime (mk_date 2024 3 1) 8 50 30 5 None.

End Scenario.

Import PyStr Time Sheets Bot Scenario.

(** Unfolding of the monad, for running handlers symbolically. *)
Ltac run_monad :=
  cbv [run bind ret raise emit get_sheets put_sheets try_except
       answer reply_text edit_message_text
       get_meta_value meta_get_all_records
       all_slots_records slots_get_all_records
       all_pending_records pending_get_all_records
       get_pending_record
       append_slot_row slots_append_row
       append_pending_row pending_append_row
       find_pending_row pending_find find_slot_row slots_find
       delete_pending pending_delete_rows
       update_reminder_sent slots_update_cell_10
       sheets trace second_part make_dt_or_raise].

(** Case analysis on the innermost undecided test of the goal. *)
Ltac split_innermost :=
  match goal with
  | |- context [match ?x with _ => _ end] =>
      lazymatch x with
      | context [match _ with _ => _ end] => fail
      | _ => destruct x
      end
  end.

(** The same, keeping the equation. *)
Ltac split_innermost_eq :=
  match goal with
  | |- context [match ?x with _ => _ end] =>
      lazymatch x with
      | context [match _ with _ => _ end] => fail
      | _ => destruct x eqn:?
      end
  end.

(* ================================================================== *)
(** * Properties of the time utilities *)
(* ================================================================== *)


Lemma digit_val_char (c : ascii) (v : Z) :
  digit_val c = Some v -> c = digit_char v /\ 0 <= v <= 9.
Proof.
  destruct c as [[] [] [] [] [] [] [] []]; vm_compute; intros H;
    try discriminate H; injection H as <-;
    (split; [reflexivity | split; discriminate]).
Qed.

Lemma digit_char_val (v : Z) :
  0 <= v <= 9 -> digit_val (digit_char v) = Some v.
Proof.
  intros H.
  assert (v = 0 \/ v = 1 \/ v = 2 \/ v = 3 \/ v = 4 \/ v = 5 \/ v = 6
          \/ v = 7 \/ v = 8 \/ v = 9) as E by lia.
  repeat (destruct E as [-> | E]; [reflexivity |]). subst; reflexivity.
Qed.

Lemma digits2_pad2 (n : Z) :
  0 <= n < 100 ->
  digits2 (digit_char (n / 10)) (digit_char (n mod 10)) = Some n.
Proof.
  intros H. unfold digits2.
  rewrite !digit_char_val by (Z.to_euclidean_division_equations; lia).
  f_equal. Z.to_euclidean_division_equations; lia.
Qed.

Lemma digits2_inv (a b : ascii) (n : Z) :
  digits2 a b = Some n ->
  0 <= n < 100 /\ forall r, String a (String b r) = (pad2 n ++ r)%string.
Proof.
  unfold digits2. destruct (digit_val a) as [x|] eqn:Ea; [| discriminate].
  destruct (digit_val b) as [y|] eqn:Eb; [| discriminate].
  intros H. assert (n = 10 * x + y) as -> by congruence. clear H.
  apply digit_val_char in Ea as [-> Hx]. apply digit_val_char in Eb as [-> Hy].
  split; [lia |]. intros r. unfold pad2.
  replace ((10 * x + y) / 10) with x by (Z.to_euclidean_division_equations; lia).
  replace ((10 * x + y) mod 10) with y by (Z.to_euclidean_division_equations; lia).
  reflexivity.
Qed.

Lemma digits4_inv (a b c d : ascii) (n : Z) :
  digits4 a b c d = Some n ->
  0 <= n < 10000 /\
  forall r, String a (String b (String c (String d r))) = (pad4 n ++ r)%string.
Proof.
  unfold digits4. destruct (digits2 a b) as [x|] eqn:Ea; [| discriminate].
  destruct (digits2 c d) as [y|] eqn:Eb; [| discriminate].
  intros H. assert (n = 100 * x + y) as -> by congruence. clear H.
  apply digits2_inv in Ea as [Hx Ea]. apply digits2_inv in Eb as [Hy Eb].
  split; [lia |]. intros r. unfold pad4.
  replace ((100 * x + y) / 100) with x by (Z.to_euclidean_division_equations; lia).
  replace ((100 * x + y) mod 100) with y by (Z.to_euclidean_division_equations; lia).
  rewrite Ea, Eb. simpl. reflexivity.
Qed.

Lemma valid_ymd_bounds (y m d : Z) :
  valid_ymd y m d = true -> 1 <= y <= 9999 /\ 1 <= m <= 12 /\ 1 <= d <= 31.
Proof.
  unfold valid_ymd. rewrite !andb_true_iff, !Z.leb_le.
  intros [[[[[? ?] ?] ?] ?] Hd].
  assert (days_in_month y m <= 31).
  { assert (m = 1 \/ m = 2 \/ m = 3 \/ m = 4 \/ m = 5 \/ m = 6 \/ m = 7
            \/ m = 8 \/ m = 9 \/ m = 10 \/ m = 11 \/ m = 12) as E by lia.
    unfold days_in_month.
    repeat (destruct E as [-> | E]; [destruct (is_leap y); lia |]).
    subst; lia. }
  lia.
Qed.

(** Reading back what [isoformat] prints. *)
Lemma fromisoformat_iso_date (y m d : Z) :
  valid_ymd y m d = true ->
  fromisoformat (iso_date y m d) = Some (mk_date y m d).
Proof.
  intros Hv. pose proof (@valid_ymd_bounds _ _ _ Hv) as (Hy & Hm & Hd).
  cbv [iso_date pad4 pad2 append fromisoformat].
  rewrite !Ascii.eqb_refl. cbv [andb digits4].
  rewrite !digits2_pad2 by (Z.to_euclidean_division_equations; lia).
  replace (100 * (y / 100) + y mod 100) with y
    by (Z.to_euclidean_division_equations; lia).
  rewrite Hv. reflexivity.
Qed.

Lemma fromisoformat_inv (s : string) (dd : date) :
  fromisoformat s = Some dd ->
  exists y m d, valid_ymd y m d = true /\ s = iso_date y m d
                /\ dd = mk_date y m d.
Proof.
  unfold fromisoformat.
  do 10 (destruct s as [| ? s]; [discriminate |]).
  destruct s; [| discriminate].
  destruct (Ascii.eqb a3 "-") eqn:S1; [| discriminate].
  destruct (Ascii.eqb a6 "-") eqn:S2; [| discriminate].
  apply Ascii.eqb_eq in S1, S2. subst. cbv [andb].
  destruct (digits4 a a0 a1 a2) as [y|] eqn:Dy; [| discriminate].
  destruct (digits2 a4 a5) as [m|] eqn:Dm; [| discriminate].
  destruct (digits2 a7 a8) as [d|] eqn:Dd; [| discriminate].
  destruct (valid_ymd y m d) eqn:Hv; [| discriminate].
  intros H. assert (dd = mk_date y m d) as -> by congruence.
  exists y, m, d. repeat split; trivial.
  apply digits4_inv in Dy as [_ Dy]. apply digits2_inv in Dm as [_ Dm].
  apply digits2_inv in Dd as [_ Dd].
  unfold iso_date. rewrite Dy, Dm, Dd. reflexivity.
Qed.

Lemma digit_char_not_colon (k : Z) : Ascii.eqb (digit_char k) ":" = false.
Proof.
  destruct k as [| p | p]; [reflexivity | | reflexivity].
  do 4 (destruct p as [p | p |]; try reflexivity).
Qed.

Lemma renderings_two (n : Z) : In (pad2 n) (renderings n).
Proof. unfold renderings. destruct (n <? 10); simpl; auto. Qed.

Lemma renderings_one (n : Z) :
  0 <= n <= 9 -> In (String (digit_char n) EmptyString) (renderings n).
Proof.
  intros H. unfold renderings.
  destruct (n <? 10) eqn:E; [simpl; auto | apply Z.ltb_ge in E; lia].
Qed.

Lemma renderings_inv (n : Z) (s : string) :
  In s (renderings n) ->
  s = pad2 n \/ (0 <= n -> n <= 9) /\ n < 10 /\ s = String (digit_char n) EmptyString.
Proof.
  unfold renderings. destruct (n <? 10) eqn:E; simpl.
  - apply Z.ltb_lt in E. intros [<- | [<- | []]]; [left | right]; auto.
    repeat split; lia.
  - intros [<- | []]. left; reflexivity.
Qed.

Lemma strptime_H_inv (s r : string) (h : Z) :
  strptime_H s = Some (h, r) ->
  0 <= h < 24 /\ exists hh, In hh (renderings h) /\ s = (hh ++ ":" ++ r)%string.
Proof.
  unfold strptime_H.
  destruct s as [| a [| b s]]; try discriminate.
  destruct (Ascii.eqb b ":") eqn:Eb.
  - apply Ascii.eqb_eq in Eb as ->.
    destruct (digit_val a) as [x|] eqn:Ea; [| discriminate].
    intros H. assert (x = h /\ s = r) as [-> ->] by (split; congruence).
    apply digit_val_char in Ea as [-> Hx]. split; [lia |].
    exists (String (digit_char h) EmptyString). split; [| reflexivity].
    apply renderings_one; lia.
  - destruct s as [| c s]; [discriminate |].
    destruct (Ascii.eqb c ":") eqn:Ec; [| discriminate].
    apply Ascii.eqb_eq in Ec as ->.
    destruct (digit_val a) as [x|] eqn:Ea; [| discriminate].
    destruct (digit_val b) as [y|] eqn:Eb'; [| discriminate].
    destruct (((x =? 2) && (y <=? 3)) || (x <=? 1)) eqn:Ok; [| discriminate].
    intros H. assert (10 * x + y = h /\ s = r) as [<- ->] by (split; congruence).
    pose proof (@digit_val_char _ _ Ea) as [_ Hx].
    pose proof (@digit_val_char _ _ Eb') as [_ Hy].
    assert (10 * x + y < 24).
    { apply orb_true_iff in Ok as [Ok | Ok].
      - apply andb_true_iff in Ok as [O1 O2].
        apply Z.eqb_eq in O1. apply Z.leb_le in O2. lia.
      - apply Z.leb_le in Ok. lia. }
    split; [lia |]. exists (pad2 (10 * x + y)). split; [apply renderings_two |].
    assert (digits2 a b = Some (10 * x + y)) as D
        by (unfold digits2; rewrite Ea, Eb'; reflexivity).
    apply digits2_inv in D as [_ D]. rewrite D. reflexivity.
Qed.

Lemma strptime_M_inv (s : string) (m : Z) :
  strptime_M s = Some (m, EmptyString) ->
  0 <= m < 60 /\ In s (renderings m).
Proof.
  unfold strptime_M. destruct s as [| a r]; [discriminate |].
  destruct (digit_val a) as [x|] eqn:Ea; [| discriminate].
  pose proof (@digit_val_char _ _ Ea) as [Ha Hx].
  destruct r as [| b r'].
  - intros H. assert (x = m) as -> by congruence. subst a.
    split; [lia | apply renderings_one; lia].
  - destruct (digit_val b) as [y|] eqn:Eb; [| discriminate].
    pose proof (@digit_val_char _ _ Eb) as [_ Hy].
    destruct (x <=? 5) eqn:E5; [| discriminate].
    apply Z.leb_le in E5.
    intros H. assert (10 * x + y = m /\ r' = EmptyString) as [<- ->]
        by (split; congruence).
    split; [lia |].
    assert (digits2 a b = Some (10 * x + y)) as D
        by (unfold digits2; rewrite Ea, Eb; reflexivity).
    apply digits2_inv in D as [_ D]. rewrite D. apply renderings_two.
Qed.

Lemma strptime_HM_inv (s : string) (h m : Z) :
  strptime_HM s = Some (h, m) -> reads_as_time s h m.
Proof.
  unfold strptime_HM.
  destruct (strptime_H s) as [[h' r] |] eqn:EH; [| discriminate].
  destruct (strptime_M r) as [[m' [| ? ?]] |] eqn:EM; try discriminate.
  intros H. assert (h' = h /\ m' = m) as [-> ->] by (split; congruence).
  apply strptime_H_inv in EH as (Hh & hh & Ihh & ->).
  apply strptime_M_inv in EM as (Hm & Imm).
  repeat split; try lia. exists hh, r. auto.
Qed.

Lemma strptime_H_hour (h : Z) (hh r : string) :
  0 <= h < 24 -> In hh (renderings h) ->
  strptime_H (hh ++ ":" ++ r) = Some (h, r).
Proof.
  intros Hh Ihh. apply renderings_inv in Ihh as [-> | (_ & H10 & ->)].
  - cbv [pad2 append strptime_H].
    rewrite digit_char_not_colon, Ascii.eqb_refl.
    rewrite !digit_char_val by (Z.to_euclidean_division_equations; lia).
    replace (((h / 10 =? 2) && (h mod 10 <=? 3)) || (h / 10 <=? 1)) with true.
    + do 2 f_equal. Z.to_euclidean_division_equations; lia.
    + symmetry. apply orb_true_iff.
      destruct (Z.le_gt_cases (h / 10) 1) as [L | G].
      * right. apply Z.leb_le; trivial.
      * left. apply andb_true_iff. split; [apply Z.eqb_eq | apply Z.leb_le];
          Z.to_euclidean_division_equations; lia.
  - cbv [append strptime_H]. rewrite Ascii.eqb_refl.
    rewrite digit_char_val by lia. reflexivity.
Qed.

Lemma strptime_M_minute (m : Z) (mm : string) :
  0 <= m < 60 -> In mm (renderings m) ->
  strptime_M mm = Some (m, EmptyString).
Proof.
  intros Hm Imm. apply renderings_inv in Imm as [-> | (_ & H10 & ->)].
  - cbv [pad2 strptime_M].
    rewrite !digit_char_val by (Z.to_euclidean_division_equations; lia).
    replace (m / 10 <=? 5) with true
      by (symmetry; apply Z.leb_le; Z.to_euclidean_division_equations; lia).
    do 2 f_equal. Z.to_euclidean_division_equations; lia.
  - cbv [strptime_M]. rewrite digit_char_val by lia. reflexivity.
Qed.

Lemma strptime_HM_reads (s : string) (h m : Z) :
  reads_as_time s h m -> strptime_HM s = Some (h, m).
Proof.
  intros (Hh & Hm & hh & mm & Ihh & Imm & ->).
  unfold strptime_HM. rewrite (@strptime_H_hour h hh mm Hh Ihh).
  rewrite (@strptime_M_minute _ _ Hm Imm). reflexivity.
Qed.

(** What [make_dt] returns when both texts parse. *)
Lemma make_dt_value (tz : option string) (d : date) (h m : Z)
      (ds ts : string) :
  fromisoformat ds = Some d -> strptime_HM ts = Some (h, m) ->
  make_dt tz ds ts = Some (mk_datetime d h m 0 0 tz).
Proof.
  intros Hd Ht. unfold make_dt. rewrite Hd, Ht. destruct tz; reflexivity.
Qed.

Lemma make_dt_inv (tz : option string) (ds ts : string) (t : datetime) :
  make_dt tz ds ts = Some t ->
  exists d h m, fromisoformat ds = Some d /\ strptime_HM ts = Some (h, m)
                /\ t = mk_datetime d h m 0 0 tz.
Proof.
  unfold make_dt. destruct (fromisoformat ds) as [d|]; [| discriminate].
  destruct (strptime_HM ts) as [[h m]|]; [| discriminate].
  intros H. exists d, h, m. repeat split.
  destruct tz; cbv [combine replace_tzinfo fst snd dt_date dt_hour dt_minute
                    dt_second dt_microsecond] in H; congruence.
Qed.

(** ** C1 *)

(** C1.  For instants with [a_start < a_end] and [b_start < b_end],
    [overlaps] holds exactly when [a_start < b_end] and [b_start < a_end],
    which is exactly when the half-open intervals [[a_start, a_end)] and
    [[b_start, b_end)] share an instant; intervals that only touch
    ([a_end] equal to [b_start]) do not overlap.  On any valid date,
    09:00-10:00 and 10:00-11:00 do not overlap while 09:00-10:30 and
    10:00-11:00 do. *)
Theorem overlaps_half_open :
  forall a_start a_end b_start b_end : datetime,
    dt_lt a_start a_end = true ->
    dt_lt b_start b_end = true ->
    (overlaps a_start a_end b_start b_end = true <->
       dt_lt a_start b_end = true /\ dt_lt b_start a_end = true)
    /\ (overlaps a_start a_end b_start b_end = true <->
          exists t : Z, wallclock a_start <= t < wallclock a_end
                        /\ wallclock b_start <= t < wallclock b_end)
    /\ (wallclock a_end = wallclock b_start ->
          overlaps a_start a_end b_start b_end = false)
    /\ (forall (tz : option string) (ds : string) (d : date),
          fromisoformat ds = Some d ->
          exists t0900 t1000 t1030 t1100,
            make_dt tz ds "09:00" = Some t0900
            /\ make_dt tz ds "10:00" = Some t1000
            /\ make_dt tz ds "10:30" = Some t1030
            /\ make_dt tz ds "11:00" = Some t1100
            /\ overlaps t0900 t1000 t1000 t1100 = false
            /\ overlaps t0900 t1030 t1000 t1100 = true).
Proof.
  intros a_start a_end b_start b_end Ha Hb.
  unfold overlaps, dt_lt in *. apply Z.ltb_lt in Ha, Hb.
  split; [| split; [| split]].
  - rewrite andb_true_iff. tauto.
  - rewrite andb_true_iff, !Z.ltb_lt. split.
    + intros [H1 H2]. exists (Z.max (wallclock a_start) (wallclock b_start)). lia.
    + intros (t & H1 & H2). lia.
  - intros E. apply andb_false_iff. right. apply Z.ltb_ge. lia.
  - intros tz ds d Hd.
    exists (mk_datetime d 9 0 0 0 tz), (mk_datetime d 10 0 0 0 tz),
           (mk_datetime d 10 30 0 0 tz), (mk_datetime d 11 0 0 0 tz).
    repeat (split; [apply make_dt_value; [exact Hd | reflexivity] |]).
    unfold wallclock, toordinal; cbn [dt_date dt_hour dt_minute dt_second
                                      dt_microsecond].
    split; [apply andb_false_iff; right; apply Z.ltb_ge; lia |].
    apply andb_true_iff; split; apply Z.ltb_lt; lia.
Qed.

Lemma overlaps_half_open_witness :
  dt_lt (mk_datetime (mk_date 2024 3 1) 9 0 0 0 None)
        (mk_datetime (mk_date 2024 3 1) 10 30 0 0 None) = true
  /\ dt_lt (mk_datetime (mk_date 2024 3 1) 10 0 0 0 None)
           (mk_datetime (mk_date 2024 3 1) 11 0 0 0 None) = true
  /\ overlaps (mk_datetime (mk_date 2024 3 1) 9 0 0 0 None)
              (mk_datetime (mk_date 2024 3 1) 10 30 0 0 None)
              (mk_datetime (mk_date 2024 3 1) 10 0 0 0 None)
              (mk_datetime (mk_date 2024 3 1) 11 0 0 0 None) = true.
Proof.
  split; [reflexivity | split; [reflexivity |]].
  apply (proj2 (proj1 (overlaps_half_open
           (mk_datetime (mk_date 2024 3 1) 9 0 0 0 None)
           (mk_datetime (mk_date 2024 3 1) 10 30 0 0 None)
           (mk_datetime (mk_date 2024 3 1) 10 0 0 0 None)
           (mk_datetime (mk_date 2024 3 1) 11 0 0 0 None)
           eq_refl eq_refl))).
  split; reflexivity.
Defined.

(** ** C7 *)



(* ================================================================== *)
(** * Properties of the handlers *)
(* ================================================================== *)


Lemma after_first_confirm (slot_id : string) :
  after_first ":" ("confirm:" ++ slot_id) = Some slot_id.
Proof. reflexivity. Qed.

Lemma after_first_cancel (slot_id : string) :
  after_first ":" ("cancel:" ++ slot_id) = Some slot_id.
Proof. reflexivity. Qed.

Lemma first_pending_none (slot_id : string) (rows : list pending_row) :
  (forall r, In r rows -> p_id r <> slot_id) ->
  first_pending slot_id rows = None.
Proof.
  induction rows as [| r rows IH]; intros H; [reflexivity |].
  simpl. destruct (String.eqb_spec (p_id r) slot_id) as [E | _].
  - exfalso. apply (H r); [left; reflexivity | exact E].
  - apply IH. intros r' Hr'. apply H. right; exact Hr'.
Qed.

Lemma first_pending_some (slot_id : string) (rows : list pending_row)
      (p : pending_row) :
  first_pending slot_id rows = Some p -> In p rows /\ p_id p = slot_id.
Proof.
  induction rows as [| r rows IH]; [discriminate |].
  simpl. destruct (String.eqb_spec (p_id r) slot_id) as [E | _].
  - intros H. assert (r = p) as -> by congruence. auto.
  - intros H. destruct (IH H). auto.
Qed.

Lemma startswith_confirm (slot_id : string) :
  startswith "confirm:" ("confirm:" ++ slot_id) = true.
Proof. unfold startswith. simpl. destruct slot_id; reflexivity. Qed.

Lemma startswith_cancel (slot_id : string) :
  startswith "cancel:" ("cancel:" ++ slot_id) = true.
Proof. unfold startswith. simpl. destruct slot_id; reflexivity. Qed.

Lemma startswith_confirm_cancel (slot_id : string) :
  startswith "confirm:" ("cancel:" ++ slot_id) = false.
Proof. reflexivity. Qed.

(** ** C4 *)


(** ** Running [addslot] on a well-formed request *)

Lemma send_message_sheets (net : list event -> string -> msg -> bool)
      (chat : string) (m : msg) (w : world) :
  sheets (snd (send_message net chat m w)) = sheets w.
Proof. unfold send_message. destruct (net (trace w) chat m); reflexivity. Qed.

Lemma send_message_trace (net : list event -> string -> msg -> bool)
      (chat : string) (m : msg) (w : world) :
  trace (snd (send_message net chat m w))
    = (trace w ++ [Send chat m (net (trace w) chat m)])%list.
Proof. unfold send_message. destruct (net (trace w) chat m); reflexivity. Qed.

Lemma registered_truthy (s : store) (team : string) :
  registered s team ->
  first_value "team_chat_id" (META_SHEET s) = Some team
  /\ truthy (Some team) = true.
Proof.
  intros [H Hne]. split; [exact H |].
  unfold truthy. apply String.eqb_neq in Hne. rewrite Hne. reflexivity.
Qed.

Lemma parse_args_nonempty (today : string) (a : list string)
      (d s e det : string) :
  parse_args today a = Parsed d s e det -> a <> [].
Proof. intros H ->. discriminate H. Qed.

Lemma make_dt_strptime (tz : option string) (ds ts : string) (t : datetime) :
  make_dt tz ds ts = Some t -> exists hm, strptime_HM ts = Some hm.
Proof.
  intros H. apply make_dt_inv in H as (d & h & m & _ & H & _). eauto.
Qed.

(** Up to the comparison of start and end, a well-formed request runs the
    same way: one read of the meta sheet, then the branch on
    [start_dt < end_dt]. *)
Lemma addslot_valid_run (tz : option string)
      (net : list event -> string -> msg -> bool) (e : env) (u : update)
      (s : store) (team date_str start_str end_str details : string)
      (start_dt end_dt : datetime) :
  registered s team ->
  str_of_int (effective_chat_id u) = team ->
  parse_args (today_iso e) (args u) = Parsed date_str start_str end_str details ->
  make_dt tz date_str start_str = Some start_dt ->
  make_dt tz date_str end_str = Some end_dt ->
  run (addslot tz net e u) s =
    if negb (dt_lt start_dt end_dt)
    then (Done tt, mk_world s [Sheet MetaGetAllRecords; Reply MsgStartBeforeEnd])
    else
      let who := effective_user u in
      match overlaps_found tz date_str start_dt end_dt (SLOTS_SHEET s) with
      | [] =>
          let row := slot_row_of e who date_str start_str end_str details in
          send_message net team (MsgSlotAdded who row)
            (mk_world (mk_store (SLOTS_SHEET s ++ [row]) (PENDING_SHEET s)
                                (META_SHEET s))
                      [Sheet MetaGetAllRecords; Sheet SlotsGetAllRecords;
                       Sheet (SlotsAppendRow row)])
      | found =>
          let prow := pending_row_of e who date_str start_str end_str details in
          send_message net team (MsgOverlapPrompt who found (new_slot_id e))
            (mk_world (mk_store (SLOTS_SHEET s) (PENDING_SHEET s ++ [prow])
                                (META_SHEET s))
                      [Sheet MetaGetAllRecords; Sheet SlotsGetAllRecords;
                       Sheet (PendingAppendRow prow)])
      end.
Proof.
  intros Hreg Hchat Hparse Hs He.
  apply registered_truthy in Hreg as [Hteam Htruthy].
  pose proof (@parse_args_nonempty _ _ _ _ _ _ Hparse) as Hargs.
  destruct (@make_dt_strptime _ _ _ _ Hs) as [hm1 Hs'].
  destruct (@make_dt_strptime _ _ _ _ He) as [hm2 He'].
  unfold addslot. run_monad. cbn [app]. rewrite Hteam, Htruthy.
  cbn [negb text_or_empty]. rewrite Hchat, String.eqb_refl. cbn [negb].
  destruct (args u) as [| a0 rest] eqn:Ea; [congruence |].
  rewrite Hparse, Hs', He', Hs, He.
  destruct (dt_lt start_dt end_dt); cbn [negb]; [| reflexivity].
  destruct (overlaps_found tz date_str start_dt end_dt (SLOTS_SHEET s));
    reflexivity.
Qed.

Lemma overlaps_found_spec (tz : option string) (date_str : string)
      (start_dt end_dt : datetime) (recs : list slot_row) (rec : slot_row) :
  In rec (overlaps_found tz date_str start_dt end_dt recs) <->
  In rec recs /\ conflicts tz date_str start_dt end_dt rec.
Proof.
  unfold conflicts. induction recs as [| r recs IH]; simpl; [tauto |].
  destruct (String.eqb_spec (s_date r) date_str) as [Ed | Nd]; cbn [negb].
  - destruct (make_dt tz (s_date r) (s_start_time r)) as [os |] eqn:E1.
    + destruct (make_dt tz (s_date r) (s_end_time r)) as [oe |] eqn:E2.
      * destruct (overlaps start_dt end_dt os oe) eqn:Eo.
        -- simpl. rewrite IH. split.
           ++ intros [<- | [H1 H2]]; [| tauto].
              split; [auto |]. split; [exact Ed |]. exists os, oe. auto.
           ++ intros [[<- | H1] H2]; [left; reflexivity | right; tauto].
        -- rewrite IH. split; [tauto |].
           intros [[<- | H1] H2]; [| tauto].
           destruct H2 as (_ & os' & oe' & H1 & H2 & H3). congruence.
      * rewrite IH. split; [tauto |].
        intros [[<- | H1] H2]; [| tauto].
        destruct H2 as (_ & os' & oe' & H1 & H2 & H3). congruence.
    + rewrite IH. split; [tauto |].
      intros [[<- | H1] H2]; [| tauto].
      destruct H2 as (_ & os' & oe' & H1 & H2 & H3). congruence.
  - rewrite IH. split; [tauto |].
    intros [[<- | H1] H2]; [| tauto]. destruct H2 as [H2 _]. contradiction.
Qed.

Lemma overlaps_found_nil (tz : option string) (date_str : string)
      (start_dt end_dt : datetime) (recs : list slot_row) :
  (forall rec, In rec recs -> ~ conflicts tz date_str start_dt end_dt rec) ->
  overlaps_found tz date_str start_dt end_dt recs = [].
Proof.
  intros H.
  destruct (overlaps_found tz date_str start_dt end_dt recs) as [| r l] eqn:E;
    [reflexivity |].
  exfalso. assert (In r (overlaps_found tz date_str start_dt end_dt recs)) as Hr
      by (rewrite E; left; reflexivity).
  apply overlaps_found_spec in Hr as [H1 H2]. exact (H r H1 H2).
Qed.

Lemma overlaps_found_cons (tz : option string) (date_str : string)
      (start_dt end_dt : datetime) (recs : list slot_row) :
  (exists rec, In rec recs /\ conflicts tz date_str start_dt end_dt rec) ->
  overlaps_found tz date_str start_dt end_dt recs <> [].
Proof.
  intros (rec & H1 & H2) E.
  assert (In rec (overlaps_found tz date_str start_dt end_dt recs)) as Hr
      by (apply overlaps_found_spec; auto).
  rewrite E in Hr. exact Hr.
Qed.

(** ** C9 *)

(** C9.  A creation request that passes parsing but whose start is not
    strictly before its end is answered "Start must be before end": the
    confirmed sheet is not even read (the overlap scan never starts), and
    neither sheet changes. *)
Theorem addslot_rejects_start_not_before_end :
  forall (tz : option string) (net : list event -> string -> msg -> bool)
         (e : env) (u : update) (s : store)
         (team date_str start_str end_str details : string)
         (start_dt end_dt : datetime),
    registered s team ->
    str_of_int (effective_chat_id u) = team ->
    parse_args (today_iso e) (args u)
      = Parsed date_str start_str end_str details ->
    make_dt tz date_str start_str = Some start_dt ->
    make_dt tz date_str end_str = Some end_dt ->
    dt_lt start_dt end_dt = false ->
    let result := run (addslot tz net e u) s in
    result = (Done tt, mk_world s [Sheet MetaGetAllRecords;
                                   Reply MsgStartBeforeEnd])
    /\ existsb reads_slots (trace (snd result)) = false
    /\ sheets (snd result) = s.
Proof.
  intros tz net e u s team date_str start_str end_str details start_dt end_dt
         Hreg Hchat Hparse Hs He Hlt result.
  assert (result = (Done tt, mk_world s [Sheet MetaGetAllRecords;
                                         Reply MsgStartBeforeEnd])) as E.
  { unfold result. rewrite (@addslot_valid_run tz net e u s _ _ _ _ _ _ _ Hreg Hchat Hparse Hs He).
    rewrite Hlt. reflexivity. }
  rewrite E. repeat split.
Qed.

(** ** C3 *)

(** C3.  For a well-formed creation request from the registered group whose
    start is before its end: when no confirmed record of that date overlaps
    the candidate, exactly one row (the candidate) is appended to the
    confirmed sheet and the pending sheet is unchanged; when some confirmed
    record does, exactly one row is appended to the pending sheet and the
    confirmed sheet is unchanged. *)
Theorem addslot_inserts_or_proposes :
  forall (tz : option string) (net : list event -> string -> msg -> bool)
         (e : env) (u : update) (s : store)
         (team date_str start_str end_str details : string)
         (start_dt end_dt : datetime),
    registered s team ->
    str_of_int (effective_chat_id u) = team ->
    parse_args (today_iso e) (args u)
      = Parsed date_str start_str end_str details ->
    make_dt tz date_str start_str = Some start_dt ->
    make_dt tz date_str end_str = Some end_dt ->
    dt_lt start_dt end_dt = true ->
    let after := sheets (snd (run (addslot tz net e u) s)) in
    let who := effective_user u in
    ((forall rec, In rec (SLOTS_SHEET s) ->
                  ~ conflicts tz date_str start_dt end_dt rec) ->
       SLOTS_SHEET after
         = (SLOTS_SHEET s
              ++ [slot_row_of e who date_str start_str end_str details])%list
       /\ PENDING_SHEET after = PENDING_SHEET s)
    /\ ((exists rec, In rec (SLOTS_SHEET s)
                     /\ conflicts tz date_str start_dt end_dt rec) ->
       PENDING_SHEET after
         = (PENDING_SHEET s
              ++ [pending_row_of e who date_str start_str end_str details])%list
       /\ SLOTS_SHEET after = SLOTS_SHEET s).
Proof.
  intros tz net e u s team date_str start_str end_str details start_dt end_dt
         Hreg Hchat Hparse Hs He Hlt after who.
  unfold after.
  rewrite (@addslot_valid_run tz net e u s _ _ _ _ _ _ _ Hreg Hchat Hparse Hs He), Hlt.
  cbn [negb]. split.
  - intros Hno. rewrite (@overlaps_found_nil _ _ _ _ _ Hno). cbv zeta.
    rewrite send_message_sheets. split; reflexivity.
  - intros Hsome. apply overlaps_found_cons in Hsome.
    destruct (overlaps_found tz date_str start_dt end_dt (SLOTS_SHEET s))
      as [| r l]; [congruence |].
    cbv zeta. rewrite send_message_sheets. split; reflexivity.
Qed.

(** ** The pending sheet plays no part in [addslot] *)


Lemma addslot_pending_frame (tz : option string)
      (net : list event -> string -> msg -> bool) (e : env) (u : update)
      (sl : list slot_row) (pe pe' : list pending_row)
      (me : list (string * string)) :
  let r := run (addslot tz net e u) (mk_store sl pe me) in
  let r' := run (addslot tz net e u) (mk_store sl pe' me) in
  fst r = fst r'
  /\ trace (snd r) = trace (snd r')
  /\ existsb reads_pending (trace (snd r)) = false
  /\ SLOTS_SHEET (sheets (snd r)) = SLOTS_SHEET (sheets (snd r'))
  /\ exists added,
       PENDING_SHEET (sheets (snd r)) = (pe ++ added)%list
       /\ PENDING_SHEET (sheets (snd r')) = (pe' ++ added)%list.
Proof.
  cbv zeta. unfold addslot, send_message. run_monad.
  cbn [SLOTS_SHEET PENDING_SHEET META_SHEET app].
  repeat (split_innermost;
          cbn [SLOTS_SHEET PENDING_SHEET META_SHEET app sheets trace fst snd]).
  all: repeat split;
    first [ exists []; rewrite !app_nil_r; split; reflexivity
          | eexists; split; reflexivity ].
Qed.

(** ** C10 *)

(** C10.  [addslot] never reads the pending sheet: whatever the pending
    sheet holds, the outcome, the trace and the confirmed sheet are the
    same, and the pending sheet only grows by the same rows.  So a
    well-formed candidate that overlaps no confirmed record is appended to
    the confirmed sheet and announced as added, with no proposal and no
    overlap prompt, however many pending proposals it overlaps. *)
Theorem addslot_never_consults_pending :
  forall (tz : option string) (net : list event -> string -> msg -> bool)
         (e : env) (u : update) (s : store),
    existsb reads_pending (trace (snd (run (addslot tz net e u) s))) = false
    /\ (forall pending' : list pending_row,
          let r := run (addslot tz net e u) s in
          let r' := run (addslot tz net e u)
                        (mk_store (SLOTS_SHEET s) pending' (META_SHEET s)) in
          fst r = fst r'
          /\ trace (snd r) = trace (snd r')
          /\ SLOTS_SHEET (sheets (snd r)) = SLOTS_SHEET (sheets (snd r'))
          /\ exists added,
               PENDING_SHEET (sheets (snd r)) = (PENDING_SHEET s ++ added)%list
               /\ PENDING_SHEET (sheets (snd r')) = (pending' ++ added)%list)
    /\ (forall (team date_str start_str end_str details : string)
               (start_dt end_dt : datetime),
          registered s team ->
          str_of_int (effective_chat_id u) = team ->
          parse_args (today_iso e) (args u)
            = Parsed date_str start_str end_str details ->
          make_dt tz date_str start_str = Some start_dt ->
          make_dt tz date_str end_str = Some end_dt ->
          dt_lt start_dt end_dt = true ->
          (forall rec, In rec (SLOTS_SHEET s) ->
                       ~ conflicts tz date_str start_dt end_dt rec) ->
          let who := effective_user u in
          let row := slot_row_of e who date_str start_str end_str details in
          let w := snd (run (addslot tz net e u) s) in
          sheets w = mk_store (SLOTS_SHEET s ++ [row]) (PENDING_SHEET s)
                              (META_SHEET s)
          /\ exists delivered,
               trace w = [Sheet MetaGetAllRecords; Sheet SlotsGetAllRecords;
                          Sheet (SlotsAppendRow row);
                          Send team (MsgSlotAdded who row) delivered]).
Proof.
  intros tz net e u s. destruct s as [sl pe me]. split; [| split].
  - apply (addslot_pending_frame tz net e u sl pe pe me).
  - intros pending'. cbn [SLOTS_SHEET PENDING_SHEET META_SHEET].
    pose proof (addslot_pending_frame tz net e u sl pe pending' me) as H.
    cbv zeta in *. tauto.
  - intros team date_str start_str end_str details start_dt end_dt
           Hreg Hchat Hparse Hs He Hlt Hno who row w.
    unfold w.
    rewrite (@addslot_valid_run tz net e u _ _ _ _ _ _ _ _
                                Hreg Hchat Hparse Hs He), Hlt.
    cbn [negb]. rewrite (@overlaps_found_nil _ _ _ _ _ Hno). cbv zeta.
    rewrite send_message_sheets, send_message_trace. split; [reflexivity |].
    eexists. reflexivity.
Qed.

(** ** C6 *)

Lemma callback_unknown_run (tz : option string)
      (net : list event -> string -> msg -> bool) (s : store)
      (slot_id : string) (who : user) :
  first_pending slot_id (PENDING_SHEET s) = None ->
  run (handle_callback tz net (mk_query (confirm_data slot_id) who)) s
    = (Done tt, mk_world s [Answer; Sheet MetaGetAllRecords;
                            Sheet PendingGetAllRecords;
                            Edit MsgPendingNotFound])
  /\ run (handle_callback tz net (mk_query (cancel_data slot_id) who)) s
    = (Done tt, mk_world s [Answer; Sheet MetaGetAllRecords;
                            Sheet PendingGetAllRecords;
                            Edit MsgPendingNotFound]).
Proof.
  intros Hp. split.
  - unfold handle_callback, confirm_data. run_monad.
    cbn [text_or_empty q_data q_from_user].
    rewrite startswith_confirm, after_first_confirm. cbn [app].
    rewrite Hp. reflexivity.
  - unfold handle_callback, cancel_data. run_monad.
    cbn [text_or_empty q_data q_from_user].
    rewrite startswith_confirm_cancel, startswith_cancel, after_first_cancel.
    cbn [app]. rewrite Hp. reflexivity.
Qed.

(** ** C8 *)

(** C8, as the spec words it, fails: with no group registered, the Confirm
    button pressed by the owner still moves the proposal to the confirmed
    sheet. *)
Lemma callback_not_gated_counterexample :
  ~ (forall (tz : option string) (net : list event -> string -> msg -> bool)
            (s : store) (q : callback_query),
        unregistered s ->
        sheets (snd (run (handle_callback tz net q) s)) = s).
Proof.
  intros H.
  pose (p := mk_pending "aaaaaaaaaa" "2024-03-01" "09:30" "10:30" "al" "Al"
                        "8" "sync" "2024-02-28T10:05:00").
  specialize (H None (fun _ _ _ => true) (mk_store [] [p] [])
                (mk_query (confirm_data "aaaaaaaaaa") (mk_user 8 None None))
                eq_refl).
  vm_compute in H. discriminate H.
Qed.

(** C8 (amended).  With no group registered a reminder tick does nothing
    (one read of the meta sheet, no notification, no flag changed), and
    [addslot], [me_cmd], [team_cmd] and [cancel_cmd] answer that no team
    group is registered and leave the spreadsheet as it was. *)
Theorem unregistered_refuses :
  forall (tz : option string) (net : list event -> string -> msg -> bool)
         (e : env) (u : update) (now : datetime) (s : store),
    unregistered s ->
    run (check_reminders tz net now) s
      = (Done tt, mk_world s [Sheet MetaGetAllRecords])
    /\ run (addslot tz net e u) s
      = (Done tt, mk_world s [Sheet MetaGetAllRecords; Reply MsgNoTeamAddslot])
    /\ run (me_cmd e u) s
      = (Done tt, mk_world s [Sheet MetaGetAllRecords; Reply MsgNoTeam])
    /\ run (team_cmd tz e u) s
      = (Done tt, mk_world s [Sheet MetaGetAllRecords; Reply MsgNoTeam])
    /\ run (cancel_cmd net u) s
      = (Done tt, mk_world s [Sheet MetaGetAllRecords; Reply MsgNoTeam]).
Proof.
  intros tz net e u now s Hun. unfold unregistered in Hun.
  repeat split.
  - unfold check_reminders. run_monad. cbn [app]. rewrite Hun. reflexivity.
  - unfold addslot. run_monad. cbn [app]. rewrite Hun. reflexivity.
  - unfold me_cmd. run_monad. cbn [app]. rewrite Hun. reflexivity.
  - unfold team_cmd. run_monad. cbn [app]. rewrite Hun. reflexivity.
  - unfold cancel_cmd. run_monad. cbn [app]. rewrite Hun. reflexivity.
Qed.

(* ================================================================== *)
(** * Worksheets keyed by their first column *)
(* ================================================================== *)

Lemma mem_In (q : string) (l : list string) : mem q l = true <-> In q l.
Proof.
  unfold mem. rewrite existsb_exists. split.
  - intros (x & Hx & E). apply String.eqb_eq in E. subst. exact Hx.
  - intros H. exists q. split; [exact H | apply String.eqb_refl].
Qed.

Lemma mem_false (q : string) (l : list string) :
  mem q l = false <-> ~ In q l.
Proof.
  rewrite <- mem_In. destruct (mem q l); split; intros; congruence.
Qed.

Lemma nodupb_NoDup (l : list string) : nodupb l = true <-> NoDup l.
Proof.
  induction l as [| x l IH]; simpl.
  - split; [constructor | reflexivity].
  - rewrite andb_true_iff, negb_true_iff, mem_false, IH. split.
    + intros [H1 H2]. constructor; assumption.
    + intros H. inversion H; subst. split; assumption.
Qed.

Lemma find_from_split (A : Type) (cells : A -> list string) (n : nat)
      (l1 l2 : list A) (r : A) (q : string) :
  (forall r', In r' l1 -> mem q (cells r') = false) ->
  mem q (cells r) = true ->
  find_from n (map cells (l1 ++ r :: l2)) q = Some (n + List.length l1)%nat.
Proof.
  revert n. induction l1 as [| x l1 IH]; intros n H1 H2; simpl.
  - unfold mem in H2. rewrite H2. f_equal. lia.
  - pose proof (H1 x (or_introl eq_refl)) as Hx. unfold mem in Hx.
    rewrite Hx. rewrite IH; [f_equal; lia | | exact H2].
    intros r' Hr'. apply H1. right; exact Hr'.
Qed.

Section Keyed.
Variable A : Type.
Variable key : A -> string.
Variable others : A -> list string.

Lemma keyed_iff (rows : list A) :
  keyed key others rows = true <->
  (forall r, In r rows -> is_slot_id (key r) = true)
  /\ NoDup (map key rows)
  /\ (forall r r' c, In r rows -> In r' rows -> In c (others r') ->
                     c <> key r).
Proof.
  unfold keyed. rewrite !andb_true_iff, !forallb_forall, nodupb_NoDup.
  split.
  - intros [[H1 H2] H3]. repeat split; trivial.
    intros r r' c Hr Hr' Hc E. specialize (H3 r' Hr').
    rewrite forallb_forall in H3. specialize (H3 c Hc).
    apply negb_true_iff, mem_false in H3. apply H3. subst c.
    apply in_map. exact Hr.
  - intros (H1 & H2 & H3). repeat split; trivial.
    intros r' Hr'. apply forallb_forall. intros c Hc.
    apply negb_true_iff, mem_false. intros Hin.
    apply in_map_iff in Hin as (r & E & Hr). exact (H3 r r' c Hr Hr' Hc (eq_sym E)).
Qed.

Lemma keyed_before (l1 l2 : list A) (r : A) :
  keyed key others (l1 ++ r :: l2) = true ->
  (forall r', In r' (l1 ++ l2) -> key r' <> key r)
  /\ (forall r', In r' l1 -> mem (key r) (key r' :: others r') = false)
  /\ mem (key r) (key r :: others r) = true
  /\ is_slot_id (key r) = true.
Proof.
  intros H. apply keyed_iff in H as (H1 & H2 & H3).
  assert (forall r', In r' (l1 ++ l2) -> key r' <> key r) as Hk.
  { intros r' Hr' E. rewrite map_app in H2. simpl in H2.
    apply NoDup_remove_2 in H2. apply H2. rewrite <- map_app, <- E.
    apply in_map. exact Hr'. }
  repeat split.
  - exact Hk.
  - intros r' Hr'. apply mem_false. intros [E | Hin].
    + apply (Hk r'); [apply in_or_app; left; exact Hr' | exact E].
    + apply (H3 r r' (key r)); trivial.
      * apply in_or_app. right. left. reflexivity.
      * apply in_or_app. left. exact Hr'.
  - apply mem_In. left. reflexivity.
  - apply H1. apply in_or_app. right. left. reflexivity.
Qed.

Lemma keyed_remove (l1 l2 : list A) (r : A) :
  keyed key others (l1 ++ r :: l2) = true ->
  keyed key others (l1 ++ l2) = true.
Proof.
  rewrite !keyed_iff. intros (H1 & H2 & H3). repeat split.
  - intros x Hx. apply H1. apply in_app_or in Hx as [Hx | Hx];
      apply in_or_app; [left | right; right]; exact Hx.
  - rewrite map_app in *. simpl in H2. apply NoDup_remove_1 in H2. exact H2.
  - intros x x' c Hx Hx'. apply H3.
    + apply in_app_or in Hx as [Hx | Hx];
        apply in_or_app; [left | right; right]; exact Hx.
    + apply in_app_or in Hx' as [Hx' | Hx'];
        apply in_or_app; [left | right; right]; exact Hx'.
Qed.
End Keyed.

Lemma remove_at_split (A : Type) (l1 l2 : list A) (r : A) :
  remove_at (List.length l1) (l1 ++ r :: l2) = (l1 ++ l2)%list.
Proof. induction l1 as [| x l1 IH]; simpl; [reflexivity | rewrite IH; reflexivity]. Qed.

Lemma update_at_split (A : Type) (f : A -> A) (l1 l2 : list A) (r : A) :
  update_at (List.length l1) f (l1 ++ r :: l2) = (l1 ++ f r :: l2)%list.
Proof. induction l1 as [| x l1 IH]; simpl; [reflexivity | rewrite IH; reflexivity]. Qed.

Lemma slot_id_not_pending_header (q : string) :
  is_slot_id q = true -> existsb (String.eqb q) pending_header = false.
Proof.
  intros H. unfold pending_header. cbn [existsb].
  repeat match goal with
         | |- context [String.eqb q ?h] =>
             destruct (String.eqb_spec q h) as [-> | _];
             [discriminate H | cbn [orb]]
         end.
  reflexivity.
Qed.

Lemma slot_id_not_slots_header (q : string) :
  is_slot_id q = true -> existsb (String.eqb q) slots_header = false.
Proof.
  intros H. unfold slots_header. cbn [existsb].
  repeat match goal with
         | |- context [String.eqb q ?h] =>
             destruct (String.eqb_spec q h) as [-> | _];
             [discriminate H | cbn [orb]]
         end.
  reflexivity.
Qed.

(** On a keyed pending sheet [find] lands on the row that carries the id. *)
Lemma find_pending_keyed (l1 l2 : list pending_row) (p : pending_row) :
  keyed p_id (fun r => tl (pending_cells r)) (l1 ++ p :: l2) = true ->
  find pending_header (map pending_cells (l1 ++ p :: l2)) (p_id p)
    = Some (List.length l1 + 2)%nat.
Proof.
  intros H. apply keyed_before in H as (_ & Hb & Hm & Hid).
  unfold find. cbn [find_from].
  rewrite (slot_id_not_pending_header _ Hid).
  rewrite (find_from_split _ pending_cells 2 l1 l2 p (p_id p) Hb Hm).
  f_equal. lia.
Qed.

Lemma find_slot_keyed (l1 l2 : list slot_row) (r : slot_row) :
  keyed s_id (fun r => tl (slot_cells r)) (l1 ++ r :: l2) = true ->
  find slots_header (map slot_cells (l1 ++ r :: l2)) (s_id r)
    = Some (List.length l1 + 2)%nat.
Proof.
  intros H. apply keyed_before in H as (_ & Hb & Hm & Hid).
  unfold find. cbn [find_from].
  rewrite (slot_id_not_slots_header _ Hid).
  rewrite (find_from_split _ slot_cells 2 l1 l2 r (s_id r) Hb Hm).
  f_equal. lia.
Qed.

Lemma first_pending_split (l1 l2 : list pending_row) (p : pending_row) :
  (forall r', In r' l1 -> p_id r' <> p_id p) ->
  first_pending (p_id p) (l1 ++ p :: l2) = Some p.
Proof.
  induction l1 as [| x l1 IH]; intros H; simpl.
  - rewrite String.eqb_refl. reflexivity.
  - destruct (String.eqb_spec (p_id x) (p_id p)) as [E | _].
    + exfalso. exact (H x (or_introl eq_refl) E).
    + apply IH. intros r' Hr'. apply H. right; exact Hr'.
Qed.

(** ** The owner's Confirm and Cancel on a keyed pending sheet *)

Lemma delete_rows_split (A : Type) (l1 l2 : list A) (r : A) :
  delete_rows (List.length l1 + 2) (l1 ++ r :: l2) = (l1 ++ l2)%list.
Proof.
  replace (List.length l1 + 2)%nat with (S (S (List.length l1))) by lia.
  apply remove_at_split.
Qed.

Lemma confirm_run (tz : option string)
      (net : list event -> string -> msg -> bool) (s : store)
      (p : pending_row) (who : user) (l1 l2 : list pending_row) :
  PENDING_SHEET s = (l1 ++ p :: l2)%list ->
  pending_keyed s = true ->
  str_of_int (u_id who) = p_user_id p ->
  run (handle_callback tz net (mk_query (confirm_data (p_id p)) who)) s =
    let s' := mk_store (SLOTS_SHEET s ++ [promoted p]) (l1 ++ l2)
                       (META_SHEET s) in
    let pre := [Answer; Sheet MetaGetAllRecords; Sheet PendingGetAllRecords;
                Sheet (SlotsAppendRow (promoted p));
                Sheet (PendingFind (p_id p));
                Sheet (PendingDeleteRows (List.length l1 + 2))] in
    match make_dt tz (p_date p) (p_start_time p),
          make_dt tz (p_date p) (p_end_time p) with
    | Some start_dt, Some end_dt =>
        let found := overlaps_list tz (p_id p) (p_date p) start_dt end_dt
                                   (SLOTS_SHEET s ++ [promoted p]) in
        let team_chat := first_value "team_chat_id" (META_SHEET s) in
        let m := MsgSlotConfirmed p found in
        let read := (pre ++ [Sheet SlotsGetAllRecords])%list in
        if truthy team_chat then
          if net read (text_or_empty team_chat) m
          then (Done tt,
                mk_world s' (read ++ [Send (text_or_empty team_chat) m true;
                                      Edit MsgConfirmedAndPosted]))
          else (Raised SendFailed,
                mk_world s' (read ++ [Send (text_or_empty team_chat) m false]))
        else (Done tt, mk_world s' (read ++ [Edit MsgConfirmedAndPosted]))
    | _, _ => (Raised ValueError, mk_world s' pre)
    end.
Proof.
  intros Hsplit Hkeyed Hwho. unfold pending_keyed in Hkeyed.
  rewrite Hsplit in Hkeyed.
  pose proof (keyed_before _ _ _ _ _ _ Hkeyed) as (Hk & _).
  assert (first_pending (p_id p) (PENDING_SHEET s) = Some p) as Hfirst.
  { rewrite Hsplit. apply first_pending_split.
    intros r' Hr'. apply Hk. apply in_or_app. left; exact Hr'. }
  unfold handle_callback, confirm_data, send_message. run_monad.
  cbn [text_or_empty q_data q_from_user].
  rewrite startswith_confirm, after_first_confirm. cbn [app].
  rewrite Hfirst, Hwho, String.eqb_refl.
  cbn [negb SLOTS_SHEET PENDING_SHEET META_SHEET]. rewrite Hsplit.
  rewrite (find_pending_keyed _ _ _ Hkeyed). cbv beta iota.
  cbn [PENDING_SHEET SLOTS_SHEET META_SHEET]. rewrite ?Hsplit.
  rewrite delete_rows_split.
  destruct (make_dt tz (p_date p) (p_start_time p)) as [start_dt |];
    [| reflexivity].
  destruct (make_dt tz (p_date p) (p_end_time p)) as [end_dt |];
    [| reflexivity].
  cbv zeta. cbn [app].
  destruct (truthy (first_value "team_chat_id" (META_SHEET s)));
    [| reflexivity].
  cbn [app SLOTS_SHEET PENDING_SHEET META_SHEET sheets trace].
  match goal with |- context [net ?t ?c ?m] => destruct (net t c m) end;
    reflexivity.
Qed.

Lemma cancel_run (tz : option string)
      (net : list event -> string -> msg -> bool) (s : store)
      (p : pending_row) (who : user) (l1 l2 : list pending_row) :
  PENDING_SHEET s = (l1 ++ p :: l2)%list ->
  pending_keyed s = true ->
  str_of_int (u_id who) = p_user_id p ->
  run (handle_callback tz net (mk_query (cancel_data (p_id p)) who)) s =
    (Done tt,
     mk_world (mk_store (SLOTS_SHEET s) (l1 ++ l2) (META_SHEET s))
              [Answer; Sheet MetaGetAllRecords; Sheet PendingGetAllRecords;
               Sheet (PendingFind (p_id p));
               Sheet (PendingDeleteRows (List.length l1 + 2));
               Edit MsgCancelledNotAdded]).
Proof.
  intros Hsplit Hkeyed Hwho. unfold pending_keyed in Hkeyed.
  rewrite Hsplit in Hkeyed.
  pose proof (keyed_before _ _ _ _ _ _ Hkeyed) as (Hk & _).
  assert (first_pending (p_id p) (PENDING_SHEET s) = Some p) as Hfirst.
  { rewrite Hsplit. apply first_pending_split.
    intros r' Hr'. apply Hk. apply in_or_app. left; exact Hr'. }
  unfold handle_callback, cancel_data. run_monad.
  cbn [text_or_empty q_data q_from_user].
  rewrite startswith_confirm_cancel, startswith_cancel, after_first_cancel.
  cbn [app]. rewrite Hfirst, Hwho, String.eqb_refl.
  cbn [negb SLOTS_SHEET PENDING_SHEET META_SHEET]. rewrite Hsplit.
  rewrite (find_pending_keyed _ _ _ Hkeyed). cbv beta iota.
  cbn [PENDING_SHEET SLOTS_SHEET META_SHEET]. rewrite ?Hsplit.
  rewrite delete_rows_split.
  reflexivity.
Qed.

Lemma overlaps_list_spec (tz : option string) (slot_id pdate : string)
      (start_dt end_dt : datetime) (recs : list slot_row) (rec : slot_row) :
  In rec (overlaps_list tz slot_id pdate start_dt end_dt recs) <->
  In rec recs /\ s_id rec <> slot_id
  /\ conflicts tz pdate start_dt end_dt rec.
Proof.
  unfold conflicts. induction recs as [| r recs IH]; simpl; [tauto |].
  destruct (String.eqb_spec (s_id r) slot_id) as [Ei | Ni].
  - rewrite IH. split; [tauto |].
    intros ([<- | H1] & H2 & H3); [contradiction | tauto].
  - destruct (make_dt tz (s_date r) (s_start_time r)) as [os |] eqn:E1.
    + destruct (make_dt tz (s_date r) (s_end_time r)) as [oe |] eqn:E2.
      * destruct (String.eqb_spec (s_date r) pdate) as [Ed | Nd]; cbn [andb].
        -- destruct (overlaps start_dt end_dt os oe) eqn:Eo.
           ++ simpl. rewrite IH. split.
              ** intros [<- | H]; [| tauto].
                 split; [auto |]. split; [exact Ni |]. split; [exact Ed |].
                 exists os, oe. auto.
              ** intros ([<- | H1] & H2); [left; reflexivity | right; tauto].
           ++ rewrite IH. split; [tauto |].
              intros ([<- | H1] & H2 & H3); [| tauto].
              destruct H3 as (_ & os' & oe' & H3 & H4 & H5). congruence.
        -- rewrite IH. split; [tauto |].
           intros ([<- | H1] & H2 & H3); [| tauto].
           destruct H3 as [H3 _]. contradiction.
      * rewrite IH. split; [tauto |].
        intros ([<- | H1] & H2 & H3); [| tauto].
        destruct H3 as (_ & os' & oe' & H3 & H4 & H5). congruence.
    + rewrite IH. split; [tauto |].
      intros ([<- | H1] & H2 & H3); [| tauto].
      destruct H3 as (_ & os' & oe' & H3 & H4 & H5). congruence.
Qed.

Lemma keyed_pending_split (s : store) (p : pending_row) :
  pending_keyed s = true -> In p (PENDING_SHEET s) ->
  exists l1 l2, PENDING_SHEET s = (l1 ++ p :: l2)%list
                /\ ~ In p (l1 ++ l2)
                /\ first_pending (p_id p) (l1 ++ l2) = None
                /\ keyed p_id (fun r => tl (pending_cells r)) (l1 ++ l2) = true.
Proof.
  intros Hk Hin. apply in_split in Hin as (l1 & l2 & E).
  exists l1, l2. unfold pending_keyed in Hk. rewrite E in Hk.
  pose proof (keyed_before _ _ _ _ _ _ Hk) as (Hne & _).
  repeat split.
  - exact E.
  - intros Hp. exact (Hne p Hp eq_refl).
  - apply first_pending_none. exact Hne.
  - apply (keyed_remove _ _ _ _ _ _ Hk).
Qed.

(** ** C2 *)


(** ** C6 *)

(** C6.  Confirm or Cancel pressed for an id that no pending row carries is
    answered "not found or already processed" and leaves the spreadsheet as
    it was.  In particular, on a keyed pending sheet, once the owner has
    confirmed or cancelled a proposal, any further Confirm or Cancel on its
    id, by anybody, is answered so and changes nothing. *)
Theorem callback_unknown_id_not_found :
  forall (tz : option string) (net : list event -> string -> msg -> bool),
    (forall (s : store) (slot_id : string) (who : user),
        (forall r, In r (PENDING_SHEET s) -> p_id r <> slot_id) ->
        run (handle_callback tz net (mk_query (confirm_data slot_id) who)) s
          = (Done tt, mk_world s [Answer; Sheet MetaGetAllRecords;
                                  Sheet PendingGetAllRecords;
                                  Edit MsgPendingNotFound])
        /\ run (handle_callback tz net (mk_query (cancel_data slot_id) who)) s
          = (Done tt, mk_world s [Answer; Sheet MetaGetAllRecords;
                                  Sheet PendingGetAllRecords;
                                  Edit MsgPendingNotFound]))
    /\ (forall (s : store) (p : pending_row) (owner again : user)
               (first second : string -> option string),
          pending_keyed s = true ->
          In p (PENDING_SHEET s) ->
          str_of_int (u_id owner) = p_user_id p ->
          first = confirm_data \/ first = cancel_data ->
          second = confirm_data \/ second = cancel_data ->
          let s1 := sheets (snd (run (handle_callback tz net
                                        (mk_query (first (p_id p)) owner)) s)) in
          run (handle_callback tz net (mk_query (second (p_id p)) again)) s1
            = (Done tt, mk_world s1 [Answer; Sheet MetaGetAllRecords;
                                     Sheet PendingGetAllRecords;
                                     Edit MsgPendingNotFound])).
Proof.
  intros tz net. split.
  - intros s slot_id who Habsent. apply callback_unknown_run.
    apply first_pending_none. exact Habsent.
  - intros s p owner again first second Hk Hin Hown Hfirst Hsecond s1.
    destruct (keyed_pending_split _ _ Hk Hin) as (l1 & l2 & E & _ & Hnone & _).
    assert (PENDING_SHEET s1 = (l1 ++ l2)%list) as Hs1.
    { unfold s1. destruct Hfirst as [-> | ->].
      - rewrite (confirm_run tz net s p owner l1 l2 E Hk Hown). cbv zeta.
        destruct (make_dt tz (p_date p) (p_start_time p));
          [destruct (make_dt tz (p_date p) (p_end_time p)) |];
          try reflexivity.
        destruct (truthy (first_value "team_chat_id" (META_SHEET s)));
          [| reflexivity].
        match goal with |- context [net ?t ?c ?m] => destruct (net t c m) end;
          reflexivity.
      - rewrite (cancel_run tz net s p owner l1 l2 E Hk Hown). reflexivity. }
    assert (first_pending (p_id p) (PENDING_SHEET s1) = None) as Habsent
        by (rewrite Hs1; exact Hnone).
    destruct (callback_unknown_run tz net s1 (p_id p) again Habsent) as [H1 H2].
    destruct Hsecond as [-> | ->]; assumption.
Qed.

(* ================================================================== *)
(** * The reminder job *)
(* ================================================================== *)

Lemma reminders_for_app (q : string) (a b : list event) :
  reminders_for q (a ++ b) = (reminders_for q a + reminders_for q b)%nat.
Proof. unfold reminders_for. rewrite filter_app, length_app. reflexivity. Qed.

Lemma same_but_flag_refl (x : slot_row) : same_but_flag x x.
Proof. split; [reflexivity | auto]. Qed.

Lemma same_but_flag_yes (x : slot_row) :
  same_but_flag x (set_reminder_sent "yes" x).
Proof.
  split; [reflexivity |]. intros c Hc. cbn in Hc. cbn.
  repeat (destruct Hc as [<- | Hc]; [auto 12 |]). destruct Hc.
Qed.

Lemma same_but_flag_ticked (tz : option string) (now : datetime)
      (x : slot_row) : same_but_flag x (ticked tz now x).
Proof.
  unfold ticked. destruct (due tz now x);
    [apply same_but_flag_yes | apply same_but_flag_refl].
Qed.

Lemma same_but_flag_ids (rows rows' : list slot_row) :
  Forall2 same_but_flag rows rows' -> map s_id rows' = map s_id rows.
Proof.
  induction 1 as [| x x' l l' [E _] _ IH]; [reflexivity |].
  simpl. rewrite E, IH. reflexivity.
Qed.

Lemma same_but_flag_back (rows rows' : list slot_row) :
  Forall2 same_but_flag rows rows' ->
  forall x', In x' rows' -> exists x, In x rows /\ same_but_flag x x'.
Proof.
  induction 1 as [| x x' l l' Hx _ IH]; [intros ? [] |].
  intros y [<- | Hy].
  - exists x. split; [left; reflexivity | exact Hx].
  - destruct (IH y Hy) as (z & Hz & Hr). exists z. split; [right |]; trivial.
Qed.

Lemma keyed_same_but_flag (rows rows' : list slot_row) :
  Forall2 same_but_flag rows rows' ->
  keyed s_id (fun r => tl (slot_cells r)) rows = true ->
  keyed s_id (fun r => tl (slot_cells r)) rows' = true.
Proof.
  intros HF. rewrite !keyed_iff. intros (H1 & H2 & H3).
  pose proof (same_but_flag_ids _ _ HF) as Hids.
  pose proof (same_but_flag_back _ _ HF) as Hback.
  split; [| split].
  - intros x' Hx'. destruct (Hback x' Hx') as (x & Hx & E & _).
    rewrite E. apply H1. exact Hx.
  - rewrite Hids. exact H2.
  - intros r r' c Hr Hr' Hc Ec.
    destruct (Hback r Hr) as (x & Hx & Ex & _).
    destruct (Hback r' Hr') as (x' & Hx' & _ & Hothers).
    destruct (Hothers c Hc) as [Hc' | Hc'].
    + apply (H3 x x' c Hx Hx' Hc'). congruence.
    + rewrite Ec, Ex, (H1 x Hx) in Hc'. discriminate Hc'.
Qed.

Lemma Forall2_same_refl (l : list slot_row) : Forall2 same_but_flag l l.
Proof. induction l; constructor; [apply same_but_flag_refl | assumption]. Qed.

Lemma keyed_flag_row (l1 l2 : list slot_row) (r : slot_row) :
  keyed s_id (fun r => tl (slot_cells r)) (l1 ++ r :: l2) = true ->
  keyed s_id (fun r => tl (slot_cells r))
        (l1 ++ set_reminder_sent "yes" r :: l2) = true.
Proof.
  apply keyed_same_but_flag. apply Forall2_app; [apply Forall2_same_refl |].
  constructor; [apply same_but_flag_yes | apply Forall2_same_refl].
Qed.

Lemma keyed_ticked (tz : option string) (now : datetime)
      (rows : list slot_row) :
  keyed s_id (fun r => tl (slot_cells r)) rows = true ->
  keyed s_id (fun r => tl (slot_cells r)) (map (ticked tz now) rows) = true.
Proof.
  apply keyed_same_but_flag.
  induction rows; constructor; [apply same_but_flag_ticked | assumption].
Qed.

(** Flagging a record on a keyed confirmed sheet reaches that record. *)
Lemma update_reminder_sent_keyed (w : world) (l1 l2 : list slot_row)
      (r : slot_row) :
  SLOTS_SHEET (sheets w) = (l1 ++ r :: l2)%list ->
  keyed s_id (fun r => tl (slot_cells r)) (l1 ++ r :: l2) = true ->
  update_reminder_sent (s_id r) w =
    (Done true,
     mk_world (mk_store (l1 ++ set_reminder_sent "yes" r :: l2)
                        (PENDING_SHEET (sheets w)) (META_SHEET (sheets w)))
              (trace w ++ [Sheet (SlotsFind (s_id r));
                           Sheet (SlotsUpdateCell (List.length l1 + 2) "yes")])).
Proof.
  destruct w as [s tr]. cbn [sheets trace]. intros E Hk.
  unfold update_reminder_sent. run_monad.
  cbn [SLOTS_SHEET PENDING_SHEET META_SHEET]. rewrite E.
  rewrite (find_slot_keyed _ _ _ Hk). cbv beta iota.
  cbn [SLOTS_SHEET PENDING_SHEET META_SHEET]. rewrite ?E.
  unfold update_cell_10.
  replace (List.length l1 + 2)%nat with (S (S (List.length l1))) by lia.
  rewrite update_at_split. rewrite <- app_assoc. reflexivity.
Qed.

Lemma due_unfold (tz : option string) (now : datetime) (rec : slot_row) :
  due tz now rec =
    if reminder_sent rec then false
    else match make_dt tz (s_date rec) (s_start_time rec) with
         | Some start_dt => in_window now (wallclock now + minutes 15) start_dt
         | None => false
         end.
Proof. unfold due. destruct (reminder_sent rec); reflexivity. Qed.

Lemma remind_loop_run (tz : option string)
      (net : list event -> string -> msg -> bool) (team : string)
      (now : datetime) (recs : list slot_row) :
  forall (pre : list slot_row) (w : world),
    SLOTS_SHEET (sheets w) = (pre ++ recs)%list ->
    keyed s_id (fun r => tl (slot_cells r)) (pre ++ recs) = true ->
    exists tr,
      remind_loop tz net team now (wallclock now + minutes 15) recs w
        = (Done tt,
           mk_world (mk_store (pre ++ map (ticked tz now) recs)
                              (PENDING_SHEET (sheets w))
                              (META_SHEET (sheets w))) tr)
      /\ forall q, reminders_for q tr
                   = (reminders_for q (trace w) + due_count tz now q recs)%nat.
Proof.
  induction recs as [| rec rest IH]; intros pre w E Hk.
  - exists (trace w). split.
    + destruct w as [[sl pe me] tr0].
      cbn [sheets trace SLOTS_SHEET PENDING_SHEET META_SHEET map] in *.
      rewrite app_nil_r in *. subst sl. reflexivity.
    + intros q. cbn. lia.
  - assert (SLOTS_SHEET (sheets w) = ((pre ++ [rec]) ++ rest)%list) as E'
        by (rewrite <- app_assoc; exact E).
    assert (forall q, due tz now rec = false ->
                      due_count tz now q (rec :: rest)
                      = due_count tz now q rest) as Hskip.
    { intros q Hd. unfold due_count. cbn [filter]. rewrite Hd. reflexivity. }
    assert (due tz now rec = false ->
            exists tr,
              remind_loop tz net team now (wallclock now + minutes 15) rest w
              = (Done tt,
                 mk_world (mk_store (pre ++ map (ticked tz now) (rec :: rest))
                                    (PENDING_SHEET (sheets w))
                                    (META_SHEET (sheets w))) tr)
              /\ forall q, reminders_for q tr
                           = (reminders_for q (trace w)
                              + due_count tz now q (rec :: rest))%nat) as Hsame.
    { intros Hd.
      destruct (IH (pre ++ [rec])%list w E') as (tr & Hrun & Hcount).
      { rewrite <- app_assoc. exact Hk. }
      exists tr. split.
      - rewrite Hrun. cbn [map]. unfold ticked at 2. rewrite Hd.
        rewrite <- app_assoc. reflexivity.
      - intros q. rewrite Hcount, (Hskip q Hd). reflexivity. }
    pose proof (due_unfold tz now rec) as Hdue.
    cbn [remind_loop].
    destruct (reminder_sent rec); [exact (Hsame Hdue) |].
    destruct (make_dt tz (s_date rec) (s_start_time rec)) as [start_dt |];
      [| exact (Hsame Hdue)].
    destruct (in_window now (wallclock now + minutes 15) start_dt).
    + (* the record is due *)
      unfold bind at 1. unfold bind at 1. unfold bind at 1.
      unfold try_except, send_message, emit. cbn [trace sheets].
      set (delivered := net (trace w) team (MsgReminder rec)).
      destruct delivered eqn:Ed; cbv beta iota;
        rewrite (update_reminder_sent_keyed
                   (mk_world (sheets w) _) pre rest rec E Hk);
        cbv beta iota; unfold ret;
        match goal with
        | |- context [remind_loop _ _ _ _ _ rest ?w2] =>
            destruct (IH (pre ++ [set_reminder_sent "yes" rec])%list w2)
              as (tr & Hrun & Hcount);
            [ cbn [sheets SLOTS_SHEET]; rewrite <- app_assoc; reflexivity
            | rewrite <- app_assoc; apply keyed_flag_row; exact Hk
            | exists tr; split;
              [ rewrite Hrun; cbn [map sheets PENDING_SHEET META_SHEET];
                unfold ticked at 2; rewrite Hdue, <- app_assoc; reflexivity
              | intros q; rewrite Hcount; cbn [trace];
                rewrite !reminders_for_app; unfold due_count;
                cbn [filter]; rewrite Hdue; cbn [andb];
                cbn; destruct (String.eqb (s_id rec) q); cbn; lia ] ]
        end.
    + unfold bind at 1. unfold ret at 1. cbv beta iota. exact (Hsame Hdue).
Qed.

(** One tick on a keyed confirmed sheet with a registered group. *)
Lemma check_reminders_run (tz : option string)
      (net : list event -> string -> msg -> bool) (now : datetime)
      (w : world) (team : string) :
  registered (sheets w) team ->
  slots_keyed (sheets w) = true ->
  exists tr,
    check_reminders tz net now w
      = (Done tt,
         mk_world (mk_store (map (ticked tz now) (SLOTS_SHEET (sheets w)))
                            (PENDING_SHEET (sheets w))
                            (META_SHEET (sheets w))) tr)
    /\ forall q, reminders_for q tr
                 = (reminders_for q (trace w)
                    + due_count tz now q (SLOTS_SHEET (sheets w)))%nat.
Proof.
  destruct w as [s tr0]. cbn [sheets trace]. intros Hreg Hk.
  apply registered_truthy in Hreg as [Hteam Htruthy].
  unfold check_reminders. run_monad. rewrite Hteam, Htruthy.
  cbn [negb text_or_empty].
  destruct (remind_loop_run tz net team now (SLOTS_SHEET s) []
              (mk_world s ((tr0 ++ [Sheet MetaGetAllRecords])
                             ++ [Sheet SlotsGetAllRecords])))
    as (tr & Hrun & Hcount); [reflexivity | exact Hk |].
  exists tr. split; [exact Hrun |].
  intros q. rewrite Hcount. cbn [trace]. rewrite !reminders_for_app.
  cbn. lia.
Qed.

Lemma due_count_keyed (tz : option string) (now : datetime)
      (rows : list slot_row) (r : slot_row) :
  keyed s_id (fun r => tl (slot_cells r)) rows = true ->
  In r rows ->
  due_count tz now (s_id r) rows = if due tz now r then 1%nat else 0%nat.
Proof.
  intros Hk Hin. apply in_split in Hin as (l1 & l2 & ->).
  apply keyed_before in Hk as (Hne & _).
  assert (forall l, (forall x, In x l -> s_id x <> s_id r) ->
                    filter (fun rec => due tz now rec
                                       && String.eqb (s_id rec) (s_id r)) l
                    = []) as Hnone.
  { induction l as [| x l IH]; intros H; [reflexivity |]. cbn [filter].
    destruct (String.eqb_spec (s_id x) (s_id r)) as [E | _].
    - exfalso. exact (H x (or_introl eq_refl) E).
    - rewrite andb_false_r. apply IH. intros y Hy. apply H. right; exact Hy. }
  unfold due_count. rewrite filter_app. cbn [filter].
  rewrite String.eqb_refl, andb_true_r.
  rewrite (Hnone l1), (Hnone l2).
  - destruct (due tz now r); reflexivity.
  - intros x Hx. apply Hne. apply in_or_app. right; exact Hx.
  - intros x Hx. apply Hne. apply in_or_app. left; exact Hx.
Qed.

Lemma reminder_sent_yes (r : slot_row) :
  reminder_sent (set_reminder_sent "yes" r) = true.
Proof. reflexivity. Qed.

Lemma due_flagged (tz : option string) (now : datetime) (r : slot_row) :
  reminder_sent r = true -> due tz now r = false.
Proof. intros H. unfold due. rewrite H. reflexivity. Qed.

(** A flagged record stays in place and is never reminded of, whatever the
    ticks. *)
Lemma run_ticks_flagged (tz : option string)
      (net : list event -> string -> msg -> bool) (team : string)
      (r : slot_row) (nows : list datetime) :
  forall w : world,
    registered (sheets w) team ->
    slots_keyed (sheets w) = true ->
    In r (SLOTS_SHEET (sheets w)) ->
    reminder_sent r = true ->
    exists w',
      run_ticks tz net nows w = (Done tt, w')
      /\ reminders_for (s_id r) (trace w') = reminders_for (s_id r) (trace w)
      /\ In r (SLOTS_SHEET (sheets w')).
Proof.
  induction nows as [| now later IH]; intros w Hreg Hk Hin Hflag.
  - exists w. repeat split; trivial.
  - destruct (check_reminders_run tz net now w team Hreg Hk)
      as (tr & Hrun & Hcount).
    cbn [run_ticks]. unfold bind. rewrite Hrun.
    pose proof (due_flagged tz now r Hflag) as Hdue.
    destruct (IH (mk_world
                    (mk_store (map (ticked tz now) (SLOTS_SHEET (sheets w)))
                              (PENDING_SHEET (sheets w))
                              (META_SHEET (sheets w))) tr))
      as (w' & Hrun' & Hcount' & Hin').
    + exact Hreg.
    + apply keyed_ticked. exact Hk.
    + cbn [sheets SLOTS_SHEET].
      replace r with (ticked tz now r) at 1
        by (unfold ticked; rewrite Hdue; reflexivity).
      apply in_map. exact Hin.
    + exact Hflag.
    + exists w'. split; [exact Hrun' |]. split; [| exact Hin'].
      rewrite Hcount'. cbn [trace]. rewrite Hcount.
      rewrite (due_count_keyed tz now _ r Hk Hin), Hdue. lia.
Qed.

(** ** C5 *)


(* ================================================================== *)
(** * The properties on the running example *)
(* ================================================================== *)



Lemma addslot_rejects_start_not_before_end_witness :
  registered sync_pending "-100"
  /\ parse_args (today_iso sync_env) (args backwards_request)
     = Parsed "2024-03-01" "10:30" "09:30" "sync"
  /\ dt_lt at_1030 at_0930 = false
  /\ sheets (snd (run (addslot None delivering sync_env backwards_request)
                      sync_pending)) = sync_pending.
Proof.
  assert (registered sync_pending "-100") as Hreg
      by (split; [reflexivity | intros H; discriminate H]).
  split; [exact Hreg |]. split; [reflexivity |]. split; [reflexivity |].
  apply (addslot_rejects_start_not_before_end
           None delivering sync_env backwards_request sync_pending
           "-100" "2024-03-01" "10:30" "09:30" "sync" at_1030 at_0930
           Hreg eq_refl eq_refl eq_refl eq_refl eq_refl).
Defined.

Lemma addslot_inserts_or_proposes_witness :
  registered one_slot "-100"
  /\ dt_lt at_0930 at_1030 = true
  /\ conflicts None "2024-03-01" at_0930 at_1030 standup
  /\ PENDING_SHEET (sheets (snd (run (addslot None delivering sync_env
                                              sync_request) one_slot)))
     = [sync]
  /\ SLOTS_SHEET (sheets (snd (run (addslot None delivering sync_env
                                            sync_request) one_slot)))
     = [standup].
Proof.
  assert (registered one_slot "-100") as Hreg
      by (split; [reflexivity | intros H; discriminate H]).
  assert (conflicts None "2024-03-01" at_0930 at_1030 standup) as Hc.
  { split; [reflexivity |].
    exists (mk_datetime (mk_date 2024 3 1) 9 0 0 0 None),
           (mk_datetime (mk_date 2024 3 1) 10 0 0 0 None).
    repeat split. }
  split; [exact Hreg |]. split; [reflexivity |]. split; [exact Hc |].
  apply (proj2 (addslot_inserts_or_proposes
                  None delivering sync_env sync_request one_slot
                  "-100" "2024-03-01" "09:30" "10:30" "sync" at_0930 at_1030
                  Hreg eq_refl eq_refl eq_refl eq_refl eq_refl)).
  exists standup. split; [left; reflexivity | exact Hc].
Defined.



Lemma unregistered_refuses_witness :
  unregistered no_team
  /\ run (check_reminders None delivering at_0850) no_team
     = (Done tt, mk_world no_team [Sheet MetaGetAllRecords]).
Proof.
  split; [reflexivity |].
  apply (proj1 (unregistered_refuses None delivering sync_env sync_request
                                     at_0850 no_team eq_refl)).
Defined.

(** On the running example: the request for 10:00-10:30 overlaps the pending
    sync and no confirmed record, and goes straight to the confirmed sheet. *)
Lemma late_request_inserted_directly :
  sheets (snd (run (addslot None delivering sync_env late_request)
                   sync_pending))
  = mk_store [standup;
              slot_row_of sync_env bob "2024-03-01" "10:00" "10:30" "retro"]
             [sync] team_meta.
Proof. reflexivity. Qed.

(* ================================================================== *)
(** * Further properties of the helpers and handlers *)
(* ================================================================== *)

(** ** The meta sheet *)

Lemma first_value_update (key v : string) (rows : list (string * string))
      (idx : nat) :
  forall n, first_key_row n key rows = Some idx ->
  exists i, idx = (n + i)%nat
            /\ first_value key (update_at i (fun kv => (fst kv, v)) rows) = Some v
            /\ (forall k, k <> key ->
                  first_value k (update_at i (fun kv => (fst kv, v)) rows)
                  = first_value k rows)
            /\ List.length (update_at i (fun kv => (fst kv, v)) rows)
               = List.length rows.
Proof.
  induction rows as [| [k0 v0] rows IH]; intros n H; [discriminate |].
  cbn [first_key_row] in H.
  destruct (String.eqb_spec k0 key) as [-> | Hne].
  - assert (idx = n) as -> by congruence. exists 0%nat.
    cbn. rewrite String.eqb_refl. repeat split; [lia | ].
    intros k Hk. apply String.eqb_neq in Hk. rewrite String.eqb_sym in Hk.
    rewrite Hk. reflexivity.
  - destruct (IH (S n) H) as (i & -> & H1 & H2 & H3). exists (S i).
    cbn [update_at first_value List.length].
    apply String.eqb_neq in Hne. rewrite Hne.
    repeat split; [lia | exact H1 | | rewrite H3; reflexivity].
    intros k Hk. destruct (String.eqb k0 k); [reflexivity | apply H2; exact Hk].
Qed.

Lemma first_key_row_some (key : string) (rows : list (string * string)) :
  forall n idx, first_key_row n key rows = Some idx ->
                exists v0, first_value key rows = Some v0.
Proof.
  induction rows as [| [k0 v0] rows IH]; intros n idx H; [discriminate |].
  cbn in *. destruct (String.eqb k0 key); [eauto | eapply IH; eauto].
Qed.

Lemma first_key_row_none (key : string) (rows : list (string * string)) :
  forall n, first_key_row n key rows = None -> first_value key rows = None.
Proof.
  induction rows as [| [k0 v0] rows IH]; intros n H; [reflexivity |].
  cbn in *. destruct (String.eqb k0 key); [discriminate | eauto].
Qed.

Lemma first_value_app_none (key v : string) (rows : list (string * string)) :
  first_value key rows = None ->
  first_value key (rows ++ [(key, v)]) = Some v
  /\ forall k, k <> key ->
               first_value k (rows ++ [(key, v)]) = first_value k rows.
Proof.
  induction rows as [| [k0 v0] rows IH]; intros H; cbn in *.
  - rewrite String.eqb_refl. split; [reflexivity |].
    intros k Hk. apply String.eqb_neq in Hk. rewrite String.eqb_sym in Hk.
    rewrite Hk. reflexivity.
  - destruct (String.eqb k0 key) eqn:E; [discriminate |].
    destruct (IH H) as [H1 H2]. split; [exact H1 |].
    intros k Hk. destruct (String.eqb k0 k); [reflexivity | apply H2; exact Hk].
Qed.

(** The store after [set_meta_value key value]. *)
Lemma set_meta_value_sheets (key value : string) (w : world) :
  exists meta',
    fst (set_meta_value key value w) = Done tt
    /\ sheets (snd (set_meta_value key value w))
       = mk_store (SLOTS_SHEET (sheets w)) (PENDING_SHEET (sheets w)) meta'
    /\ first_value key meta' = Some value
    /\ (forall k, k <> key ->
                  first_value k meta' = first_value k (META_SHEET (sheets w)))
    /\ (List.length meta'
        = match first_value key (META_SHEET (sheets w)) with
          | Some _ => List.length (META_SHEET (sheets w))
          | None => S (List.length (META_SHEET (sheets w)))
          end).
Proof.
  destruct w as [[sl pe me] tr]. unfold set_meta_value.
  unfold meta_update_cell, meta_append_row. run_monad.
  cbn [SLOTS_SHEET PENDING_SHEET META_SHEET].
  destruct (first_key_row 2 key me) as [idx |] eqn:E.
  - destruct (first_key_row_some key me 2 idx E) as [v0 Hv0].
    destruct (first_value_update key value me idx 2 E)
      as (i & -> & H1 & H2 & H3).
    exists (update_at i (fun kv => (fst kv, value)) me).
    cbn [fst snd sheets]. unfold update_cell_2.
    replace (2 + i)%nat with (S (S i)) by lia.
    split; [reflexivity |]. split; [reflexivity |].
    split; [exact H1 |]. split; [exact H2 |].
    rewrite H3, Hv0. reflexivity.
  - pose proof (first_key_row_none key me 2 E) as Hnone.
    destruct (first_value_app_none key value me Hnone) as [H1 H2].
    exists (me ++ [(key, value)])%list. cbn [fst snd sheets].
    split; [reflexivity |]. split; [reflexivity |].
    split; [exact H1 |]. split; [exact H2 |].
    rewrite Hnone, length_app. cbn. lia.
Qed.

(** X1.  Writing a meta value and reading it back: after
    [set_meta_value key value], [get_meta_value key] yields [value]; the
    values of the other keys, and the confirmed and pending sheets, are as
    before; the meta sheet gains a row only when the key was not there. *)
Theorem set_then_get_meta_value :
  forall (key value : string) (s : store),
    let s' := sheets (snd (run (set_meta_value key value) s)) in
    fst (run (get_meta_value key) s') = Done (Some value)
    /\ (forall k, k <> key ->
          fst (run (get_meta_value k) s') = fst (run (get_meta_value k) s))
    /\ SLOTS_SHEET s' = SLOTS_SHEET s
    /\ PENDING_SHEET s' = PENDING_SHEET s
    /\ List.length (META_SHEET s')
       = match first_value key (META_SHEET s) with
         | Some _ => List.length (META_SHEET s)
         | None => S (List.length (META_SHEET s))
         end.
Proof.
  intros key value s s'.
  destruct (set_meta_value_sheets key value (mk_world s []))
    as (meta' & _ & Hs & H1 & H2 & H3).
  unfold s', run. rewrite Hs. cbn [sheets SLOTS_SHEET PENDING_SHEET META_SHEET].
  run_monad. cbn [fst META_SHEET]. rewrite H1.
  split; [reflexivity |]. split; [| split; [reflexivity | split; [reflexivity | exact H3]]].
  intros k Hk. rewrite (H2 k Hk). reflexivity.
Qed.
(** ** Printing of user and chat ids *)

Lemma to_int_not_nil (z : Z) :
  Z.to_int z <> Decimal.Pos Decimal.Nil /\ Z.to_int z <> Decimal.Neg Decimal.Nil.
Proof.
  destruct z; cbn; split; try discriminate.
  - intros H. injection H as H. revert H. apply DecimalPos.Unsigned.to_uint_nonnil.
  - intros H. injection H as H. revert H. apply DecimalPos.Unsigned.to_uint_nonnil.
Qed.

Lemma str_of_int_inj (a b : Z) : str_of_int a = str_of_int b -> a = b.
Proof.
  unfold str_of_int. intros H.
  destruct (to_int_not_nil a) as [Ha1 Ha2].
  destruct (to_int_not_nil b) as [Hb1 Hb2].
  pose proof (NilZero.isi (Z.to_int a) Ha1 Ha2) as Ea.
  pose proof (NilZero.isi (Z.to_int b) Hb1 Hb2) as Eb.
  rewrite H, Eb in Ea. injection Ea as Ea. symmetry in Ea.
  apply DecimalZ.to_int_inj. exact Ea.
Qed.

Lemma str_of_int_nonempty (a : Z) : str_of_int a <> "".
Proof.
  unfold str_of_int. intros H.
  destruct (to_int_not_nil a) as [Ha1 Ha2].
  pose proof (NilZero.isi (Z.to_int a) Ha1 Ha2) as Ea.
  rewrite H in Ea. discriminate Ea.
Qed.

(** X2.  [/setteam] from a group or supergroup registers that chat: the meta
    sheet then holds the chat id, printed, under [team_chat_id], whatever was
    registered before; the confirmed and pending sheets are untouched.  From
    any other kind of chat nothing is written. *)
Theorem setteam_registers_group :
  forall (u : update) (s : store),
    let result := run (setteam u) s in
    (effective_chat_type u = "group" \/ effective_chat_type u = "supergroup" ->
       fst result = Done tt
       /\ registered (sheets (snd result)) (str_of_int (effective_chat_id u))
       /\ SLOTS_SHEET (sheets (snd result)) = SLOTS_SHEET s
       /\ PENDING_SHEET (sheets (snd result)) = PENDING_SHEET s)
    /\ (effective_chat_type u <> "group" ->
        effective_chat_type u <> "supergroup" ->
        result = (Done tt, mk_world s [Reply MsgSetteamInGroup])).
Proof.
  intros u s result. unfold result, setteam, run. split.
  - intros Hg.
    assert (String.eqb (effective_chat_type u) "group"
            || String.eqb (effective_chat_type u) "supergroup" = true) as ->.
    { destruct Hg as [-> | ->]; reflexivity. }
    cbn [negb]. unfold bind.
    destruct (set_meta_value_sheets "team_chat_id"
                (str_of_int (effective_chat_id u)) (mk_world s []))
      as (meta' & Hdone & Hs & H1 & _ & _).
    destruct (set_meta_value "team_chat_id" (str_of_int (effective_chat_id u))
                             (mk_world s [])) as [o w'] eqn:E.
    destruct w' as [s' tr']. cbn [fst snd sheets] in Hdone, Hs. subst o s'.
    unfold reply_text, emit.
    cbn [fst snd sheets trace SLOTS_SHEET PENDING_SHEET META_SHEET].
    split; [reflexivity |]. split; [| split; reflexivity].
    split; [exact H1 | apply str_of_int_nonempty].
  - intros H1 H2. apply String.eqb_neq in H1, H2. rewrite H1, H2. reflexivity.
Qed.

Lemma setteam_registers_group_witness :
  effective_chat_type sync_request = "supergroup"
  /\ registered (sheets (snd (run (setteam sync_request) no_team))) "-100".
Proof.
  split; [reflexivity |].
  apply (proj1 (setteam_registers_group sync_request no_team)
               (or_intror eq_refl)).
Defined.


(** ** Instants are ordered like their calendar fields *)

Lemma days_before_year_succ (y : Z) :
  days_before_year (y + 1)
  = days_before_year y + 365 + (if is_leap y then 1 else 0).
Proof.
  unfold days_before_year, is_leap. cbv zeta.
  replace (y + 1 - 1) with y by lia.
  destruct (Z.eqb_spec (y mod 4) 0); destruct (Z.eqb_spec (y mod 100) 0);
    destruct (Z.eqb_spec (y mod 400) 0); cbn [andb orb negb];
    Z.to_euclidean_division_equations; lia.
Qed.

Lemma days_before_year_mono (y y' : Z) :
  y <= y' -> days_before_year y <= days_before_year y'.
Proof.
  unfold days_before_year. cbv zeta. intros H.
  Z.to_euclidean_division_equations; lia.
Qed.

Lemma month_cases (m : Z) :
  1 <= m <= 12 ->
  m = 1 \/ m = 2 \/ m = 3 \/ m = 4 \/ m = 5 \/ m = 6 \/ m = 7 \/ m = 8
  \/ m = 9 \/ m = 10 \/ m = 11 \/ m = 12.
Proof. lia. Qed.

Lemma valid_ymd_inv (y m d : Z) :
  valid_ymd y m d = true ->
  1 <= y <= 9999 /\ 1 <= m <= 12 /\ 1 <= d <= days_in_month y m.
Proof.
  unfold valid_ymd. rewrite !andb_true_iff, !Z.leb_le. lia.
Qed.

(** The day of the year lies between 1 and the length of the year. *)
Lemma day_of_year_bounds (y m d : Z) :
  valid_ymd y m d = true ->
  1 <= days_before_month y m + d <= 365 + (if is_leap y then 1 else 0).
Proof.
  intros H. apply valid_ymd_inv in H as (_ & Hm & Hd).
  apply month_cases in Hm.
  unfold days_before_month, days_in_month in *.
  destruct Hm as [-> | [-> | [-> | [-> | [-> | [-> | [-> | [-> | [-> | [-> | [-> | ->]]]]]]]]]]];
    set (leap := is_leap y) in *; clearbody leap; destruct leap;
    cbv beta iota delta [Z.ltb Z.compare Pos.compare Pos.compare_cont andb] in *;
    lia.
Qed.

Lemma month_start_mono (y m1 m2 d1 d2 : Z) :
  valid_ymd y m1 d1 = true -> valid_ymd y m2 d2 = true -> m1 < m2 ->
  days_before_month y m1 + d1 < days_before_month y m2 + d2.
Proof.
  intros H1 H2 Hlt.
  apply valid_ymd_inv in H1 as (_ & Hm1 & Hd1).
  apply valid_ymd_inv in H2 as (_ & Hm2 & Hd2).
  apply month_cases in Hm1. apply month_cases in Hm2.
  unfold days_before_month, days_in_month in *.
  destruct Hm1 as [-> | [-> | [-> | [-> | [-> | [-> | [-> | [-> | [-> | [-> | [-> | ->]]]]]]]]]]];
    destruct Hm2 as [-> | [-> | [-> | [-> | [-> | [-> | [-> | [-> | [-> | [-> | [-> | ->]]]]]]]]]]];
    try lia; set (leap := is_leap y) in *; clearbody leap; destruct leap;
    cbv beta iota delta [Z.ltb Z.compare Pos.compare Pos.compare_cont andb] in *;
    lia.
Qed.

Lemma toordinal_order (y1 m1 d1 y2 m2 d2 : Z) :
  valid_ymd y1 m1 d1 = true -> valid_ymd y2 m2 d2 = true ->
  (toordinal (mk_date y1 m1 d1) < toordinal (mk_date y2 m2 d2) <->
   y1 < y2 \/ (y1 = y2 /\ (m1 < m2 \/ (m1 = m2 /\ d1 < d2)))).
Proof.
  intros H1 H2. unfold toordinal. cbn [year month day].
  assert (forall ya ma da yb mb db,
             valid_ymd ya ma da = true -> valid_ymd yb mb db = true ->
             ya < yb ->
             days_before_year ya + days_before_month ya ma + da
             < days_before_year yb + days_before_month yb mb + db) as Hyear.
  { intros ya ma da yb mb db Ha Hb Hlt.
    pose proof (day_of_year_bounds _ _ _ Ha).
    pose proof (day_of_year_bounds _ _ _ Hb).
    pose proof (days_before_year_succ ya).
    pose proof (days_before_year_mono (ya + 1) yb ltac:(lia)). lia. }
  destruct (Z.lt_trichotomy y1 y2) as [Hy | [Hy | Hy]].
  - pose proof (Hyear _ _ _ _ _ _ H1 H2 Hy). split; [auto | lia].
  - subst y2. destruct (Z.lt_trichotomy m1 m2) as [Hm | [Hm | Hm]].
    + pose proof (month_start_mono _ _ _ _ _ H1 H2 Hm). split; [auto | lia].
    + subst m2. split; [intros; right; split; [reflexivity | right; lia] | lia].
    + pose proof (month_start_mono _ _ _ _ _ H2 H1 Hm). split; lia.
  - pose proof (Hyear _ _ _ _ _ _ H2 H1 Hy). split; lia.
Qed.

(** X3.  The instants [make_dt] builds are ordered the way Python orders
    datetimes, field by field: one is before the other exactly when its
    (year, month, day, hour, minute) comes first. *)
Theorem make_dt_orders_by_fields :
  forall (tz : option string) (ds1 ts1 ds2 ts2 : string) (a b : datetime),
    make_dt tz ds1 ts1 = Some a ->
    make_dt tz ds2 ts2 = Some b ->
    let da := dt_date a in
    let db := dt_date b in
    (dt_lt a b = true <->
     year da < year db
     \/ (year da = year db
         /\ (month da < month db
             \/ (month da = month db
                 /\ (day da < day db
                     \/ (day da = day db
                         /\ (dt_hour a < dt_hour b
                             \/ (dt_hour a = dt_hour b
                                 /\ dt_minute a < dt_minute b)))))))).
Proof.
  intros tz ds1 ts1 ds2 ts2 a b Ha Hb.
  apply make_dt_inv in Ha as (d1 & h1 & mi1 & Hd1 & Ht1 & ->).
  apply make_dt_inv in Hb as (d2 & h2 & mi2 & Hd2 & Ht2 & ->).
  apply fromisoformat_inv in Hd1 as (y1 & m1 & dd1 & Hv1 & _ & ->).
  apply fromisoformat_inv in Hd2 as (y2 & m2 & dd2 & Hv2 & _ & ->).
  apply strptime_HM_inv in Ht1 as (Hh1 & Hm1 & _).
  apply strptime_HM_inv in Ht2 as (Hh2 & Hm2 & _).
  cbv zeta. cbn [dt_date dt_hour dt_minute year month day].
  pose proof (toordinal_order _ _ _ _ _ _ Hv1 Hv2) as Ho.
  pose proof (toordinal_order _ _ _ _ _ _ Hv2 Hv1) as Ho'.
  unfold dt_lt, wallclock.
  cbn [dt_date dt_hour dt_minute dt_second dt_microsecond].
  rewrite Z.ltb_lt.
  set (o1 := toordinal (mk_date y1 m1 dd1)) in *.
  set (o2 := toordinal (mk_date y2 m2 dd2)) in *.
  destruct (Z.lt_trichotomy o1 o2) as [Hlt | [Heq | Hgt]].
  - split; [intros _; tauto | intros _; lia].
  - assert (y1 = y2 /\ m1 = m2 /\ dd1 = dd2) as (-> & -> & ->) by lia.
    split; [intros H; right; split; [reflexivity |]; right;
            split; [reflexivity |]; right; split; [reflexivity |]; lia
           | lia].
  - split; [lia |]. intros H. exfalso.
    assert (~ (y1 < y2 \/ y1 = y2 /\ (m1 < m2 \/ m1 = m2 /\ dd1 < dd2))) by lia.
    lia.
Qed.

Lemma make_dt_orders_by_fields_witness :
  make_dt None "2024-02-29" "23:59" = Some (mk_datetime (mk_date 2024 2 29) 23 59 0 0 None)
  /\ make_dt None "2024-03-01" "0:00" = Some (mk_datetime (mk_date 2024 3 1) 0 0 0 0 None)
  /\ dt_lt (mk_datetime (mk_date 2024 2 29) 23 59 0 0 None)
           (mk_datetime (mk_date 2024 3 1) 0 0 0 0 None) = true.
Proof.
  split; [reflexivity |]. split; [reflexivity |].
  apply (proj2 (make_dt_orders_by_fields
                  None "2024-02-29" "23:59" "2024-03-01" "0:00" _ _
                  eq_refl eq_refl)).
  right. split; [reflexivity |]. left. reflexivity.
Defined.

(** [overlaps] does not depend on which interval is named first, and an
    interval overlaps itself exactly when its start is before its end. *)
Lemma overlaps_symmetric :
  forall a_start a_end b_start b_end : datetime,
    overlaps a_start a_end b_start b_end = overlaps b_start b_end a_start a_end
    /\ overlaps a_start a_end a_start a_end = dt_lt a_start a_end.
Proof.
  intros. unfold overlaps. split; [apply andb_comm | apply andb_diag].
Qed.

(** ** Parsing of the [/addslot] arguments *)

Lemma digit_not_dash (c : ascii) :
  is_digit c = true -> negb (Ascii.eqb c "-") = true.
Proof.
  intros H. destruct (Ascii.eqb_spec c "-") as [-> | _];
    [discriminate H | reflexivity].
Qed.

Lemma eat_hm_shape (s r : string) :
  eat_hm s = Some r -> exists pre, s = (pre ++ r)%string /\ no_dash pre = true.
Proof.
  unfold eat_hm. destruct s as [| a [| b s]]; try discriminate.
  destruct (Ascii.eqb b ":") eqn:Eb.
  - apply Ascii.eqb_eq in Eb as ->.
    destruct s as [| c [| d s]]; try discriminate.
    destruct (is_digit a) eqn:Da; [| discriminate].
    destruct (is_digit c) eqn:Dc; [| discriminate].
    destruct (is_digit d) eqn:Dd; [| discriminate].
    cbn [andb]. intros H. assert (s = r) as -> by congruence.
    exists (String a (String ":" (String c (String d "")))).
    split; [reflexivity |]. unfold no_dash. cbn [all_chars].
    rewrite (digit_not_dash a Da), (digit_not_dash c Dc), (digit_not_dash d Dd).
    reflexivity.
  - destruct s as [| sep [| c [| d s]]]; try discriminate.
    destruct (Ascii.eqb sep ":") eqn:Es; [| discriminate].
    apply Ascii.eqb_eq in Es as ->.
    destruct (is_digit a) eqn:Da; [| discriminate].
    destruct (is_digit b) eqn:Db; [| discriminate].
    destruct (is_digit c) eqn:Dc; [| discriminate].
    destruct (is_digit d) eqn:Dd; [| discriminate].
    cbn [andb]. intros H. assert (s = r) as -> by congruence.
    exists (String a (String b (String ":" (String c (String d ""))))).
    split; [reflexivity |]. unfold no_dash. cbn [all_chars].
    rewrite (digit_not_dash a Da), (digit_not_dash b Db), (digit_not_dash c Dc),
      (digit_not_dash d Dd).
    reflexivity.
Qed.

Lemma split_on_nonempty (sep : ascii) (s : string) : split_on sep s <> [].
Proof.
  destruct s as [| c s]; cbn; [discriminate |].
  destruct (Ascii.eqb c sep); [discriminate |].
  destruct (split_on sep s); discriminate.
Qed.

Lemma split_on_no_dash (pre s : string) :
  no_dash pre = true ->
  split_on "-" (pre ++ s)
  = match split_on "-" s with
    | w :: ws => (pre ++ w)%string :: ws
    | [] => [pre]
    end.
Proof.
  unfold no_dash. induction pre as [| c pre IH]; intros H.
  - cbn [append]. destruct (split_on "-" s) eqn:E; [| reflexivity].
    exfalso. exact (split_on_nonempty _ _ E).
  - cbn [all_chars] in H. apply andb_true_iff in H as [Hc Hpre].
    apply negb_true_iff in Hc. cbn [append split_on]. rewrite Hc.
    rewrite (IH Hpre). destruct (split_on "-" s); reflexivity.
Qed.

Lemma split_on_no_dash_whole (s : string) :
  no_dash s = true -> split_on "-" s = [s].
Proof.
  unfold no_dash. induction s as [| c s IH]; intros H; [reflexivity |].
  cbn [all_chars] in H. apply andb_true_iff in H as [Hc Hs].
  apply negb_true_iff in Hc. cbn [split_on]. rewrite Hc, (IH Hs). reflexivity.
Qed.

Lemma no_dash_app (a b : string) :
  no_dash a = true -> no_dash b = true -> no_dash (a ++ b) = true.
Proof.
  unfold no_dash. induction a as [| c a IH]; intros Ha Hb; [exact Hb |].
  cbn [all_chars append] in *. apply andb_true_iff in Ha as [Hc Ha].
  rewrite Hc, (IH Ha Hb). reflexivity.
Qed.

(** The unpacking of [args[0].split("-")] into start and end cannot fail
    once the range pattern has matched. *)
Lemma re_range_splits (s : string) :
  re_range s = true -> exists t1 t2, split_on "-" s = [t1; t2].
Proof.
  unfold re_range. destruct (eat_hm s) as [[| sep r] |] eqn:E1; try discriminate.
  destruct (Ascii.eqb sep "-") eqn:Es; [| discriminate].
  apply Ascii.eqb_eq in Es as ->. cbn [andb].
  destruct (eat_hm r) as [r' |] eqn:E2; [| discriminate]. intros Hend.
  apply eat_hm_shape in E1 as (pre1 & -> & N1).
  apply eat_hm_shape in E2 as (pre2 & -> & N2).
  assert (no_dash r' = true) as N3.
  { unfold at_end in Hend. apply orb_true_iff in Hend as [H | H];
      apply String.eqb_eq in H; subst r'; reflexivity. }
  rewrite (split_on_no_dash pre1 _ N1).
  change (split_on "-" (String "-" (pre2 ++ r')))
    with (EmptyString :: split_on "-" (pre2 ++ r')).
  rewrite (split_on_no_dash_whole _ (no_dash_app _ _ N2 N3)).
  eexists _, _. reflexivity.
Qed.

Lemma parse_args_unpacks (today : string) (a : list string) :
  parse_args today a <> BadUnpack.
Proof.
  unfold parse_args.
  destruct (Nat.leb 3 (List.length a) && re_date (nth 0 a "")); [discriminate |].
  destruct (re_range (nth 0 a "")) eqn:E.
  - apply re_range_splits in E as (t1 & t2 & ->). discriminate.
  - destruct (Nat.leb 2 (List.length a) && re_hm (nth 0 a "")
              && re_hm (nth 1 a "")); discriminate.
Qed.

(** X4.  Whatever it is called with, [addslot] either leaves the
    spreadsheet alone, posts nothing and returns, or appends exactly one row
    (to the confirmed sheet, announced as added, or to the pending sheet,
    announced with the overlaps found) under the fresh id and then posts to
    the group once.  It never touches the meta sheet or an existing row, and
    the only way it raises is a failed post, after the row is written. *)
Theorem addslot_writes_one_row_or_nothing :
  forall (tz : option string) (net : list event -> string -> msg -> bool)
         (e : env) (u : update) (s : store),
    let r := run (addslot tz net e u) s in
    let after := sheets (snd r) in
    META_SHEET after = META_SHEET s
    /\ ((after = s /\ filter is_send (trace (snd r)) = [] /\ fst r = Done tt)
        \/ (exists row chat delivered,
               SLOTS_SHEET after = (SLOTS_SHEET s ++ [row])%list
               /\ PENDING_SHEET after = PENDING_SHEET s
               /\ s_id row = new_slot_id e
               /\ s_reminder_sent row = ""
               /\ filter is_send (trace (snd r))
                  = [Send chat (MsgSlotAdded (effective_user u) row) delivered]
               /\ fst r = (if delivered then Done tt else Raised SendFailed))
        \/ (exists prow found chat delivered,
               PENDING_SHEET after = (PENDING_SHEET s ++ [prow])%list
               /\ SLOTS_SHEET after = SLOTS_SHEET s
               /\ p_id prow = new_slot_id e
               /\ found <> []
               /\ filter is_send (trace (snd r))
                  = [Send chat (MsgOverlapPrompt (effective_user u) found
                                                 (new_slot_id e)) delivered]
               /\ fst r = (if delivered then Done tt else Raised SendFailed))).
Proof.
  intros tz net e u s. destruct s as [sl pe me]. cbv zeta.
  pose proof (parse_args_unpacks (today_iso e) (args u)) as Hp.
  unfold addslot, send_message. run_monad.
  cbn [SLOTS_SHEET PENDING_SHEET META_SHEET app].
  destruct (parse_args (today_iso e) (args u)); [| | congruence].
  all: repeat (split_innermost;
               cbn [SLOTS_SHEET PENDING_SHEET META_SHEET app sheets trace
                    fst snd filter is_send]).
  all: split; [reflexivity |].
  all: first
         [ left; repeat split; reflexivity
         | right; left; do 3 eexists; repeat split; reflexivity
         | right; right; do 4 eexists;
           (split; [reflexivity |]); (split; [reflexivity |]);
           (split; [reflexivity |]);
           (split; [| split; reflexivity]); discriminate ].
Qed.

(** X5.  With a group registered, the four commands issued from any other
    chat are answered with a redirection and leave the spreadsheet as it
    was; nothing is posted to the group. *)
Theorem commands_outside_group_refused :
  forall (tz : option string) (net : list event -> string -> msg -> bool)
         (e : env) (u : update) (s : store) (team : string),
    registered s team ->
    str_of_int (effective_chat_id u) <> team ->
    run (addslot tz net e u) s
      = (Done tt, mk_world s [Sheet MetaGetAllRecords;
                              Reply MsgNotTeamGroupAddslot])
    /\ run (me_cmd e u) s
      = (Done tt, mk_world s [Sheet MetaGetAllRecords;
                              Reply (MsgRunInside "/me")])
    /\ run (team_cmd tz e u) s
      = (Done tt, mk_world s [Sheet MetaGetAllRecords;
                              Reply (MsgRunInside "/team")])
    /\ run (cancel_cmd net u) s
      = (Done tt, mk_world s [Sheet MetaGetAllRecords;
                              Reply (MsgRunInside "/cancel")]).
Proof.
  intros tz net e u s team Hreg Hchat.
  apply registered_truthy in Hreg as [Hteam Htruthy].
  apply String.eqb_neq in Hchat.
  repeat split.
  - unfold addslot. run_monad. cbn [app]. rewrite Hteam, Htruthy.
    cbn [negb text_or_empty]. rewrite Hchat. reflexivity.
  - unfold me_cmd. run_monad. cbn [app]. rewrite Hteam, Htruthy.
    cbn [negb text_or_empty]. rewrite Hchat. reflexivity.
  - unfold team_cmd. run_monad. cbn [app]. rewrite Hteam, Htruthy.
    cbn [negb text_or_empty]. rewrite Hchat. reflexivity.
  - unfold cancel_cmd. run_monad. cbn [app]. rewrite Hteam, Htruthy.
    cbn [negb text_or_empty]. rewrite Hchat. reflexivity.
Qed.

Lemma commands_outside_group_refused_witness :
  registered one_slot "-100"
  /\ str_of_int (effective_chat_id (mk_update 42 "private" bob ["9:00-9:30"]))
     <> "-100"
  /\ sheets (snd (run (addslot None delivering sync_env
                               (mk_update 42 "private" bob ["9:00-9:30"]))
                      one_slot)) = one_slot.
Proof.
  assert (registered one_slot "-100") as Hreg
      by (split; [reflexivity | intros H; discriminate H]).
  assert (str_of_int 42 <> "-100") as Hne by (intros H; discriminate H).
  split; [exact Hreg |]. split; [exact Hne |].
  rewrite (proj1 (commands_outside_group_refused
                    None delivering sync_env
                    (mk_update 42 "private" bob ["9:00-9:30"]) one_slot "-100"
                    Hreg Hne)).
  reflexivity.
Defined.

(** ** What a button press can do *)

Lemma delete_rows_length (A : Type) (n : nat) (l : list A) :
  (List.length (delete_rows n l) <= List.length l)%nat.
Proof.
  destruct n as [| [| i]]; cbn [delete_rows]; try lia.
  revert i. induction l as [| x l IH]; intros i; destruct i; cbn; try lia.
  specialize (IH i). lia.
Qed.

(** X6.  Whatever the callback data and whoever presses, [handle_callback]
    never writes the meta sheet, never alters or removes a confirmed row
    (it appends at most one, and only for [confirm:] data), never adds a
    pending row, and posts to the group at most once. *)
Theorem handle_callback_footprint :
  forall (tz : option string) (net : list event -> string -> msg -> bool)
         (q : callback_query) (s : store),
    let r := run (handle_callback tz net q) s in
    let after := sheets (snd r) in
    META_SHEET after = META_SHEET s
    /\ (exists extra,
           SLOTS_SHEET after = (SLOTS_SHEET s ++ extra)%list
           /\ (List.length extra <= 1)%nat
           /\ (startswith "confirm:" (text_or_empty (q_data q)) = false ->
               extra = []))
    /\ (List.length (PENDING_SHEET after) <= List.length (PENDING_SHEET s))%nat
    /\ (List.length (filter is_send (trace (snd r))) <= 1)%nat.
Proof.
  intros tz net q s. destruct s as [sl pe me]. cbv zeta.
  unfold handle_callback, send_message. run_monad.
  cbn [SLOTS_SHEET PENDING_SHEET META_SHEET app].
  pose proof (fun n => delete_rows_length pending_row n pe) as Hdel.
  destruct (startswith "confirm:" (text_or_empty (q_data q))) eqn:Hc.
  all: repeat (split_innermost;
               cbn [SLOTS_SHEET PENDING_SHEET META_SHEET app sheets trace
                    fst snd filter is_send List.length]).
  all: split; [reflexivity |].
  all: split;
    [ first [ exists []; rewrite app_nil_r;
              split; [reflexivity | split; [cbn; lia | reflexivity]]
            | eexists; split; [reflexivity |];
              split; [cbn; lia | intros H; discriminate H] ]
    | split; [first [apply Hdel | lia] | cbn; lia] ].
Qed.





(** ** [/cancel] *)

Lemma nth_map_split (A : Type) (cells : A -> list string) (l1 l2 : list A)
      (r : A) (header : list string) :
  nth (List.length l1 + 2 - 1) (header :: map cells (l1 ++ r :: l2)) []
  = cells r.
Proof.
  replace (List.length l1 + 2 - 1)%nat with (S (List.length l1)) by lia.
  cbn [nth]. rewrite map_app. rewrite app_nth2; rewrite length_map; [| lia].
  rewrite Nat.sub_diag. reflexivity.
Qed.

Lemma find_first_row (A : Type) (cells : A -> list string)
      (header : list string) (l1 l2 : list A) (r : A) (q : string) :
  mem q header = false ->
  (forall r', In r' l1 -> mem q (cells r') = false) ->
  mem q (cells r) = true ->
  find header (map cells (l1 ++ r :: l2)) q = Some (List.length l1 + 2)%nat.
Proof.
  intros Hh Hb Hm. unfold find. cbn [find_from]. unfold mem in Hh.
  rewrite Hh. rewrite (find_from_split _ cells 2 l1 l2 r q Hb Hm).
  f_equal. lia.
Qed.

Lemma find_nowhere (A : Type) (cells : A -> list string)
      (header : list string) (rows : list A) (q : string) :
  mem q header = false ->
  (forall r', In r' rows -> mem q (cells r') = false) ->
  find header (map cells rows) q = None.
Proof.
  intros Hh Hb. unfold find. cbn [find_from]. unfold mem in Hh. rewrite Hh.
  generalize 2%nat. induction rows as [| x rows IH]; intros n; [reflexivity |].
  cbn [map find_from]. pose proof (Hb x (or_introl eq_refl)) as Hx.
  unfold mem in Hx. rewrite Hx. apply IH. intros r' Hr'. apply Hb. right; exact Hr'.
Qed.

(** X9.  [/cancel q] acts on the first confirmed row that holds the text
    [q] in any of its cells, not only as its id: when that row belongs to the
    caller it is removed (and only it) and the removal is posted; when it
    belongs to somebody else the caller is told so and nothing changes.  The
    pending sheet is not looked at in either case. *)
Theorem cancel_cmd_first_row_holding :
  forall (net : list event -> string -> msg -> bool) (u : update) (s : store)
         (team q : string) (rest : list string)
         (l1 l2 : list slot_row) (r : slot_row),
    registered s team ->
    str_of_int (effective_chat_id u) = team ->
    args u = q :: rest ->
    SLOTS_SHEET s = (l1 ++ r :: l2)%list ->
    mem q slots_header = false ->
    (forall r', In r' l1 -> mem q (slot_cells r') = false) ->
    mem q (slot_cells r) = true ->
    let result := run (cancel_cmd net u) s in
    (s_user_id r = str_of_int (u_id (effective_user u)) ->
       sheets (snd result)
         = mk_store (l1 ++ l2) (PENDING_SHEET s) (META_SHEET s)
       /\ exists delivered,
            filter is_send (trace (snd result))
            = [Send team (MsgSlotRemoved q (effective_user u)) delivered])
    /\ (s_user_id r <> str_of_int (u_id (effective_user u)) ->
        result = (Done tt,
                  mk_world s [Sheet MetaGetAllRecords; Sheet (SlotsFind q);
                              Sheet (SlotsCell (List.length l1 + 2));
                              Reply MsgOnlyCancelOwn]))
    /\ existsb reads_pending (trace (snd result)) = false.
Proof.
  intros net u s team q rest l1 l2 r Hreg Hchat Hargs Hsplit Hh Hb Hm result.
  apply registered_truthy in Hreg as [Hteam Htruthy].
  pose proof (find_first_row _ slot_cells slots_header l1 l2 r q Hh Hb Hm)
    as Hfind.
  assert (cell_7 slots_header (map slot_cells (l1 ++ r :: l2))
                 (List.length l1 + 2) = s_user_id r) as Hcell.
  { unfold cell_7. rewrite nth_map_split. reflexivity. }
  destruct s as [sl pe me].
  cbn [SLOTS_SHEET PENDING_SHEET META_SHEET] in *. subst sl.
  unfold result, cancel_cmd, send_message, slots_cell_7, slots_delete_rows.
  run_monad. cbn [app SLOTS_SHEET PENDING_SHEET META_SHEET].
  rewrite Hteam, Htruthy.
  cbn [negb text_or_empty]. rewrite Hchat, String.eqb_refl. cbn [negb].
  rewrite Hargs. cbv beta iota. cbn [SLOTS_SHEET PENDING_SHEET META_SHEET].
  rewrite Hfind. cbv beta iota.
  cbn [SLOTS_SHEET PENDING_SHEET META_SHEET]. rewrite Hcell.
  destruct (String.eqb_spec (s_user_id r)
                            (str_of_int (u_id (effective_user u)))) as [Eo | No];
    cbn [negb]; cbv beta iota;
    cbn [sheets trace SLOTS_SHEET PENDING_SHEET META_SHEET app];
    rewrite ?delete_rows_split.
  - match goal with |- context [net ?t ?c ?m] => destruct (net t c m) end;
      (split; [intros _; split; [reflexivity | eexists; reflexivity] |]);
      (split; [intros H; contradiction | reflexivity]).
  - split; [intros H; contradiction |].
    split; [intros _; reflexivity | reflexivity].
Qed.

(** A date given to [/cancel] removes the caller's first slot of that date. *)
Lemma cancel_cmd_first_row_holding_witness :
  registered one_slot "-100"
  /\ mem "2024-03-01" slots_header = false
  /\ mem "2024-03-01" (slot_cells standup) = true
  /\ s_user_id standup = str_of_int (u_id bob)
  /\ sheets (snd (run (cancel_cmd delivering
                         (mk_update (-100) "supergroup" bob ["2024-03-01"]))
                      one_slot))
     = mk_store [] [] team_meta.
Proof.
  assert (registered one_slot "-100") as Hreg
      by (split; [reflexivity | intros H; discriminate H]).
  split; [exact Hreg |]. split; [reflexivity |]. split; [reflexivity |].
  split; [reflexivity |].
  apply (proj1 (cancel_cmd_first_row_holding
                  delivering (mk_update (-100) "supergroup" bob ["2024-03-01"])
                  one_slot "-100" "2024-03-01" [] [] [] standup
                  Hreg eq_refl eq_refl eq_refl eq_refl
                  (fun r' (H : In r' []) => match H with end) eq_refl)
               eq_refl).
Defined.

Lemma not_printed_int (x : Z) : str_of_int x <> "user_id".
Proof.
  unfold str_of_int. intros H.
  destruct (to_int_not_nil x) as [H1 H2].
  pose proof (NilZero.isi (Z.to_int x) H1 H2) as E.
  rewrite H in E. discriminate E.
Qed.

(** X10.  [/cancel q] with a text that no cell of the confirmed or pending
    sheet holds is answered "not found"; with a text that is a column name of
    the confirmed sheet it is answered "you can only cancel slots you
    created", because the row found is the header row.  Nothing changes in
    either case. *)
Theorem cancel_cmd_no_such_slot :
  forall (net : list event -> string -> msg -> bool) (u : update) (s : store)
         (team q : string) (rest : list string),
    registered s team ->
    str_of_int (effective_chat_id u) = team ->
    args u = q :: rest ->
    (mem q slots_header = false ->
     mem q pending_header = false ->
     (forall r, In r (SLOTS_SHEET s) -> mem q (slot_cells r) = false) ->
     (forall p, In p (PENDING_SHEET s) -> mem q (pending_cells p) = false) ->
     run (cancel_cmd net u) s
       = (Done tt, mk_world s [Sheet MetaGetAllRecords; Sheet (SlotsFind q);
                               Sheet (PendingFind q);
                               Reply MsgSlotIdNotFound]))
    /\ (mem q slots_header = true ->
        run (cancel_cmd net u) s
          = (Done tt, mk_world s [Sheet MetaGetAllRecords; Sheet (SlotsFind q);
                                  Sheet (SlotsCell 1);
                                  Reply MsgOnlyCancelOwn])).
Proof.
  intros net u s team q rest Hreg Hchat Hargs.
  apply registered_truthy in Hreg as [Hteam Htruthy].
  split.
  - intros Hh Hp Hs Hpe.
    pose proof (find_nowhere _ slot_cells slots_header _ q Hh Hs) as F1.
    pose proof (find_nowhere _ pending_cells pending_header _ q Hp Hpe) as F2.
    unfold cancel_cmd. run_monad. cbn [app]. rewrite Hteam, Htruthy.
    cbn [negb text_or_empty]. rewrite Hchat, String.eqb_refl. cbn [negb].
    rewrite Hargs. cbv beta iota. rewrite F1. cbv beta iota.
    rewrite F2. reflexivity.
  - intros Hh.
    assert (find slots_header (map slot_cells (SLOTS_SHEET s)) q = Some 1%nat)
      as F by (unfold find; cbn [find_from]; unfold mem in Hh; rewrite Hh;
               reflexivity).
    unfold cancel_cmd, slots_cell_7. run_monad. cbn [app].
    rewrite Hteam, Htruthy.
    cbn [negb text_or_empty]. rewrite Hchat, String.eqb_refl. cbn [negb].
    rewrite Hargs. cbv beta iota. rewrite F. cbv beta iota.
    change (cell_7 slots_header (map slot_cells (SLOTS_SHEET s)) 1)
      with "user_id".
    pose proof (not_printed_int (u_id (effective_user u))) as Hne.
    apply not_eq_sym, String.eqb_neq in Hne. rewrite Hne. reflexivity.
Qed.

Lemma cancel_cmd_no_such_slot_witness :
  registered one_slot "-100"
  /\ mem "details" slots_header = true
  /\ run (cancel_cmd delivering
            (mk_update (-100) "supergroup" bob ["details"])) one_slot
     = (Done tt, mk_world one_slot
                          [Sheet MetaGetAllRecords; Sheet (SlotsFind "details");
                           Sheet (SlotsCell 1); Reply MsgOnlyCancelOwn]).
Proof.
  assert (registered one_slot "-100") as Hreg
      by (split; [reflexivity | intros H; discriminate H]).
  split; [exact Hreg |]. split; [reflexivity |].
  apply (proj2 (cancel_cmd_no_such_slot
                  delivering (mk_update (-100) "supergroup" bob ["details"])
                  one_slot "-100" "details" [] Hreg eq_refl eq_refl)
               eq_refl).
Defined.

(** ** [/me] and [/team] *)

Lemma re_date_not_backslash (a0 : string) :
  re_date a0 = true -> re_backslash_date a0 = false.
Proof.
  intros H. unfold re_backslash_date.
  destruct (String.eqb_spec a0 "\dddd-\dd-\dd") as [-> | _];
    [vm_compute in H; discriminate H |].
  destruct (String.eqb_spec a0 ("\dddd-\dd-\dd" ++ newline)) as [-> | _];
    [vm_compute in H; discriminate H |].
  reflexivity.
Qed.

(** X11.  A date argument written YYYY-MM-DD is ignored by [/me] and
    [/team]: the pattern they test it with is written with doubled
    backslashes, so the command runs as if no argument had been given and
    reports on today's date. *)
Theorem me_team_ignore_date_argument :
  forall (tz : option string) (e : env) (chat : Z) (type : string)
         (who : user) (a0 : string) (rest : list string) (s : store),
    re_date a0 = true ->
    run (me_cmd e (mk_update chat type who (a0 :: rest))) s
      = run (me_cmd e (mk_update chat type who [])) s
    /\ run (team_cmd tz e (mk_update chat type who (a0 :: rest))) s
       = run (team_cmd tz e (mk_update chat type who [])) s.
Proof.
  intros tz e chat type who a0 rest s H.
  apply re_date_not_backslash in H.
  unfold me_cmd, team_cmd, target_date.
  cbn [args effective_chat_id effective_user]. rewrite H.
  split; reflexivity.
Qed.

Lemma me_team_ignore_date_argument_witness :
  re_date "2024-03-02" = true
  /\ run (me_cmd sync_env (mk_update (-100) "supergroup" bob ["2024-03-02"]))
         one_slot
     = run (me_cmd sync_env (mk_update (-100) "supergroup" bob [])) one_slot.
Proof.
  split; [reflexivity |].
  apply (proj1 (me_team_ignore_date_argument
                  None sync_env (-100) "supergroup" bob "2024-03-02" []
                  one_slot eq_refl)).
Defined.

(** X12.  [/me] only reads: whatever the sheets hold and whoever calls, it
    ends normally with the store as it found it, after one read of the meta
    sheet, at most one read of the confirmed sheet and exactly one reply. *)
Theorem me_cmd_read_only :
  forall (e : env) (u : update) (s : store),
  exists (reads : list event) (m : msg),
    run (me_cmd e u) s = (Done tt, mk_world s (reads ++ [Reply m]))
    /\ (reads = [Sheet MetaGetAllRecords]
        \/ reads = [Sheet MetaGetAllRecords; Sheet SlotsGetAllRecords]).
Proof.
  intros e u s. unfold me_cmd. run_monad. cbn [app].
  destruct (truthy (first_value "team_chat_id" (META_SHEET s))); cbn [negb].
  - destruct (String.eqb (str_of_int (effective_chat_id u))
                (text_or_empty (first_value "team_chat_id" (META_SHEET s))));
      cbn [negb].
    + match goal with
      | |- context [match ?l with [] => _ | _ :: _ => _ end] => destruct l
      end;
        (eexists [Sheet MetaGetAllRecords; Sheet SlotsGetAllRecords];
         eexists; split; [reflexivity | right; reflexivity]).
    + eexists [Sheet MetaGetAllRecords]; eexists;
        split; [reflexivity | left; reflexivity].
  - eexists [Sheet MetaGetAllRecords]; eexists;
      split; [reflexivity | left; reflexivity].
Qed.

Lemma overlaps_with_total (tz : option string) (a : slot_row)
      (sa ea : datetime) (later : list slot_row) :
  (forall b, In b later ->
             make_dt tz (s_date b) (s_start_time b) <> None
             /\ make_dt tz (s_date b) (s_end_time b) <> None) ->
  overlaps_with tz a sa ea later <> None.
Proof.
  induction later as [| b later IH]; intros H; cbn [overlaps_with];
    [discriminate |].
  destruct (H b (or_introl eq_refl)) as [H1 H2].
  destruct (make_dt tz (s_date b) (s_start_time b)); [| congruence].
  destruct (make_dt tz (s_date b) (s_end_time b)); [| congruence].
  destruct (overlaps_with tz a sa ea later) eqn:E; [discriminate |].
  exfalso. apply IH; [| reflexivity]. intros b' Hb'. apply H. right; exact Hb'.
Qed.

Lemma overlaps_with_none (tz : option string) (a : slot_row)
      (sa ea : datetime) (later : list slot_row) :
  overlaps_with tz a sa ea later = None ->
  exists b, In b later
            /\ (make_dt tz (s_date b) (s_start_time b) = None
                \/ make_dt tz (s_date b) (s_end_time b) = None).
Proof.
  induction later as [| b later IH]; cbn [overlaps_with]; [discriminate |].
  destruct (make_dt tz (s_date b) (s_start_time b)) eqn:E1;
    [| intros _; exists b; split; [left; reflexivity | left; exact E1]].
  destruct (make_dt tz (s_date b) (s_end_time b)) eqn:E2;
    [| intros _; exists b; split; [left; reflexivity | right; exact E2]].
  destruct (overlaps_with tz a sa ea later) eqn:E; [discriminate |].
  intros _. destruct (IH eq_refl) as (b' & Hin & Hbad).
  exists b'. split; [right; exact Hin | exact Hbad].
Qed.

Lemma overlap_pairs_none (tz : option string) (l : list slot_row) :
  overlap_pairs tz l = None <->
  exists r, In r l
            /\ (make_dt tz (s_date r) (s_start_time r) = None
                \/ make_dt tz (s_date r) (s_end_time r) = None).
Proof.
  induction l as [| a l IH]; cbn [overlap_pairs].
  - split; [discriminate | intros (r & [] & _)].
  - destruct (make_dt tz (s_date a) (s_start_time a)) as [sa |] eqn:E1.
    2:{ split; [| reflexivity].
        intros _. exists a. split; [left; reflexivity | left; exact E1]. }
    destruct (make_dt tz (s_date a) (s_end_time a)) as [ea |] eqn:E2.
    2:{ split; [| reflexivity].
        intros _. exists a. split; [left; reflexivity | right; exact E2]. }
    destruct (overlaps_with tz a sa ea l) as [ps |] eqn:E3.
    + destruct (overlap_pairs tz l) as [qs |] eqn:E4.
      * split; [discriminate |].
        intros (r & [<- | Hin] & Hbad).
        -- destruct Hbad; congruence.
        -- assert (@None (list (slot_row * slot_row)) = None) as H0
               by reflexivity.
           destruct IH as [_ IH].
           assert (Some qs = None) as Habs by (apply IH; exists r; auto).
           discriminate Habs.
      * split; [| reflexivity].
        intros _. destruct IH as [IH _].
        destruct (IH eq_refl) as (r & Hin & Hbad).
        exists r. split; [right; exact Hin | exact Hbad].
    + split; [| reflexivity].
      intros _. destruct (overlaps_with_none tz a sa ea l E3)
        as (b & Hin & Hbad).
      exists b. split; [right; exact Hin | exact Hbad].
Qed.

(** X13.  [/team] in the registered group never writes, and one confirmed
    record of the reported date whose start or end does not parse makes it
    raise before any reply: the pairwise check calls [make_dt] outside a
    [try].  Without such a record it replies once. *)
Theorem team_cmd_raises_iff_unparsable :
  forall (tz : option string) (e : env) (u : update) (s : store)
         (team : string),
    registered s team ->
    str_of_int (effective_chat_id u) = team ->
    let target := target_date (today_iso e) (args u) in
    let bad r :=
      s_date r = target
      /\ (make_dt tz (s_date r) (s_start_time r) = None
          \/ make_dt tz (s_date r) (s_end_time r) = None) in
    ((exists r, In r (SLOTS_SHEET s) /\ bad r) ->
     run (team_cmd tz e u) s
       = (Raised ValueError,
          mk_world s [Sheet MetaGetAllRecords; Sheet SlotsGetAllRecords]))
    /\ ((forall r, In r (SLOTS_SHEET s) -> ~ bad r) ->
        exists m,
          run (team_cmd tz e u) s
            = (Done tt,
               mk_world s [Sheet MetaGetAllRecords; Sheet SlotsGetAllRecords;
                           Reply m])).
Proof.
  intros tz e u s team Hreg Hchat target bad.
  apply registered_truthy in Hreg as [Hteam Htruthy].
  unfold team_cmd. fold target. run_monad. cbn [app].
  rewrite Hteam, Htruthy.
  cbn [negb text_or_empty]. rewrite Hchat, String.eqb_refl. cbn [negb].
  set (day := filter (fun r => String.eqb (s_date r) target) (SLOTS_SHEET s)).
  assert (forall r, In r day <-> In r (SLOTS_SHEET s) /\ s_date r = target)
    as Hday.
  { intros r. unfold day. rewrite filter_In.
    destruct (String.eqb_spec (s_date r) target); intuition congruence. }
  split.
  - intros (r & Hin & Hd & Hbad).
    assert (In r day) as Hr by (apply Hday; auto).
    assert (overlap_pairs tz day = None) as Hnone
        by (apply overlap_pairs_none; exists r; auto).
    destruct day as [| x day']; [destruct Hr |].
    rewrite Hnone. reflexivity.
  - intros Hgood.
    destruct day as [| x day'] eqn:Eday; [eexists; reflexivity |].
    destruct (overlap_pairs tz (x :: day')) as [ps |] eqn:Ep;
      [eexists; reflexivity |].
    exfalso. apply overlap_pairs_none in Ep as (r & Hin & Hbad).
    apply Hday in Hin as [Hin Hd]. exact (Hgood r Hin (conj Hd Hbad)).
Qed.

(** One confirmed record whose start is not a time stops [/team]. *)
Lemma team_cmd_raises_iff_unparsable_witness :
  registered
    (mk_store [standup;
               mk_slot "bbbbbbbbbb" "2024-03-01" "noon" "13:00" "al" "Al" "8"
                       "lunch" "2024-02-28T11:00:00" ""] [] team_meta) "-100"
  /\ run (team_cmd None sync_env (mk_update (-100) "supergroup" bob []))
         (mk_store [standup;
                    mk_slot "bbbbbbbbbb" "2024-03-01" "noon" "13:00" "al" "Al"
                            "8" "lunch" "2024-02-28T11:00:00" ""] [] team_meta)
     = (Raised ValueError,
        mk_world
          (mk_store [standup;
                     mk_slot "bbbbbbbbbb" "2024-03-01" "noon" "13:00" "al" "Al"
                             "8" "lunch" "2024-02-28T11:00:00" ""] [] team_meta)
          [Sheet MetaGetAllRecords; Sheet SlotsGetAllRecords]).
Proof.
  assert (registered
            (mk_store [standup;
                       mk_slot "bbbbbbbbbb" "2024-03-01" "noon" "13:00" "al"
                               "Al" "8" "lunch" "2024-02-28T11:00:00" ""]
                      [] team_meta) "-100") as Hreg
      by (split; [reflexivity | intros H; discriminate H]).
  split; [exact Hreg |].
  apply (proj1 (team_cmd_raises_iff_unparsable
                  None sync_env (mk_update (-100) "supergroup" bob []) _ "-100"
                  Hreg eq_refl)).
  exists (mk_slot "bbbbbbbbbb" "2024-03-01" "noon" "13:00" "al" "Al" "8"
                  "lunch" "2024-02-28T11:00:00" "").
  split; [right; left; reflexivity |].
  split; [reflexivity | left; reflexivity].
Defined.

Lemma overlaps_with_spec (tz : option string) (a : slot_row)
      (sa ea : datetime) (later : list slot_row)
      (ps : list (slot_row * slot_row)) :
  overlaps_with tz a sa ea later = Some ps ->
  forall x b,
    In (x, b) ps <->
    x = a /\ exists l2 l3 sb eb,
               later = (l2 ++ b :: l3)%list
               /\ make_dt tz (s_date b) (s_start_time b) = Some sb
               /\ make_dt tz (s_date b) (s_end_time b) = Some eb
               /\ overlaps sa ea sb eb = true.
Proof.
  revert ps. induction later as [| c later IH]; intros ps; cbn [overlaps_with].
  - intros [= <-] x b. split; [intros [] |].
    intros (_ & l2 & l3 & _ & _ & E & _). destruct l2; discriminate E.
  - destruct (make_dt tz (s_date c) (s_start_time c)) as [sc |] eqn:E1;
      [| discriminate].
    destruct (make_dt tz (s_date c) (s_end_time c)) as [ec |] eqn:E2;
      [| discriminate].
    destruct (overlaps_with tz a sa ea later) as [qs |] eqn:E3;
      [| discriminate].
    intros [= <-] x b. specialize (IH qs eq_refl x b).
    assert (In (x, b) qs ->
            x = a /\ exists l2 l3 sb eb,
                       c :: later = (l2 ++ b :: l3)%list
                       /\ make_dt tz (s_date b) (s_start_time b) = Some sb
                       /\ make_dt tz (s_date b) (s_end_time b) = Some eb
                       /\ overlaps sa ea sb eb = true) as Hold.
    { intros H. apply IH in H as (-> & l2 & l3 & sb & eb & -> & H).
      split; [reflexivity |]. exists (c :: l2), l3, sb, eb.
      split; [reflexivity | exact H]. }
    assert (forall l2 l3 sb eb,
               c :: later = (l2 ++ b :: l3)%list ->
               make_dt tz (s_date b) (s_start_time b) = Some sb ->
               make_dt tz (s_date b) (s_end_time b) = Some eb ->
               overlaps sa ea sb eb = true ->
               x = a ->
               (b = c /\ overlaps sa ea sc ec = true) \/ In (x, b) qs) as Hback.
    { intros l2 l3 sb eb E Hs He Ho Hx. destruct l2 as [| c' l2].
      - injection E as <- _. left. split; [reflexivity |]. congruence.
      - injection E as _ E. right. apply IH. split; [exact Hx |].
        exists l2, l3, sb, eb. auto. }
    destruct (overlaps sa ea sc ec) eqn:Eo.
    + split.
      * intros [[= <- <-] | H]; [| exact (Hold H)].
        split; [reflexivity |]. exists [], later, sc, ec. auto.
      * intros (Hx & l2 & l3 & sb & eb & E & Hs & He & Ho).
        destruct (Hback l2 l3 sb eb E Hs He Ho Hx) as [[-> _] | H];
          [left; rewrite Hx; reflexivity | right; exact H].
    + split; [exact Hold |].
      intros (Hx & l2 & l3 & sb & eb & E & Hs & He & Ho).
      destruct (Hback l2 l3 sb eb E Hs He Ho Hx) as [[_ H] | H];
        [discriminate H | exact H].
Qed.

(** X14.  When the pairwise check of [/team] goes through, the pairs it
    reports are exactly the pairs made of a record of the day's list and a
    record further down that list whose intervals overlap; the earlier one is
    named first. *)
Theorem overlap_pairs_earlier_later :
  forall (tz : option string) (day_slots : list slot_row)
         (ps : list (slot_row * slot_row)),
    overlap_pairs tz day_slots = Some ps ->
    forall a b,
      In (a, b) ps <->
      exists l1 l2 l3 sa ea sb eb,
        day_slots = (l1 ++ a :: l2 ++ b :: l3)%list
        /\ make_dt tz (s_date a) (s_start_time a) = Some sa
        /\ make_dt tz (s_date a) (s_end_time a) = Some ea
        /\ make_dt tz (s_date b) (s_start_time b) = Some sb
        /\ make_dt tz (s_date b) (s_end_time b) = Some eb
        /\ overlaps sa ea sb eb = true.
Proof.
  intros tz day_slots.
  induction day_slots as [| c l IH]; intros ps; cbn [overlap_pairs].
  - intros [= <-] a b. split; [intros [] |].
    intros (l1 & l2 & l3 & _ & _ & _ & _ & E & _). destruct l1; discriminate E.
  - destruct (make_dt tz (s_date c) (s_start_time c)) as [sc |] eqn:E1;
      [| discriminate].
    destruct (make_dt tz (s_date c) (s_end_time c)) as [ec |] eqn:E2;
      [| discriminate].
    destruct (overlaps_with tz c sc ec l) as [qs |] eqn:E3; [| discriminate].
    destruct (overlap_pairs tz l) as [rs |] eqn:E4; [| discriminate].
    intros [= <-] a b. specialize (IH rs eq_refl a b).
    pose proof (overlaps_with_spec tz c sc ec l qs E3 a b) as Hq.
    rewrite in_app_iff. split.
    + intros [H | H].
      * apply Hq in H as (-> & l2 & l3 & sb & eb & -> & Hs & He & Ho).
        exists [], l2, l3, sc, ec, sb, eb. auto 10.
      * apply IH in H as (l1 & l2 & l3 & sa & ea & sb & eb & -> & H).
        exists (c :: l1), l2, l3, sa, ea, sb, eb. split; [reflexivity | exact H].
    + intros (l1 & l2 & l3 & sa & ea & sb & eb & E & Hsa & Hea & Hsb & Heb & Ho).
      destruct l1 as [| c' l1].
      * injection E as <- E. left. apply Hq. split; [reflexivity |].
        exists l2, l3, sb, eb. split; [exact E |].
        split; [exact Hsb |]. split; [exact Heb |]. congruence.
      * injection E as _ E. right. apply IH.
        exists l1, l2, l3, sa, ea, sb, eb. auto 10.
Qed.

(** A stand-up 09:00-10:00 followed by a sync 09:30-10:30 is one pair. *)
Lemma overlap_pairs_earlier_later_witness :
  overlap_pairs None [standup; promoted sync]
    = Some [(standup, promoted sync)]
  /\ exists l1 l2 l3 sa ea sb eb,
       [standup; promoted sync]
         = (l1 ++ standup :: l2 ++ promoted sync :: l3)%list
       /\ make_dt None (s_date standup) (s_start_time standup) = Some sa
       /\ make_dt None (s_date standup) (s_end_time standup) = Some ea
       /\ make_dt None (s_date (promoted sync)) (s_start_time (promoted sync))
          = Some sb
       /\ make_dt None (s_date (promoted sync)) (s_end_time (promoted sync))
          = Some eb
       /\ overlaps sa ea sb eb = true.
Proof.
  split; [reflexivity |].
  apply (proj1 (overlap_pairs_earlier_later
                  None [standup; promoted sync] [(standup, promoted sync)]
                  eq_refl standup (promoted sync))).
  left; reflexivity.
Defined.

(** ** A proposal and its creator's decision *)

Lemma addslot_proposes_sheets (tz : option string)
      (net : list event -> string -> msg -> bool) (e : env) (u : update)
      (s : store) (team date_str start_str end_str details : string)
      (start_dt end_dt : datetime) :
  registered s team ->
  str_of_int (effective_chat_id u) = team ->
  parse_args (today_iso e) (args u)
    = Parsed date_str start_str end_str details ->
  make_dt tz date_str start_str = Some start_dt ->
  make_dt tz date_str end_str = Some end_dt ->
  dt_lt start_dt end_dt = true ->
  overlaps_found tz date_str start_dt end_dt (SLOTS_SHEET s) <> [] ->
  sheets (snd (run (addslot tz net e u) s))
    = mk_store (SLOTS_SHEET s)
               (PENDING_SHEET s
                  ++ [pending_row_of e (effective_user u) date_str start_str
                                     end_str details])
               (META_SHEET s).
Proof.
  intros Hreg Hchat Hparse Hs He Hlt Hfound.
  rewrite (addslot_valid_run tz net e u s team date_str start_str end_str
             details start_dt end_dt Hreg Hchat Hparse Hs He).
  rewrite Hlt. cbn [negb].
  destruct (overlaps_found tz date_str start_dt end_dt (SLOTS_SHEET s))
    as [| x found]; [congruence |].
  cbv zeta. unfold send_message, emit. cbn [trace sheets].
  match goal with |- context [net ?t ?c ?m] => destruct (net t c m) end;
    reflexivity.
Qed.





(** ** The sheet helpers, end to end *)



(** X18.  Deleting or flagging by a text that no cell of the sheet holds,
    header included, reports [False] and changes nothing. *)
Theorem helpers_unknown_id_no_change :
  forall (s : store) (q : string),
    (mem q slots_header = false ->
     (forall r, In r (SLOTS_SHEET s) -> mem q (slot_cells r) = false) ->
     run (delete_slot q) s = (Done false, mk_world s [Sheet (SlotsFind q)])
     /\ run (update_reminder_sent q) s
        = (Done false, mk_world s [Sheet (SlotsFind q)]))
    /\ (mem q pending_header = false ->
        (forall p, In p (PENDING_SHEET s) -> mem q (pending_cells p) = false) ->
        run (delete_pending q) s
          = (Done false, mk_world s [Sheet (PendingFind q)])).
Proof.
  intros s q. split.
  - intros Hh Hs.
    pose proof (find_nowhere _ slot_cells slots_header _ q Hh Hs) as F.
    unfold delete_slot. run_monad. cbn [app]. rewrite F.
    split; reflexivity.
  - intros Hh Hp.
    pose proof (find_nowhere _ pending_cells pending_header _ q Hh Hp) as F.
    run_monad. cbn [app]. rewrite F. reflexivity.
Qed.

Lemma helpers_unknown_id_no_change_witness :
  mem "ffffffffff" slots_header = false
  /\ run (delete_slot "ffffffffff") one_slot
     = (Done false, mk_world one_slot [Sheet (SlotsFind "ffffffffff")]).
Proof.
  split; [reflexivity |].
  apply (proj1 (helpers_unknown_id_no_change one_slot "ffffffffff") eq_refl).
  intros r [<- | []]. reflexivity.
Defined.

(** ** Sheets that only the bot has written *)

Lemma forallb_remove_at (A : Type) (f : A -> bool) (l : list A) (i : nat) :
  forallb f l = true -> forallb f (remove_at i l) = true.
Proof.
  revert i. induction l as [| x l IH]; intros i H; destruct i; cbn in *;
    try reflexivity; apply andb_true_iff in H as [H1 H2]; [exact H2 |].
  rewrite H1. apply IH. exact H2.
Qed.

Lemma forallb_delete_rows (A : Type) (f : A -> bool) (l : list A) (n : nat) :
  forallb f l = true -> forallb f (delete_rows n l) = true.
Proof.
  intros H. destruct n as [| [| i]]; cbn [delete_rows]; try exact H.
  apply forallb_remove_at. exact H.
Qed.

Lemma forallb_update_at (A : Type) (f : A -> bool) (g : A -> A)
      (l : list A) (i : nat) :
  (forall x, f (g x) = f x) ->
  forallb f l = true -> forallb f (update_at i g l) = true.
Proof.
  intros Hg. revert i. induction l as [| x l IH]; intros i H; destruct i;
    cbn in *; try reflexivity; apply andb_true_iff in H as [H1 H2].
  - rewrite Hg, H1. exact H2.
  - rewrite H1. apply IH. exact H2.
Qed.

Lemma slot_ok_update_cell_10 (tz : option string) (n : nat) (v : string)
      (l : list slot_row) :
  forallb (slot_ok tz) l = true ->
  forallb (slot_ok tz) (update_cell_10 n v l) = true.
Proof.
  intros H. destruct n as [| [| i]]; cbn [update_cell_10]; try exact H.
  apply forallb_update_at; [intros x; reflexivity | exact H].
Qed.

Lemma well_formed_parts (tz : option string) (sl : list slot_row)
      (pe : list pending_row) (me : list (string * string)) :
  well_formed tz (mk_store sl pe me) = true <->
  forallb (slot_ok tz) sl = true /\ forallb (pending_ok tz) pe = true.
Proof. unfold well_formed. cbn. apply andb_true_iff. Qed.

Lemma forallb_snoc (A : Type) (f : A -> bool) (l : list A) (x : A) :
  forallb f l = true -> f x = true -> forallb f (l ++ [x]) = true.
Proof.
  intros H1 H2. rewrite forallb_app, H1. cbn. rewrite H2. reflexivity.
Qed.

Lemma update_reminder_sent_well_formed (tz : option string) (q : string)
      (w : world) :
  well_formed tz (sheets w) = true ->
  well_formed tz (sheets (snd (update_reminder_sent q w))) = true.
Proof.
  destruct w as [[sl pe me] tr]. cbn [sheets]. intros H.
  apply well_formed_parts in H as [H1 H2].
  run_monad. cbn [SLOTS_SHEET PENDING_SHEET META_SHEET].
  destruct (find slots_header (map slot_cells sl) q); cbn [snd sheets].
  - apply well_formed_parts. split; [| exact H2].
    apply slot_ok_update_cell_10. exact H1.
  - apply well_formed_parts. auto.
Qed.

Lemma remind_loop_well_formed (tz : option string)
      (net : list event -> string -> msg -> bool) (team : string)
      (now : datetime) (window_end : Z) (recs : list slot_row) :
  forall w,
    well_formed tz (sheets w) = true ->
    well_formed tz
      (sheets (snd (remind_loop tz net team now window_end recs w))) = true.
Proof.
  induction recs as [| rec rest IH]; intros w H; cbn [remind_loop].
  - exact H.
  - destruct (reminder_sent rec); [apply IH; exact H |].
    destruct (make_dt tz (s_date rec) (s_start_time rec)) as [start_dt |];
      [| apply IH; exact H].
    destruct (in_window now window_end start_dt).
    + unfold bind at 1. unfold bind at 1. unfold bind at 1.
      unfold try_except.
      pose proof (send_message_sheets net team (MsgReminder rec) w) as Hs.
      destruct (send_message net team (MsgReminder rec) w) as [[[] | ex] w1];
        cbn [snd] in Hs.
      * assert (well_formed tz (sheets w1) = true) as H1
            by (rewrite Hs; exact H).
        pose proof (update_reminder_sent_well_formed tz (s_id rec) w1 H1)
          as Hu.
        destruct (update_reminder_sent (s_id rec) w1) as [[b | ex] w2];
          cbn [snd] in Hu; unfold ret; [apply IH; exact Hu | exact Hu].
      * unfold emit.
        assert (well_formed tz
                  (sheets (mk_world (sheets w1)
                                    (trace w1 ++ [LogException]))) = true)
          as H1 by (cbn [sheets]; rewrite Hs; exact H).
        pose proof (update_reminder_sent_well_formed tz (s_id rec) _ H1)
          as Hu.
        destruct (update_reminder_sent (s_id rec)
                    (mk_world (sheets w1) (trace w1 ++ [LogException])))
          as [[b | ex'] w2];
          cbn [snd] in Hu; unfold ret; [apply IH; exact Hu | exact Hu].
    + unfold bind at 1. unfold ret at 1. apply IH. exact H.
Qed.

(** X19.  Being written by the bot is kept by every handler: when all rows
    of the confirmed and of the pending sheet carry a slot id, times that
    parse and a start before the end, they still do after [/addslot] (given
    that the fresh id is one), a button press, [/cancel], a reminder tick and
    [/setteam], whatever the request and whether or not posting succeeds. *)
Theorem handlers_keep_sheets_well_formed :
  forall (tz : option string) (net : list event -> string -> msg -> bool)
         (e : env) (u : update) (q : callback_query) (now : datetime)
         (s : store),
    well_formed tz s = true ->
    (is_slot_id (new_slot_id e) = true ->
     well_formed tz (sheets (snd (run (addslot tz net e u) s))) = true)
    /\ well_formed tz (sheets (snd (run (handle_callback tz net q) s))) = true
    /\ well_formed tz (sheets (snd (run (cancel_cmd net u) s))) = true
    /\ well_formed tz (sheets (snd (run (check_reminders tz net now) s)))
       = true
    /\ well_formed tz (sheets (snd (run (setteam u) s))) = true.
Proof.
  intros tz net e u q now s H.
  split; [| split; [| split; [| split]]].
  - intros Hid. destruct s as [sl pe me].
    pose proof H as H0. apply well_formed_parts in H0 as [H1 H2].
    unfold addslot, send_message. run_monad.
    cbn [SLOTS_SHEET PENDING_SHEET META_SHEET app].
    repeat (split_innermost_eq;
            cbn [SLOTS_SHEET PENDING_SHEET META_SHEET app sheets trace
                 fst snd]);
      try exact H;
      apply well_formed_parts;
      (split; [try exact H1 | try exact H2]);
      apply forallb_snoc; try assumption;
      unfold slot_ok, pending_ok, slot_row_of, pending_row_of, well_timed;
      cbn [s_id s_date s_start_time s_end_time
           p_id p_date p_start_time p_end_time];
      rewrite Hid;
      repeat match goal with
             | E : make_dt _ _ _ = Some _ |- _ => rewrite E; clear E
             end;
      match goal with
      | E : negb (dt_lt _ _) = false |- _ =>
          apply negb_false_iff in E; rewrite E
      end; reflexivity.
  - destruct s as [sl pe me].
    pose proof H as H0. apply well_formed_parts in H0 as [H1 H2].
    unfold handle_callback, send_message. run_monad.
    cbn [SLOTS_SHEET PENDING_SHEET META_SHEET app].
    repeat (split_innermost_eq;
            cbn [SLOTS_SHEET PENDING_SHEET META_SHEET app sheets trace
                 fst snd]);
      try exact H;
      apply well_formed_parts;
      (split; [| first [exact H2 | apply forallb_delete_rows; exact H2]]);
      try exact H1;
      (apply forallb_snoc; [exact H1 |]);
      match goal with
      | E : first_pending _ _ = Some ?p |- _ =>
          apply first_pending_some in E as [E _];
          exact (proj1 (forallb_forall (pending_ok tz) pe) H2 p E)
      end.
  - destruct s as [sl pe me].
    pose proof H as H0. apply well_formed_parts in H0 as [H1 H2].
    unfold cancel_cmd, send_message, slots_cell_7, slots_delete_rows,
      pending_cell_7.
    run_monad. cbn [SLOTS_SHEET PENDING_SHEET META_SHEET app].
    repeat (split_innermost_eq;
            cbn [SLOTS_SHEET PENDING_SHEET META_SHEET app sheets trace
                 fst snd]);
      try exact H;
      apply well_formed_parts;
      (split; [first [exact H1 | apply forallb_delete_rows; exact H1]
              | first [exact H2 | apply forallb_delete_rows; exact H2]]).
  - unfold check_reminders. run_monad.
    destruct (truthy (first_value "team_chat_id" (META_SHEET s)));
      cbn [negb]; [| exact H].
    apply remind_loop_well_formed. exact H.
  - unfold setteam.
    destruct (negb (String.eqb (effective_chat_type u) "group"
                    || String.eqb (effective_chat_type u) "supergroup"));
      [exact H |].
    unfold run, bind at 1.
    destruct (set_meta_value_sheets "team_chat_id"
                (str_of_int (effective_chat_id u)) (mk_world s []))
      as (meta' & Hdone & Hsheets & _).
    destruct (set_meta_value "team_chat_id"
                (str_of_int (effective_chat_id u)) (mk_world s []))
      as [[[] | ex] w1]; cbn [fst snd] in *; [| discriminate Hdone].
    unfold reply_text, emit. cbn [snd sheets]. rewrite Hsheets.
    cbn [sheets]. exact H.
Qed.

Lemma handlers_keep_sheets_well_formed_witness :
  well_formed None one_slot = true
  /\ is_slot_id (new_slot_id sync_env) = true
  /\ well_formed None
       (sheets (snd (run (addslot None delivering sync_env sync_request)
                         one_slot))) = true.
Proof.
  split; [reflexivity |]. split; [reflexivity |].
  apply (proj1 (handlers_keep_sheets_well_formed
                  None delivering sync_env sync_request
                  (mk_query None al) at_0850 one_slot eq_refl)
               eq_refl).
Defined.

Lemma prefix_app (p d : string) :
  String.prefix p d = true -> exists r, d = (p ++ r)%string.
Proof.
  revert d. induction p as [| a p IH]; intros d H.
  - exists d. reflexivity.
  - destruct d as [| b d]; [discriminate H |]. cbn in H.
    destruct (ascii_dec a b) as [<- | _]; [| discriminate H].
    destruct (IH d H) as [r ->]. exists r. reflexivity.
Qed.

Lemma slot_ok_parses (tz : option string) (r : slot_row) :
  slot_ok tz r = true ->
  make_dt tz (s_date r) (s_start_time r) <> None
  /\ make_dt tz (s_date r) (s_end_time r) <> None.
Proof.
  unfold slot_ok, well_timed. intros H.
  apply andb_true_iff in H as [_ H].
  destruct (make_dt tz (s_date r) (s_start_time r)); [| discriminate H].
  destruct (make_dt tz (s_date r) (s_end_time r)); [| discriminate H].
  split; discriminate.
Qed.

(** X20.  A button press never fails on splitting its data, and on sheets
    whose rows are all well formed neither [/team] nor a button press fails
    on a date or time: [/team] always ends normally, and a button press ends
    normally or with the failed post. *)
Theorem well_formed_sheets_parse :
  forall (tz : option string) (net : list event -> string -> msg -> bool)
         (e : env) (u : update) (q : callback_query) (s : store),
    fst (run (handle_callback tz net q) s) <> Raised IndexError
    /\ (well_formed tz s = true ->
        fst (run (team_cmd tz e u) s) = Done tt
        /\ (fst (run (handle_callback tz net q) s) = Done tt
            \/ fst (run (handle_callback tz net q) s) = Raised SendFailed)).
Proof.
  intros tz net e u q s. destruct s as [sl pe me].
  assert (forall d, startswith "confirm:" d = true ->
                    after_first ":" d <> None) as Hconfirm.
  { intros d Hd. apply prefix_app in Hd as [r ->]. discriminate. }
  assert (forall d, startswith "cancel:" d = true ->
                    after_first ":" d <> None) as Hcancel.
  { intros d Hd. apply prefix_app in Hd as [r ->]. discriminate. }
  split.
  - unfold handle_callback, send_message. run_monad.
    cbn [SLOTS_SHEET PENDING_SHEET META_SHEET app].
    repeat (split_innermost_eq;
            cbn [SLOTS_SHEET PENDING_SHEET META_SHEET app sheets trace
                 fst snd]);
      try discriminate;
      exfalso;
      match goal with
      | E : after_first _ _ = None, P : startswith "confirm:" _ = true |- _ =>
          exact (Hconfirm _ P E)
      | E : after_first _ _ = None, P : startswith "cancel:" _ = true |- _ =>
          exact (Hcancel _ P E)
      end.
  - intros H. apply well_formed_parts in H as [H1 H2]. split.
    + unfold team_cmd. run_monad. cbn [app SLOTS_SHEET META_SHEET].
      destruct (truthy (first_value "team_chat_id" me)); cbn [negb];
        [| reflexivity].
      destruct (String.eqb (str_of_int (effective_chat_id u))
                  (text_or_empty (first_value "team_chat_id" me)));
        cbn [negb]; [| reflexivity].
      cbn [SLOTS_SHEET PENDING_SHEET META_SHEET].
      set (target := target_date (today_iso e) (args u)).
      set (day := filter (fun r => String.eqb (s_date r) target) sl).
      assert (overlap_pairs tz day <> None) as Hp.
      { intros Hn. apply overlap_pairs_none in Hn as (r & Hin & Hbad).
        apply filter_In in Hin as [Hin _].
        pose proof (proj1 (forallb_forall (slot_ok tz) sl) H1 r Hin) as Hr.
        apply slot_ok_parses in Hr as [Hr1 Hr2]. destruct Hbad; contradiction. }
      destruct day as [| x day']; [reflexivity |].
      destruct (overlap_pairs tz (x :: day')); [reflexivity | congruence].
    + unfold handle_callback, send_message. run_monad.
      cbn [SLOTS_SHEET PENDING_SHEET META_SHEET app].
      repeat (split_innermost_eq;
              cbn [SLOTS_SHEET PENDING_SHEET META_SHEET app sheets trace
                   fst snd]);
        try (left; reflexivity); try (right; reflexivity);
        exfalso;
        first
          [ match goal with
            | E : after_first _ _ = None, P : startswith "confirm:" _ = true
              |- _ => exact (Hconfirm _ P E)
            | E : after_first _ _ = None, P : startswith "cancel:" _ = true
              |- _ => exact (Hcancel _ P E)
            end
          | match goal with
            | E : first_pending _ _ = Some ?p |- _ =>
                apply first_pending_some in E as [E _];
                pose proof (proj1 (forallb_forall (pending_ok tz) pe) H2 p E)
                  as Hok;
                apply (slot_ok_parses tz (promoted p)) in Hok as [Hs He];
                cbn [promoted s_date s_start_time s_end_time] in Hs, He;
                congruence
            end ].
Qed.

Lemma well_formed_sheets_parse_witness :
  well_formed None sync_pending = true
  /\ fst (run (team_cmd None sync_env
                 (mk_update (-100) "supergroup" bob [])) sync_pending)
     = Done tt.
Proof.
  split; [reflexivity |].
  apply (proj2 (well_formed_sheets_parse
                  None delivering sync_env
                  (mk_update (-100) "supergroup" bob [])
                  (mk_query None al) sync_pending)
               eq_refl).
Defined.

(** ** A reminder tick on any confirmed sheet *)

Lemma flag_only_refl (l : list slot_row) : Forall2 flag_only l l.
Proof. induction l; constructor; [left; reflexivity | assumption]. Qed.

Lemma flag_only_trans (l1 l2 l3 : list slot_row) :
  Forall2 flag_only l1 l2 -> Forall2 flag_only l2 l3 ->
  Forall2 flag_only l1 l3.
Proof.
  intros H. revert l3. induction H as [| x y l1 l2 Hxy H IH]; intros l3 H3;
    inversion H3 as [| y' z l2' l3' Hyz H3' E1 E2]; subst; constructor.
  - destruct Hxy as [-> | ->]; destruct Hyz as [-> | ->];
      [left | right | right | right]; reflexivity.
  - apply IH. assumption.
Qed.

Lemma flag_only_update_at (l : list slot_row) (i : nat) :
  Forall2 flag_only l (update_at i (set_reminder_sent "yes") l).
Proof.
  revert i. induction l as [| x l IH]; intros i; destruct i; cbn;
    constructor; try (left; reflexivity); try (right; reflexivity);
    try apply flag_only_refl; apply IH.
Qed.

Lemma update_reminder_sent_footprint (q : string) (w : world) :
  exists b sl' evs,
    update_reminder_sent q w
      = (Done b,
         mk_world (mk_store sl' (PENDING_SHEET (sheets w))
                            (META_SHEET (sheets w)))
                  (trace w ++ evs))
    /\ Forall2 flag_only (SLOTS_SHEET (sheets w)) sl'
    /\ filter is_send evs = [].
Proof.
  destruct w as [[sl pe me] tr]. run_monad.
  cbn [SLOTS_SHEET PENDING_SHEET META_SHEET].
  destruct (find slots_header (map slot_cells sl) q) as [n |].
  - exists true, (update_cell_10 n "yes" sl),
      [Sheet (SlotsFind q); Sheet (SlotsUpdateCell n "yes")].
    split; [rewrite <- app_assoc; reflexivity |].
    split; [| reflexivity].
    destruct n as [| [| i]]; cbn [update_cell_10];
      [apply flag_only_refl | apply flag_only_refl |
       apply flag_only_update_at].
  - exists false, sl, [Sheet (SlotsFind q)].
    split; [reflexivity |]. split; [apply flag_only_refl | reflexivity].
Qed.

Lemma remind_loop_footprint (tz : option string)
      (net : list event -> string -> msg -> bool) (team : string)
      (now : datetime) (recs : list slot_row) :
  forall w,
  exists sl' evs,
    remind_loop tz net team now (wallclock now + minutes 15) recs w
      = (Done tt,
         mk_world (mk_store sl' (PENDING_SHEET (sheets w))
                            (META_SHEET (sheets w)))
                  (trace w ++ evs))
    /\ Forall2 flag_only (SLOTS_SHEET (sheets w)) sl'
    /\ Forall2 (fun ev rec => exists delivered,
                    ev = Send team (MsgReminder rec) delivered)
               (filter is_send evs) (filter (due tz now) recs).
Proof.
  induction recs as [| rec rest IH]; intros w.
  - exists (SLOTS_SHEET (sheets w)), [].
    destruct w as [[sl pe me] tr]. cbn. rewrite app_nil_r.
    split; [reflexivity |]. split; [apply flag_only_refl | constructor].
  - pose proof (due_unfold tz now rec) as Hdue.
    cbn [remind_loop filter].
    destruct (reminder_sent rec); [rewrite Hdue; apply IH |].
    destruct (make_dt tz (s_date rec) (s_start_time rec)) as [start_dt |];
      [| rewrite Hdue; apply IH].
    destruct (in_window now (wallclock now + minutes 15) start_dt);
      rewrite Hdue.
    + unfold bind at 1. unfold bind at 1. unfold bind at 1.
      unfold try_except, send_message, emit. cbn [trace sheets].
      destruct (net (trace w) team (MsgReminder rec)); cbv beta iota;
        cbn [sheets trace];
        match goal with
        | |- context [update_reminder_sent ?q ?w1] =>
            destruct (update_reminder_sent_footprint q w1)
              as (b & sl1 & evs2 & Hrun & Hrel & Hnosend)
        end;
        rewrite Hrun; cbv beta iota; unfold ret;
        match goal with
        | |- context [remind_loop _ _ _ _ _ rest ?w2] =>
            destruct (IH w2) as (sl' & evs3 & Hrun3 & Hrel3 & Hsend3)
        end;
        cbn [sheets trace SLOTS_SHEET PENDING_SHEET META_SHEET]
          in Hrun, Hrel, Hrun3, Hrel3 |- *;
        rewrite Hrun3; exists sl'; eexists;
        (split; [rewrite <- !app_assoc; reflexivity |]);
        (split; [exact (flag_only_trans _ _ _ Hrel Hrel3) |]);
        rewrite !filter_app, Hnosend; cbn [filter is_send app];
        (constructor; [eexists; reflexivity | exact Hsend3]).
    + unfold bind at 1. unfold ret at 1. cbv beta iota. apply IH.
Qed.

(** X21.  A reminder tick with a group registered, on any confirmed sheet
    (ids may repeat or be missing): it ends normally whatever the transport
    does, leaves the pending and the meta sheet alone, changes nothing on
    the confirmed sheet but reminder flags, which it only ever sets, and
    posts exactly one reminder per record that was due when the sheet was
    read, in sheet order, and nothing else. *)
Theorem check_reminders_footprint :
  forall (tz : option string) (net : list event -> string -> msg -> bool)
         (now : datetime) (s : store) (team : string),
    registered s team ->
    exists sl' tr,
      run (check_reminders tz net now) s
        = (Done tt, mk_world (mk_store sl' (PENDING_SHEET s) (META_SHEET s)) tr)
      /\ Forall2 flag_only (SLOTS_SHEET s) sl'
      /\ Forall2 (fun ev rec => exists delivered,
                      ev = Send team (MsgReminder rec) delivered)
                 (filter is_send tr)
                 (filter (due tz now) (SLOTS_SHEET s)).
Proof.
  intros tz net now s team Hreg.
  apply registered_truthy in Hreg as [Hteam Htruthy].
  unfold check_reminders. run_monad. rewrite Hteam, Htruthy.
  cbn [negb text_or_empty].
  destruct (remind_loop_footprint tz net team now (SLOTS_SHEET s)
              (mk_world s (([] ++ [Sheet MetaGetAllRecords])
                             ++ [Sheet SlotsGetAllRecords])))
    as (sl' & evs & Hrun & Hrel & Hsend).
  exists sl'. eexists. split; [exact Hrun |]. split; [exact Hrel |].
  cbn [trace]. rewrite filter_app. exact Hsend.
Qed.

Lemma check_reminders_footprint_witness :
  registered one_slot "-100"
  /\ exists sl' tr,
       run (check_reminders None failing at_0850) one_slot
         = (Done tt, mk_world (mk_store sl' [] team_meta) tr)
       /\ Forall2 (fun ev rec => exists delivered,
                       ev = Send "-100" (MsgReminder rec) delivered)
                  (filter is_send tr) [standup].
Proof.
  assert (registered one_slot "-100") as Hreg
      by (split; [reflexivity | intros H; discriminate H]).
  split; [exact Hreg |].
  destruct (check_reminders_footprint None failing at_0850 one_slot "-100"
              Hreg) as (sl' & tr & Hrun & _ & Hsend).
  exists sl', tr. split; [exact Hrun | exact Hsend].
Defined.
